(** * MCP test clients: stdio, streamable HTTP and legacy SSE

    A shallow embedding of the three JSON-RPC clients of [e2e_tests/]
    ([mcp_client.py], [http_client.py], [sse_client.py]) and the properties
    of their request numbering, session tracking, SSE line handling and
    response matching.

    Conventions of the embedding.
    - Python [bytes] values are [string]s (lists of 8-bit characters).  A
      [str] is held as bytes too: as its Latin-1 encoding where it comes
      from the HTTP header section (which [http.client] decodes that way),
      as its UTF-8 encoding where the code decodes UTF-8, and as it is read
      from the text pipe of the stdio client.
    - Python exceptions are values of [PyErr]; a function that may raise
      returns a [result].
    - [json.loads] is library code: the clients are parametrised by a decoder
      [json_loads : string -> option Json] ([None] when it raises).  A small
      reference decoder [json_loads_ref] is used at concrete inputs.
    - The outside world (pipes, sockets, the clock) is explicit state, and
      what the operating system and the server do is scripted in it: the
      results of the calls the code makes ([select], [readline], a
      connection attempt, a response) are what the script says, with the
      time at which each is there.
    - A client is used by one thread: [self._lock] guards nothing that the
      model can see. *)

From Stdlib Require Import ZArith List String Ascii Bool Lia Sorting.Sorted.
From Stdlib Require Import DecimalString.
Import ListNotations.

Set Warnings "-register-all".

Local Open Scope string_scope.
Local Open Scope Z_scope.

(** ** Python values and exceptions *)

(** JSON documents as [json.loads] builds them (numbers restricted to
    integers; a dict is an association list with distinct keys in insertion
    order). *)
Inductive Json : Type :=
| JNull
| JBool (b : bool)
| JNum (n : Z)
| JStr (s : string)
| JArr (items : list Json)
| JObj (fields : list (string * Json)).

(** Exceptions raised by the clients and by the library calls they make.
    The message keeps the literal text of the source; interpolated values
    are carried as separate arguments where a property depends on them.
    [JSONDecodeError] stands for whatever [json.loads] raises on its input
    (for [bytes] that are not UTF-8 that is a [UnicodeDecodeError], a
    [ValueError] too). *)
Inductive PyErr : Type :=
| TimeoutError (msg : string)
| RuntimeError (msg : string)
| SessionChanged (old new : string)   (* RuntimeError("Session ID changed: old -> new") *)
| UnexpectedContentType (ctype : string) (status : Z)
| JSONDecodeError
| TypeError
| AttributeError
| ValueError
| OSError (msg : string)
| BadStatusLine (text : string)
| UnicodeDecodeError
| UnicodeEncodeError
| InvalidURL (url : string).

Inductive result (A : Type) : Type :=
| Ok (a : A)
| Raise (e : PyErr).
Arguments Ok {A} a.
Arguments Raise {A} e.

(** ** Byte-string helpers ([bytes] and [str] methods used by the clients) *)

Module Py.

Definition dquote : ascii := ascii_of_nat 34.
Definition LF : ascii := ascii_of_nat 10.
Definition CR : ascii := ascii_of_nat 13.

Definition nl : string := String LF EmptyString.

(** [bytes.isspace]: space, tab, LF, VT, FF, CR. *)
Definition bytes_isspace (c : ascii) : bool :=
  let n := nat_of_ascii c in
  (Nat.eqb n 32 || (Nat.leb 9 n && Nat.leb n 13))%bool.

(** [str.isspace] for a [str] held as its Latin-1 bytes: the above, the
    separators 28..31, NEL (133) and the no-break space (160). *)
Definition str_isspace (c : ascii) : bool :=
  let n := nat_of_ascii c in
  (Nat.eqb n 32 || (Nat.leb 9 n && Nat.leb n 13)
   || (Nat.leb 28 n && Nat.leb n 31)
   || Nat.eqb n 133 || Nat.eqb n 160)%bool.

Fixpoint lstrip_by (p : ascii -> bool) (s : string) : string :=
  match s with
  | EmptyString => EmptyString
  | String c r => if p c then lstrip_by p r else s
  end.

(** Strip from the right: the result keeps a character when it, or
    something after it, is not stripped. *)
Fixpoint rstrip_by (p : ascii -> bool) (s : string) : string :=
  match s with
  | EmptyString => EmptyString
  | String c r =>
      match rstrip_by p r with
      | EmptyString => if p c then EmptyString else String c EmptyString
      | r' => String c r'
      end
  end.

(** [b.lstrip()] *)
Definition lstrip (s : string) : string := lstrip_by bytes_isspace s.

(** [b.rstrip(b"\r\n")] *)
Definition rstrip_crlf (s : string) : string :=
  rstrip_by (fun c => (Ascii.eqb c CR || Ascii.eqb c LF)%bool) s.

(** [s.strip()] on a [str] held as its Latin-1 bytes *)
Definition strip (s : string) : string :=
  rstrip_by str_isspace (lstrip_by str_isspace s).

(** [s.startswith(p)] *)
Definition startswith (p s : string) : bool := String.prefix p s.

(** [s[n:]] *)
Fixpoint drop (n : nat) (s : string) : string :=
  match n, s with
  | O, _ => s
  | S _, EmptyString => EmptyString
  | S n', String _ r => drop n' r
  end.

(** [s.split(";")[0]] *)
Fixpoint before_semicolon (s : string) : string :=
  match s with
  | EmptyString => EmptyString
  | String c r => if Ascii.eqb c ";" then EmptyString
                  else String c (before_semicolon r)
  end.

(** [x in s] for two strings: substring test. *)
Definition contains (x s : string) : bool :=
  match String.index 0 x s with
  | Some _ => true
  | None => false
  end.

(** One [readline()] on the unread bytes [s]: the line up to and including
    the first LF (or everything when there is none), and what is left. *)
Fixpoint readline (s : string) : string * string :=
  match s with
  | EmptyString => (EmptyString, EmptyString)
  | String c r =>
      if Ascii.eqb c LF then (String c EmptyString, r)
      else let '(l, rest) := readline r in (String c l, rest)
  end.

(** The successive results of [readline()] until end of stream. *)
Fixpoint readlines_fuel (fuel : nat) (s : string) : list string :=
  match fuel, s with
  | _, EmptyString => []
  | O, _ => []
  | S f, _ => let '(l, rest) := readline s in l :: readlines_fuel f rest
  end.

Definition readlines (s : string) : list string :=
  readlines_fuel (String.length s) s.

(** The lines of [s] that are complete: those that end with LF (all but,
    possibly, the last). *)
Fixpoint ends_with_lf (s : string) : bool :=
  match s with
  | EmptyString => false
  | String c EmptyString => Ascii.eqb c LF
  | String _ r => ends_with_lf r
  end.

Definition whole_lines (s : string) : list string :=
  filter ends_with_lf (readlines s).

(** *** UTF-8

    [b.decode("utf-8")] raises on bytes that are not UTF-8 and otherwise
    gives a [str], which the model holds as these same bytes. *)

Definition in_range (lo hi : nat) (c : ascii) : bool :=
  (Nat.leb lo (nat_of_ascii c) && Nat.leb (nat_of_ascii c) hi)%bool.

(** A continuation byte. *)
Definition cont (c : ascii) : bool := in_range 128 191 c.

(** Well-formed UTF-8: shortest forms only, no surrogates, nothing above
    U+10FFFF. *)
Fixpoint utf8_valid (s : string) : bool :=
  match s with
  | EmptyString => true
  | String a r =>
      if in_range 0 127 a then utf8_valid r
      else if in_range 194 223 a then
        match r with
        | String b r1 => (cont b && utf8_valid r1)%bool
        | EmptyString => false
        end
      else if in_range 224 239 a then
        match r with
        | String b (String c r2) =>
            ((if in_range 224 224 a then in_range 160 191 b
              else if in_range 237 237 a then in_range 128 159 b
              else cont b)
             && cont c && utf8_valid r2)%bool
        | _ => false
        end
      else if in_range 240 244 a then
        match r with
        | String b (String c (String d r3)) =>
            ((if in_range 240 240 a then in_range 144 191 b
              else if in_range 244 244 a then in_range 128 143 b
              else cont b)
             && cont c && cont d && utf8_valid r3)%bool
        | _ => false
        end
      else false
  end.

(** [str.isspace] on the UTF-8 bytes of a character: one byte for the
    ASCII white space and the separators 28..31; two for U+0085 and U+00A0;
    three for U+1680, U+2000..U+200A, U+2028, U+2029, U+202F, U+205F and
    U+3000. *)
Definition space1 (a : ascii) : bool :=
  (in_range 9 13 a || in_range 28 32 a)%bool.

Definition space2 (a b : ascii) : bool :=
  (in_range 194 194 a && (in_range 133 133 b || in_range 160 160 b))%bool.

Definition space3 (a b c : ascii) : bool :=
  ((in_range 225 225 a && in_range 154 154 b && in_range 128 128 c)
   || (in_range 226 226 a && in_range 128 128 b
       && (in_range 128 138 c || in_range 168 169 c || in_range 175 175 c))
   || (in_range 226 226 a && in_range 129 129 b && in_range 159 159 c)
   || (in_range 227 227 a && in_range 128 128 b && in_range 128 128 c))%bool.

(** [s.lstrip()] on a [str] held as UTF-8. *)
Fixpoint ulstrip (s : string) : string :=
  match s with
  | EmptyString => EmptyString
  | String a r =>
      if space1 a then ulstrip r
      else
        match r with
        | String b r1 =>
            if space2 a b then ulstrip r1
            else
              match r1 with
              | String c r2 => if space3 a b c then ulstrip r2 else s
              | EmptyString => s
              end
        | EmptyString => s
        end
  end.

(** The same from the right, on the reversed bytes. *)
Fixpoint ulstrip_rev (s : string) : string :=
  match s with
  | EmptyString => EmptyString
  | String c r =>
      if space1 c then ulstrip_rev r
      else
        match r with
        | String b r1 =>
            if space2 b c then ulstrip_rev r1
            else
              match r1 with
              | String a r2 => if space3 a b c then ulstrip_rev r2 else s
              | EmptyString => s
              end
        | EmptyString => s
        end
  end.

Fixpoint rev_onto (s acc : string) : string :=
  match s with
  | EmptyString => acc
  | String c r => rev_onto r (String c acc)
  end.

Definition reverse (s : string) : string := rev_onto s EmptyString.

(** [s.strip()] on a [str] held as UTF-8. *)
Definition ustrip (s : string) : string :=
  reverse (ulstrip_rev (reverse (ulstrip s))).

(** [b.decode("utf-8")] *)
Definition decode_utf8 (s : string) : option string :=
  if utf8_valid s then Some s else None.

End Py.

(** ** Operations on decoded JSON values *)

Fixpoint assoc_get (k : string) (kv : list (string * Json)) : option Json :=
  match kv with
  | [] => None
  | (k', v) :: r => if String.eqb k k' then Some v else assoc_get k r
  end.

(** [d[k] = v] on a dict: replace in place, or append a new key. *)
Fixpoint assoc_set (k : string) (v : Json) (kv : list (string * Json))
  : list (string * Json) :=
  match kv with
  | [] => [(k, v)]
  | (k', v') :: r =>
      if String.eqb k k' then (k, v) :: r else (k', v') :: assoc_set k v r
  end.

(** [m.get(k)]: [None] is [JNull]; a value that is not a dict has no [get]. *)
Definition py_get (k : string) (m : Json) : result Json :=
  match m with
  | JObj kv => Ok (match assoc_get k kv with Some v => v | None => JNull end)
  | _ => Raise AttributeError
  end.

(** [k in m] for a string [k]: key membership on a dict, element membership
    on a list, substring on a string, [TypeError] elsewhere. *)
Definition py_contains (k : string) (m : Json) : result bool :=
  match m with
  | JObj kv => Ok (match assoc_get k kv with Some _ => true | None => false end)
  | JArr l =>
      Ok (existsb (fun x => match x with JStr s => String.eqb s k | _ => false end) l)
  | JStr s => Ok (Py.contains k s)
  | _ => Raise TypeError
  end.

(** [v == n] for an [int] [n] ([True == 1] and [False == 0] in Python). *)
Definition py_eq_int (v : Json) (n : Z) : bool :=
  match v with
  | JNum m => Z.eqb m n
  | JBool b => Z.eqb (if b then 1 else 0) n
  | _ => false
  end.

(** [a == b] on decoded documents: numbers and booleans compare as
    integers, lists element by element, dicts key by key. *)
Fixpoint py_eq (a b : Json) {struct a} : bool :=
  match a, b with
  | JNull, JNull => true
  | JBool x, JBool y => Bool.eqb x y
  | JBool x, JNum n => Z.eqb (if x then 1 else 0) n
  | JNum n, JBool y => Z.eqb n (if y then 1 else 0)
  | JNum n, JNum m => Z.eqb n m
  | JStr s, JStr t => String.eqb s t
  | JArr l, JArr l' =>
      (fix all2 (l l' : list Json) {struct l} : bool :=
         match l, l' with
         | [], [] => true
         | x :: r, y :: r' => (py_eq x y && all2 r r')%bool
         | _, _ => false
         end) l l'
  | JObj kv, JObj kv' =>
      (Nat.eqb (List.length kv) (List.length kv')
       && (fix all (kv : list (string * Json)) {struct kv} : bool :=
             match kv with
             | [] => true
             | (k, v) :: r =>
                 (match assoc_get k kv' with
                  | Some v' => py_eq v v'
                  | None => false
                  end && all r)%bool
             end) kv)%bool
  | _, _ => false
  end.

(** Truth value of a decoded document ([if x], [not x], [x or y]). *)
Definition truthy (v : Json) : bool :=
  match v with
  | JNull => false
  | JBool b => b
  | JNum n => negb (Z.eqb n 0)
  | JStr s => negb (String.eqb s "")
  | JArr l => match l with [] => false | _ => true end
  | JObj kv => match kv with [] => false | _ => true end
  end.

(** ** A reference decoder for [json.loads]

    Covers objects, arrays, strings with the simple escapes, integers and
    the three literals; anything else (fractions, exponents, [\u] escapes)
    is outside its domain and yields [None]. *)

Module JsonRef.

Definition is_ws (c : ascii) : bool :=
  let n := nat_of_ascii c in
  (Nat.eqb n 32 || Nat.eqb n 9 || Nat.eqb n 10 || Nat.eqb n 13)%bool.

Definition skip_ws (s : string) : string := Py.lstrip_by is_ws s.

Definition is_digit (c : ascii) : bool :=
  let n := nat_of_ascii c in (Nat.leb 48 n && Nat.leb n 57)%bool.

Definition digit_val (c : ascii) : Z := Z.of_nat (nat_of_ascii c) - 48.

Fixpoint digits (acc : Z) (s : string) : Z * string :=
  match s with
  | String c r => if is_digit c then digits (10 * acc + digit_val c) r
                  else (acc, s)
  | EmptyString => (acc, s)
  end.

Definition float_mark (s : string) : bool :=
  match s with
  | String c _ => (Ascii.eqb c "." || Ascii.eqb c "e" || Ascii.eqb c "E")%bool
  | EmptyString => false
  end.

(** An integer without sign: no leading zero, no fraction or exponent. *)
Definition parse_nat (s : string) : option (Z * string) :=
  match s with
  | String c r =>
      if Ascii.eqb c "0" then
        if float_mark r then None else Some (0, r)
      else if is_digit c then
        let '(n, rest) := digits 0 s in
        if float_mark rest then None else Some (n, rest)
      else None
  | EmptyString => None
  end.

Definition parse_int (s : string) : option (Z * string) :=
  match s with
  | String c r =>
      if Ascii.eqb c "-" then
        match parse_nat r with
        | Some (n, rest) => Some (- n, rest)
        | None => None
        end
      else parse_nat s
  | EmptyString => None
  end.

Definition unescape (c : ascii) : option ascii :=
  if Ascii.eqb c Py.dquote then Some Py.dquote
  else if Ascii.eqb c "\" then Some "\"%char
  else if Ascii.eqb c "/" then Some "/"%char
  else if Ascii.eqb c "n" then Some Py.LF
  else if Ascii.eqb c "r" then Some Py.CR
  else if Ascii.eqb c "t" then Some (ascii_of_nat 9)
  else if Ascii.eqb c "b" then Some (ascii_of_nat 8)
  else if Ascii.eqb c "f" then Some (ascii_of_nat 12)
  else None.

(** The body of a string literal, after the opening quote. *)
Fixpoint parse_str (s : string) : option (string * string) :=
  match s with
  | EmptyString => None
  | String c r =>
      if Ascii.eqb c Py.dquote then Some (EmptyString, r)
      else if Ascii.eqb c "\" then
        match r with
        | String e r' =>
            match unescape e, parse_str r' with
            | Some x, Some (body, rest) => Some (String x body, rest)
            | _, _ => None
            end
        | EmptyString => None
        end
      else if Nat.ltb (nat_of_ascii c) 32 then None
      else match parse_str r with
           | Some (body, rest) => Some (String c body, rest)
           | None => None
           end
  end.

Definition expect (lit : string) (v : Json) (s : string) : option (Json * string) :=
  if String.prefix lit s then Some (v, Py.drop (String.length lit) s) else None.

Fixpoint parse_value (fuel : nat) (s : string) {struct fuel}
  : option (Json * string) :=
  match fuel with
  | O => None
  | S f =>
      match skip_ws s with
      | EmptyString => None
      | String c r as s' =>
          if Ascii.eqb c "n" then expect "null" JNull s'
          else if Ascii.eqb c "t" then expect "true" (JBool true) s'
          else if Ascii.eqb c "f" then expect "false" (JBool false) s'
          else if Ascii.eqb c Py.dquote then
            match parse_str r with
            | Some (body, rest) => Some (JStr body, rest)
            | None => None
            end
          else if Ascii.eqb c "[" then
            match skip_ws r with
            | String c' r' =>
                if Ascii.eqb c' "]" then Some (JArr [], r')
                else parse_items f r []
            | EmptyString => None
            end
          else if Ascii.eqb c "{" then
            match skip_ws r with
            | String c' r' =>
                if Ascii.eqb c' "}" then Some (JObj [], r')
                else parse_fields f r []
            | EmptyString => None
            end
          else
            match parse_int s' with
            | Some (n, rest) => Some (JNum n, rest)
            | None => None
            end
      end
  end
with parse_items (fuel : nat) (s : string) (acc : list Json) {struct fuel}
  : option (Json * string) :=
  match fuel with
  | O => None
  | S f =>
      match parse_value f s with
      | Some (v, rest) =>
          match skip_ws rest with
          | String c r =>
              if Ascii.eqb c "," then parse_items f r (v :: acc)
              else if Ascii.eqb c "]" then Some (JArr (rev (v :: acc)), r)
              else None
          | EmptyString => None
          end
      | None => None
      end
  end
with parse_fields (fuel : nat) (s : string) (acc : list (string * Json))
       {struct fuel} : option (Json * string) :=
  match fuel with
  | O => None
  | S f =>
      match skip_ws s with
      | String q r =>
          if Ascii.eqb q Py.dquote then
            match parse_str r with
            | Some (key, rest) =>
                match skip_ws rest with
                | String c r1 =>
                    if Ascii.eqb c ":" then
                      match parse_value f r1 with
                      | Some (v, rest') =>
                          match skip_ws rest' with
                          | String c' r2 =>
                              if Ascii.eqb c' "," then
                                parse_fields f r2 (assoc_set key v acc)
                              else if Ascii.eqb c' "}" then
                                Some (JObj (assoc_set key v acc), r2)
                              else None
                          | EmptyString => None
                          end
                      | None => None
                      end
                    else None
                | EmptyString => None
                end
            | None => None
            end
          else None
      | EmptyString => None
      end
  end.

(** [json.loads(s)]: one value, surrounded by optional whitespace. *)
Definition json_loads_ref (s : string) : option Json :=
  match parse_value (S (String.length s)) s with
  | Some (v, rest) =>
      match skip_ws rest with
      | EmptyString => Some v
      | _ => None
      end
  | None => None
  end.

End JsonRef.

(** ** SSE data lines

    [buf += line[5:].lstrip() + b"\n"], as the three SSE loops have it, for
    a [line] that starts with [data:]. *)

Definition accumulate_data (buf line : string) : string :=
  buf ++ Py.lstrip (Py.drop 5 line) ++ Py.nl.

(** [json.loads(buf.decode("utf-8"))] inside [try ... except Exception:
    msg = None], at the end of an event: [None] stands for Python's [None],
    whichever of the two calls raised. *)
Definition decode_event (json_loads : string -> option Json) (buf : string)
  : option Json :=
  match Py.decode_utf8 buf with
  | Some text => json_loads text
  | None => None
  end.

(** ** Time

    Clock readings and timeouts are integers, in milliseconds.  Code takes no
    time; time passes only while a client is blocked reading. *)

Definition seconds (n : Z) : Z := 1000 * n.

(** Blocked at [now] for at most [timeout]: something that is there at [t]
    is seen when it is already there or comes before the timeout expires. *)
Definition arrives_within (now t timeout : Z) : bool :=
  ((t <=? now) || (t <? now + timeout))%bool.

(** ** The stdio client ([mcp_client.py]) *)

Module Stdio.

(** The server's stdout as the client meets it.  The client never reads
    the descriptor directly: it calls [select] on it and then [readline()]
    on the buffered text stream above it.  So the output is scripted as the
    reads to come.  For each one, [ready_at] is when [select] reports the
    descriptor readable ([None]: it never does - the line already sits in
    the buffer of the text stream, say, and nothing more is written);
    [done_at] is when the [readline()] that follows returns ([None]: never -
    a line was begun and is not completed); [text] is what it returns (the
    empty string at end of stream). *)
Record Read : Type := mkRead {
  ready_at : option Z;
  done_at : option Z;
  text : string
}.

(** A line that arrives whole at [t]. *)
Definition whole (t : Z) (line : string) : Read := mkRead (Some t) (Some t) line.

(** The server process as the client sees it.  [now] is the clock; it
    advances only while the client is blocked in [select] or in
    [readline()].  [pipe] holds the reads to come; once they are used up,
    [closed_at] is when the server closes its stdout ([None]: it keeps it
    open and writes nothing more).  [stdin_open] tells whether the server
    still reads its stdin, and [written] logs the documents the client wrote
    there. *)
Record World : Type := mkWorld {
  now : Z;
  pipe : list Read;
  closed_at : option Z;
  stdin_open : bool;
  written : list Json
}.

Definition set_now (t : Z) (w : World) : World :=
  mkWorld t (pipe w) (closed_at w) (stdin_open w) (written w).

(** When the descriptor is readable for the next read (a line, or the end
    of the stream). *)
Definition available_at (w : World) : option Z :=
  match pipe w with
  | r :: _ => ready_at r
  | [] => closed_at w
  end.

(** [select.select([fd], [], [], timeout)] for [0 <= timeout]: readable when
    the descriptor already is, or becomes so before the timeout expires. *)
Definition select (timeout : Z) (w : World) : bool * World :=
  match available_at w with
  | Some t =>
      if arrives_within (now w) t timeout
      then (true, set_now (Z.max (now w) t) w)
      else (false, set_now (now w + timeout) w)
  | None => (false, set_now (now w + timeout) w)
  end.

(** [self._out.readline()]: it takes no timeout, and returns when the line
    is there - the next line, or the empty string at end of stream.  [None]
    is a call that never returns. *)
Definition readline (w : World) : option (string * World) :=
  match pipe w with
  | r :: rest =>
      match done_at r with
      | Some t =>
          Some (text r,
                mkWorld (Z.max (now w) t) rest (closed_at w) (stdin_open w)
                  (written w))
      | None => None
      end
  | [] => Some (EmptyString, w)
  end.

(** [self._next_id] and [self._notifications]. *)
Record Client : Type := mkClient {
  _next_id : Z;
  _notifications : list Json
}.

(** [__init__] *)
Definition init : Client := mkClient 1 [].

Section WithDecoder.

Variable json_loads : string -> option Json.

(** [_write_msg]: one document and a newline on the server's stdin. *)
Definition _write_msg (msg : Json) (w : World) : World * result unit :=
  if stdin_open w
  then (mkWorld (now w) (pipe w) (closed_at w) true (written w ++ [msg]), Ok tt)
  else (w, Raise (OSError "Broken pipe")).

(** [_read_msgs_once]; [None] when its [readline()] never returns. *)
Definition _read_msgs_once (timeout : Z) (w : World)
  : option (World * result (list Json)) :=
  if timeout <? 0 then Some (w, Raise ValueError)
  else
    let '(rlist, w1) := select timeout w in
    if negb rlist
    then Some (w1, Raise (TimeoutError "Timed out waiting for server output"))
    else
      match readline w1 with
      | None => None
      | Some (line, w2) =>
          if String.eqb line ""
          then Some (w2, Raise (RuntimeError "Server closed stdout (no more JSON)"))
          else
            match json_loads line with
            | None => Some (w2, Raise JSONDecodeError)
            | Some (JArr data) => Some (w2, Ok data)
            | Some data => Some (w2, Ok [data])
            end
      end.

(** The [for msg in msgs] loop of [_await_response]: [Ok (Some m)] when it
    returns [m], [Ok None] when it runs to the end of [msgs]. *)
Fixpoint scan_msgs (req_id : Z) (msgs : list Json) (notes : list Json)
  : list Json * result (option Json) :=
  match msgs with
  | [] => (notes, Ok None)
  | msg :: rest =>
      match py_contains "id" msg with
      | Raise e => (notes, Raise e)
      | Ok false => scan_msgs req_id rest (notes ++ [msg])
      | Ok true =>
          match py_get "id" msg with
          | Raise e => (notes, Raise e)
          | Ok v =>
              if py_eq_int v req_id then (notes, Ok (Some msg))
              else scan_msgs req_id rest notes
          end
      end
  end.

(** The [while time.time() < deadline] loop of [_await_response].  Every
    turn that does not leave the loop takes a read from the pipe, so the
    number of pending reads bounds the number of turns, and [fuel] above it
    is never used up; [None] is then a [readline()] that never returns. *)
Fixpoint await_loop (fuel : nat) (req_id deadline : Z) (c : Client) (w : World)
  : option (Client * World * result Json) :=
  match fuel with
  | O => None
  | S fuel' =>
      if now w <? deadline then
        match _read_msgs_once (Z.max 0 (deadline - now w)) w with
        | None => None
        | Some (w1, Raise e) => Some (c, w1, Raise e)
        | Some (w1, Ok msgs) =>
            let '(notes, found) := scan_msgs req_id msgs (_notifications c) in
            let c1 := mkClient (_next_id c) notes in
            match found with
            | Raise e => Some (c1, w1, Raise e)
            | Ok (Some msg) => Some (c1, w1, Ok msg)
            | Ok None => await_loop fuel' req_id deadline c1 w1
            end
        end
      else Some (c, w, Raise (TimeoutError "No response for id within timeout"))
  end.

(** [_await_response] *)
Definition _await_response (req_id timeout : Z) (c : Client) (w : World)
  : option (Client * World * result Json) :=
  let deadline := now w + timeout in
  await_loop (S (List.length (pipe w))) req_id deadline c w.

Definition initialize_request (rid : Z) (client_name version protocol_version : string)
  : Json :=
  JObj [("jsonrpc", JStr "2.0");
        ("id", JNum rid);
        ("method", JStr "initialize");
        ("params",
          JObj [("protocolVersion", JStr protocol_version);
                ("clientInfo",
                  JObj [("name", JStr client_name); ("version", JStr version)]);
                ("capabilities", JObj [])])].

(** [initialize] *)
Definition initialize (client_name version protocol_version : string)
  (c : Client) (w : World) : option (Client * World * result Json) :=
  let rid := _next_id c in
  let c := mkClient (_next_id c + 1) (_notifications c) in
  let req := initialize_request rid client_name version protocol_version in
  match _write_msg req w with
  | (w, Raise e) => Some (c, w, Raise e)
  | (w, Ok _) =>
      match _await_response rid (seconds 10) c w with
      | None => None
      | Some (c, w, Raise e) => Some (c, w, Raise e)
      | Some (c, w, Ok resp) =>
          match py_contains "error" resp with
          | Raise e => Some (c, w, Raise e)
          | Ok true => Some (c, w, Raise (RuntimeError "initialize failed"))
          | Ok false => Some (c, w, Ok resp)
          end
      end
  end.

(** [send_initialized] *)
Definition send_initialized (c : Client) (w : World) : Client * World * result unit :=
  let note := JObj [("jsonrpc", JStr "2.0");
                    ("method", JStr "notifications/initialized");
                    ("params", JObj [])] in
  let '(w, r) := _write_msg note w in (c, w, r).

Definition request_message (rid : Z) (method : string) (params : option Json) : Json :=
  let req := [("jsonrpc", JStr "2.0"); ("id", JNum rid); ("method", JStr method)] in
  match params with
  | Some p => JObj (assoc_set "params" p req)
  | None => JObj req
  end.

(** [request] *)
Definition request (method : string) (params : option Json) (timeout : Z)
  (c : Client) (w : World) : option (Client * World * result Json) :=
  let rid := _next_id c in
  let c := mkClient (_next_id c + 1) (_notifications c) in
  let req := request_message rid method params in
  match _write_msg req w with
  | (w, Raise e) => Some (c, w, Raise e)
  | (w, Ok _) => _await_response rid timeout c w
  end.

(** [tools_list] *)
Definition tools_list (c : Client) (w : World) :=
  request "tools/list" (Some (JObj [])) (seconds 30) c w.

Definition tools_call_params (name : string) (arguments : option Json) : Json :=
  let params := [("name", JStr name)] in
  match arguments with
  | Some a => JObj (assoc_set "arguments" a params)
  | None => JObj params
  end.

(** [tools_call] *)
Definition tools_call (name : string) (arguments : option Json) (timeout : Z)
  (c : Client) (w : World) :=
  request "tools/call" (Some (tools_call_params name arguments)) timeout c w.

(** A caller: any sequence of the client's public methods, each result
    (value or exception) discarded. *)
Inductive Op : Type :=
| Initialize (client_name version protocol_version : string)
| SendInitialized
| Request (method : string) (params : option Json) (timeout : Z)
| ToolsList
| ToolsCall (name : string) (arguments : option Json) (timeout : Z).

Definition forget {A} (r : option (Client * World * result A)) : option (Client * World) :=
  match r with
  | Some (c, w, _) => Some (c, w)
  | None => None
  end.

Definition step (op : Op) (c : Client) (w : World) : option (Client * World) :=
  match op with
  | Initialize n v pv => forget (initialize n v pv c w)
  | SendInitialized => forget (Some (send_initialized c w))
  | Request m p t => forget (request m p t c w)
  | ToolsList => forget (tools_list c w)
  | ToolsCall n a t => forget (tools_call n a t c w)
  end.

Fixpoint run (ops : list Op) (c : Client) (w : World) : option (Client * World) :=
  match ops with
  | [] => Some (c, w)
  | op :: rest =>
      match step op c w with
      | Some (c, w) => run rest c w
      | None => None
      end
  end.

End WithDecoder.



End Stdio.

(** ** The streamable HTTP client ([http_client.py]) *)

Module Http.

(** What becomes of one POST.
    - [Refused]: the connection cannot be made; [conn.request] raises and
      nothing is sent.
    - [NoResponse text]: the request goes out and no status line comes back;
      [getresponse] raises [BadStatusLine], whose text is [text].
    - [Dropped e]: [getresponse] raises [e] (a timeout, a reset connection).
    - [Response status sid ctype body]: a response with its status, its
      [Mcp-Session-Id] and [Content-Type] headers ([None] when absent) and
      its body, which arrives whole.
    - [Truncated status sid ctype received e]: a response whose body does
      not arrive whole: after the bytes [received], reading raises [e]. *)
Inductive Reply : Type :=
| Refused
| NoResponse (text : string)
| Dropped (e : PyErr)
| Response (status : Z) (sid : option string) (ctype : option string)
    (body : string)
| Truncated (status : Z) (sid : option string) (ctype : option string)
    (received : string) (e : PyErr).

(** What the client does to the network, in order. *)
Inductive Io : Type :=
| Post (headers : list (string * string)) (body : Json)
| Drain          (* resp.read() *)
| RespClose      (* resp.close() *)
| ConnClose.     (* conn.close() *)

(** [server] scripts what becomes of the successive POSTs (none left: the
    connection is refused); [trace] logs the client's actions. *)
Record World : Type := mkWorld {
  server : list Reply;
  trace : list Io
}.

Definition log (evs : list Io) (w : World) : World :=
  mkWorld (server w) (trace w ++ evs).

(** [protocol_version] is a legal header value (no bare CR or LF), as
    [conn.request] requires of the headers it is given. *)
Record Client : Type := mkClient {
  protocol_version : string;
  session_id : string;
  _next_id : Z
}.

(** [__init__] *)
Definition init (protocol_version : string) : Client :=
  mkClient protocol_version "" 1.

Definition set_session (sid : string) (c : Client) : Client :=
  mkClient (protocol_version c) sid (_next_id c).

Definition bump (c : Client) : Client :=
  mkClient (protocol_version c) (session_id c) (_next_id c + 1).

(** [_headers] *)
Definition _headers (c : Client) : list (string * string) :=
  let h := [("Content-Type", "application/json");
            ("Accept", "application/json, text/event-stream");
            ("Mcp-Protocol-Version", protocol_version c);
            ("Connection", "close")] in
  if negb (String.eqb (session_id c) "")
  then h ++ [("Mcp-Session-Id", session_id c)]
  else h.

(** Truth value of [resp.getheader(...)]: present and not empty. *)
Definition header_set (h : option string) : bool :=
  match h with
  | Some s => negb (String.eqb s "")
  | None => false
  end.

Definition header_or_empty (h : option string) : string :=
  match h with
  | Some s => s
  | None => ""
  end.

(** Lines 53-59 of [_send_and_read]: record the session id of the first
    response that has one, refuse a later different one. *)
Definition observe_session (sid : option string) (c : Client) : result Client :=
  if (header_set sid && String.eqb (session_id c) "")%bool
  then Ok (set_session (header_or_empty sid) c)
  else if (header_set sid && negb (String.eqb (session_id c) "")
           && negb (String.eqb (header_or_empty sid) (session_id c)))%bool
  then Raise (SessionChanged (session_id c) (header_or_empty sid))
  else Ok c.

(** What [payload.get("id")] gives for a payload built by the client: the
    request id, an [int], or [None] for a notification. *)
Definition id_value (target : option Z) : Json :=
  match target with
  | Some n => JNum n
  | None => JNull
  end.

(** [resp.read()] *)
Definition read_body (body : string) (broken : option PyErr) : result string :=
  match broken with
  | Some e => Raise e
  | None => Ok body
  end.

(** The successive results of [resp.readline()] before the body ends:
    every line of a body that arrives whole, the complete lines of one that
    does not. *)
Definition response_lines (body : string) (broken : option PyErr) : list string :=
  match broken with
  | Some _ => Py.whole_lines body
  | None => Py.readlines body
  end.

Section WithDecoder.

Variable json_loads : string -> option Json.

(** The [for m in msg] loop over a batched array, [target_id] being the
    value of [payload.get("id")]. *)
Fixpoint scan_batch_for (target_id : Json) (expect_response : bool)
  (msgs : list Json) : result (option Json) :=
  match msgs with
  | [] => Ok None
  | m :: rest =>
      if negb expect_response then scan_batch_for target_id expect_response rest
      else
        match py_get "id" m with
        | Raise e => Raise e
        | Ok v =>
            if py_eq v target_id then Ok (Some m)
            else scan_batch_for target_id expect_response rest
        end
  end.

(** What the end of one event does with the decoded buffer. *)
Definition match_event_for (target_id : Json) (expect_response : bool)
  (msg : option Json) : result (option Json) :=
  match msg with
  | Some (JArr msgs) => scan_batch_for target_id expect_response msgs
  | Some (JObj kv) =>
      if negb expect_response then Ok None
      else
        match py_get "id" (JObj kv) with
        | Raise e => Raise e
        | Ok v => if py_eq v target_id then Ok (Some (JObj kv)) else Ok None
        end
  | _ => Ok None
  end.

(** The [while True] loop over the lines of an event stream; [lines] are
    the successive results of [resp.readline()] and [buf] the data
    accumulated so far.  [Ok (Some m)] returns [m]; [Ok None] is coming to
    the end of [lines]. *)
Fixpoint sse_loop_for (target_id : Json) (expect_response : bool)
  (lines : list string) (buf : string) : result (option Json) :=
  match lines with
  | [] => Ok None
  | chunk :: rest =>
      if String.eqb chunk "" then Ok None
      else
        let line := Py.rstrip_crlf chunk in
        if Py.startswith "data:" line then
          sse_loop_for target_id expect_response rest
            (accumulate_data buf line)
        else if String.eqb line "" then
          if negb (String.eqb buf "") then
            match match_event_for target_id expect_response
                    (decode_event json_loads buf) with
            | Raise e => Raise e
            | Ok (Some m) => Ok (Some m)
            | Ok None => sse_loop_for target_id expect_response rest ""
            end
          else sse_loop_for target_id expect_response rest buf
        else sse_loop_for target_id expect_response rest buf
  end.

(** The same for a request of the client, whose id is an [int], and for a
    notification, which has none. *)
Definition scan_batch (target : option Z) : bool -> list Json -> result (option Json) :=
  scan_batch_for (id_value target).

Definition match_event (target : option Z) : bool -> option Json -> result (option Json) :=
  match_event_for (id_value target).

Definition sse_loop (target : option Z)
  : bool -> list string -> string -> result (option Json) :=
  sse_loop_for (id_value target).

(** The part of [_send_and_read] after the session check (lines 61-127):
    the result, and what is done to the response and the connection.
    [broken] is the exception that reading raises when the body does not
    arrive whole. *)
Definition read_response (payload : Json) (expect_response : bool)
  (status : Z) (ctype_header : option string) (body : string)
  (broken : option PyErr) : list Io * result (option Json) :=
  if ((status =? 202) || (status =? 204) || negb expect_response)%bool
  then
    ([Drain; RespClose; ConnClose],
     match read_body body broken with
     | Raise e => Raise e
     | Ok _ => Ok None
     end)
  else
    let ctype := Py.strip (Py.before_semicolon (header_or_empty ctype_header)) in
    if String.eqb ctype "application/json" then
      match read_body body broken with
      | Raise e => ([Drain], Raise e)
      | Ok data =>
          ([Drain; RespClose; ConnClose],
           if negb (String.eqb data "") then
             match json_loads data with
             | Some v => Ok (Some v)
             | None => Raise JSONDecodeError
             end
           else Ok None)
      end
    else if String.eqb ctype "text/event-stream" then
      match py_get "id" payload with
      | Raise e => ([], Raise e)
      | Ok target_id =>
          match sse_loop_for target_id expect_response
                  (response_lines body broken) "" with
          | Raise e => ([], Raise e)
          | Ok (Some m) => ([RespClose; ConnClose], Ok (Some m))
          | Ok None =>
              match broken with
              | Some e => ([], Raise e)
              | None => ([RespClose; ConnClose], Ok None)
              end
          end
      end
    else
      match read_body body broken with
      | Raise e => ([Drain], Raise e)
      | Ok _ =>
          ([Drain; RespClose; ConnClose],
           Raise (UnexpectedContentType ctype status))
      end.

(** [getresponse] raised [BadStatusLine]: lines 45-50. *)
Definition bad_status_line (text : string) (expect_response : bool)
  (c : Client) (w : World) : Client * World * result (option Json) :=
  if (negb expect_response
      && (String.eqb (Py.strip text) "0" || String.eqb (Py.strip text) ""))%bool
  then (c, log [ConnClose] w, Ok None)
  else (c, w, Raise (BadStatusLine text)).

(** [getresponse] returned: lines 52-127. *)
Definition received (payload : Json) (expect_response : bool)
  (status : Z) (sid ctype : option string) (body : string)
  (broken : option PyErr) (c : Client) (w : World)
  : Client * World * result (option Json) :=
  match observe_session sid c with
  | Raise e =>
      (c, log [Drain] w,
       match read_body body broken with
       | Raise e' => Raise e'
       | Ok _ => Raise e
       end)
  | Ok c =>
      let '(evs, r) :=
        read_response payload expect_response status ctype body broken in
      (c, log evs w, r)
  end.

(** [_send_and_read] *)
Definition _send_and_read (payload : Json) (expect_response : bool)
  (c : Client) (w : World) : Client * World * result (option Json) :=
  match server w with
  | [] => (c, w, Raise (OSError "Connection refused"))
  | reply :: rest =>
      let w := mkWorld rest (trace w) in
      let sent := log [Post (_headers c) payload] w in
      match reply with
      | Refused => (c, w, Raise (OSError "Connection refused"))
      | NoResponse text => bad_status_line text expect_response c sent
      | Dropped (BadStatusLine text) =>
          bad_status_line text expect_response c sent
      | Dropped e => (c, sent, Raise e)
      | Response status sid ctype body =>
          received payload expect_response status sid ctype body None c sent
      | Truncated status sid ctype body e =>
          received payload expect_response status sid ctype body (Some e) c sent
      end
  end.

Definition initialize_request (rid : Z) (client_name version protocol_version : string)
  : Json :=
  JObj [("jsonrpc", JStr "2.0");
        ("id", JNum rid);
        ("method", JStr "initialize");
        ("params",
          JObj [("protocolVersion", JStr protocol_version);
                ("clientInfo",
                  JObj [("name", JStr client_name); ("version", JStr version)]);
                ("capabilities", JObj [])])].

(** [initialize] *)
Definition initialize (client_name version : string) (c : Client) (w : World)
  : Client * World * result Json :=
  let rid := _next_id c in
  let c := bump c in
  let req := initialize_request rid client_name version (protocol_version c) in
  match _send_and_read req true c w with
  | (c, w, Raise e) => (c, w, Raise e)
  | (c, w, Ok None) => (c, w, Raise (RuntimeError "initialize failed"))
  | (c, w, Ok (Some resp)) =>
      if negb (truthy resp) then (c, w, Raise (RuntimeError "initialize failed"))
      else
        match py_contains "error" resp with
        | Raise e => (c, w, Raise e)
        | Ok true => (c, w, Raise (RuntimeError "initialize failed"))
        | Ok false => (c, w, Ok resp)
        end
  end.

(** [send_initialized] *)
Definition send_initialized (c : Client) (w : World) : Client * World * result unit :=
  let note := JObj [("jsonrpc", JStr "2.0");
                    ("method", JStr "notifications/initialized");
                    ("params", JObj [])] in
  match _send_and_read note false c w with
  | (c, w, Raise e) => (c, w, Raise e)
  | (c, w, Ok _) => (c, w, Ok tt)
  end.

Definition request_message (rid : Z) (method : string) (params : option Json) : Json :=
  let req := [("jsonrpc", JStr "2.0"); ("id", JNum rid); ("method", JStr method)] in
  match params with
  | Some p => JObj (assoc_set "params" p req)
  | None => JObj req
  end.

(** [x or {}] on the result of [_send_and_read]. *)
Definition or_empty (r : option Json) : Json :=
  match r with
  | Some v => if truthy v then v else JObj []
  | None => JObj []
  end.

(** [request] *)
Definition request (method : string) (params : option Json) (c : Client) (w : World)
  : Client * World * result Json :=
  let rid := _next_id c in
  let c := bump c in
  let req := request_message rid method params in
  match _send_and_read req true c w with
  | (c, w, Raise e) => (c, w, Raise e)
  | (c, w, Ok r) => (c, w, Ok (or_empty r))
  end.

(** [tools_list] *)
Definition tools_list (c : Client) (w : World) :=
  request "tools/list" (Some (JObj [])) c w.

Definition tools_call_params (name : string) (arguments : option Json) : Json :=
  let params := [("name", JStr name)] in
  match arguments with
  | Some a => JObj (assoc_set "arguments" a params)
  | None => JObj params
  end.

(** [tools_call] *)
Definition tools_call (name : string) (arguments : option Json) (c : Client) (w : World) :=
  request "tools/call" (Some (tools_call_params name arguments)) c w.

(** The data buffers of the events of a stream, as the loop of
    [_send_and_read] delimits them: [data:] lines accumulate, an empty line
    ends the event when the buffer is not empty, other lines are skipped. *)
Fixpoint sse_events (lines : list string) (buf : string) : list string :=
  match lines with
  | [] => []
  | chunk :: rest =>
      if String.eqb chunk "" then []
      else
        let line := Py.rstrip_crlf chunk in
        if Py.startswith "data:" line then sse_events rest (accumulate_data buf line)
        else if String.eqb line "" then
          if negb (String.eqb buf "") then buf :: sse_events rest ""
          else sse_events rest buf
        else sse_events rest buf
  end.

(** The first event whose decoded payload holds a matching message. *)
Fixpoint first_match_for (target_id : Json) (expect_response : bool)
  (events : list string) : result (option Json) :=
  match events with
  | [] => Ok None
  | data :: rest =>
      match match_event_for target_id expect_response
              (decode_event json_loads data) with
      | Raise e => Raise e
      | Ok (Some m) => Ok (Some m)
      | Ok None => first_match_for target_id expect_response rest
      end
  end.

Definition first_match (target : option Z) : bool -> list string -> result (option Json) :=
  first_match_for (id_value target).

(** A caller: any sequence of the client's public methods, each result
    (value or exception) discarded. *)
Inductive Op : Type :=
| Initialize (client_name version : string)
| SendInitialized
| Request (method : string) (params : option Json)
| ToolsList
| ToolsCall (name : string) (arguments : option Json).

Definition forget {A} (r : Client * World * result A) : Client * World :=
  let '(c, w, _) := r in (c, w).

Definition step (op : Op) (c : Client) (w : World) : Client * World :=
  match op with
  | Initialize n v => forget (initialize n v c w)
  | SendInitialized => forget (send_initialized c w)
  | Request m p => forget (request m p c w)
  | ToolsList => forget (tools_list c w)
  | ToolsCall n a => forget (tools_call n a c w)
  end.

Fixpoint run (ops : list Op) (c : Client) (w : World) : Client * World :=
  match ops with
  | [] => (c, w)
  | op :: rest => let '(c, w) := step op c w in run rest c w
  end.

End WithDecoder.

(** The [id] members of the documents POSTed so far, in order. *)
Definition posted_id (io : Io) : list Z :=
  match io with
  | Post _ (JObj kv) => match assoc_get "id" kv with Some (JNum n) => [n] | _ => [] end
  | _ => []
  end.

Definition posted_ids (w : World) : list Z := flat_map posted_id (trace w).

End Http.

(** ** The legacy SSE client ([sse_client.py]) *)

Module Sse.

(** What the client does to the network, in order. *)
Inductive Io : Type :=
| Get (path : string) (headers : list (string * string))
                                      (* on the client's long-lived connection *)
| Connect                             (* a new HTTPConnection object *)
| Post (path : string) (headers : list (string * string)) (body : Json)
| Drain
| ConnClose.

(** What becomes of one POST, made on a connection of its own.
    - [Refused]: the connection cannot be made; [conn.request] raises and
      nothing is sent.
    - [Silent e]: the request goes out and [getresponse] raises [e].
    - [Answer status]: a response with this status, whose body (which the
      client drops) arrives whole.
    - [Broken status e]: a response whose body does not: [resp.read()]
      raises [e]. *)
Inductive PostReply : Type :=
| Refused
| Silent (e : PyErr)
| Answer (status : Z)
| Broken (status : Z) (e : PyErr).

(** The server as the client sees it.  [get_reply] is the status and
    [Content-Type] of the answer to the GET ([None]: connection refused).
    [stream] holds the successive results of [readline()] on the GET
    response, each with the time at which the call returns when it is made
    before (the bytes of a line may come one by one, each within the socket
    timeout of the one before, so that a call may last any time).  After
    them nothing more comes: [eof_at] is when the server ends the stream, if
    it does.  [_timeout_occurred] is the flag of that name of the socket
    reader: set once a read has timed out, after which every read raises.
    [posts] scripts what becomes of the successive POSTs, each with the time
    at which this is known. *)
Record World : Type := mkWorld {
  now : Z;
  get_reply : option (Z * option string);
  stream : list (Z * string);
  eof_at : option Z;
  _timeout_occurred : bool;
  posts : list (Z * PostReply);
  trace : list Io
}.

Definition log (evs : list Io) (w : World) : World :=
  mkWorld (now w) (get_reply w) (stream w) (eof_at w) (_timeout_occurred w)
    (posts w) (trace w ++ evs).

(** The headers of the GET of [_open_sse] and of the POSTs of [_post]. *)
Definition get_headers : list (string * string) :=
  [("Accept", "text/event-stream")].

Definition post_headers : list (string * string) :=
  [("Content-Type", "application/json")].

(** A read that raised the socket timeout. *)
Definition sock_timed_out {A : Type} (r : result A) : bool :=
  match r with
  | Raise (OSError msg) => String.eqb msg "timed out"
  | _ => false
  end.

(** What is left of the GET stream and the clock, after a reading loop
    that ended with [r]. *)
Definition set_stream {A : Type} (s : list (Z * string)) (t : Z) (r : result A)
  (w : World) : World :=
  mkWorld t (get_reply w) s (eof_at w)
    (_timeout_occurred w || sock_timed_out r) (posts w) (trace w).

Record Client : Type := mkClient {
  protocol_version : string;
  _next_id : Z;
  _endpoint_path : option string
}.

Definition bump (c : Client) : Client :=
  mkClient (protocol_version c) (_next_id c + 1) (_endpoint_path c).

(** The socket timeout of [HTTPConnection(host, port, timeout=30)]. *)
Definition sock_timeout : Z := seconds 30.

(** [readline()] on a stream with nothing left: the empty string once the
    server has ended the stream, a socket timeout when it does not do so in
    time ([socket.timeout], an [OSError] whose text is [timed out]).  The
    result is the new clock and whether the stream ended. *)
Definition at_end (eof_at : option Z) (now : Z) : Z * bool :=
  match eof_at with
  | Some t =>
      if arrives_within now t sock_timeout then (Z.max now t, true)
      else (now + sock_timeout, false)
  | None => (now + sock_timeout, false)
  end.

Definition header_or_empty (h : option string) : string :=
  match h with
  | Some s => s
  | None => ""
  end.

(** The [while True] loop of [_open_sse]: what is left of the stream, the
    clock, and the value of [endpoint] at the [break]. *)
Fixpoint open_loop (eof : option Z) (stream : list (Z * string)) (now : Z)
  (event_type : option string) (data_buf : string)
  : list (Z * string) * Z * result string :=
  match stream with
  | [] =>
      let '(now, ended) := at_end eof now in
      if ended
      then ([], now, Raise (RuntimeError "SSE stream ended before endpoint event"))
      else ([], now, Raise (OSError "timed out"))
  | (t, chunk) :: rest =>
      let now := Z.max now t in
      if String.eqb chunk ""
      then (rest, now, Raise (RuntimeError "SSE stream ended before endpoint event"))
      else
        let line := Py.rstrip_crlf chunk in
        if Py.startswith "event:" line then
          match Py.decode_utf8 (Py.lstrip (Py.drop 6 line)) with
          | Some ty => open_loop eof rest now (Some ty) data_buf
          | None => (rest, now, Raise UnicodeDecodeError)
          end
        else if Py.startswith "data:" line then
          open_loop eof rest now event_type
            (accumulate_data data_buf line)
        else if String.eqb line "" then
          match event_type with
          | Some ty =>
              if String.eqb ty "endpoint"
              then
                match Py.decode_utf8 data_buf with
                | Some text => (rest, now, Ok (Py.ustrip text))
                | None => (rest, now, Raise UnicodeDecodeError)
                end
              else open_loop eof rest now None ""
          | None => open_loop eof rest now None ""
          end
        else open_loop eof rest now event_type data_buf
  end.


(** [__init__] with [_open_sse]: the new client, or the exception that
    leaves no client. *)
Definition connect (protocol_version : string) (w : World)
  : World * result Client :=
  match get_reply w with
  | None => (w, Raise (OSError "Connection refused"))
  | Some (status, ctype) =>
      let w := log [Get "/" get_headers] w in
      if (negb (status =? 200)
          || negb (String.eqb
                     (Py.strip (Py.before_semicolon (header_or_empty ctype)))
                     "text/event-stream"))%bool
      then (w, Raise (RuntimeError "SSE GET failed"))
      else
        let '(rest, t, r) := open_loop (eof_at w) (stream w) (now w) None "" in
        let w := set_stream rest t r w in
        match r with
        | Raise e => (w, Raise e)
        | Ok endpoint =>
            if String.eqb endpoint ""
            then (w, Raise (RuntimeError "No endpoint provided by server"))
            else (w, Ok (mkClient protocol_version 1 (Some endpoint)))
        end
  end.

(** [self._endpoint_path or "/"] *)
Definition post_path (c : Client) : string :=
  match _endpoint_path c with
  | Some p => if String.eqb p "" then "/" else p
  | None => "/"
  end.

Fixpoint any_char (p : ascii -> bool) (s : string) : bool :=
  match s with
  | EmptyString => false
  | String c r => (p c || any_char p r)%bool
  end.

(** What [conn.request] does with the path before anything is sent:
    [_validate_path] refuses control characters, space and DEL, and
    [_encode_request] whatever is not ASCII. *)
Definition check_path (path : string) : result unit :=
  if any_char (fun c => (Py.in_range 0 32 c || Py.in_range 127 127 c)%bool) path
  then Raise (InvalidURL path)
  else if any_char (Py.in_range 128 255) path then Raise UnicodeEncodeError
  else Ok tt.

(** The next scripted POST, taken at the time its outcome is known. *)
Definition take_post (t : Z) (later : list (Z * PostReply)) (w : World) : World :=
  mkWorld (Z.max (now w) t) (get_reply w) (stream w) (eof_at w)
    (_timeout_occurred w) later (trace w).

(** [_post] *)
Definition _post (payload : Json) (c : Client) (w : World) : World * result unit :=
  let w := log [Connect] w in
  match check_path (post_path c) with
  | Raise e => (w, Raise e)
  | Ok _ =>
      match posts w with
      | [] => (w, Raise (OSError "Connection refused"))
      | (t, reply) :: later =>
          let w := take_post t later w in
          let post := Post (post_path c) post_headers payload in
          match reply with
          | Refused => (w, Raise (OSError "Connection refused"))
          | Silent e => (log [post] w, Raise e)
          | Broken _ e => (log [post; Drain] w, Raise e)
          | Answer status =>
              (log [post; Drain; ConnClose] w,
               if ((status =? 200) || (status =? 202) || (status =? 204))%bool
               then Ok tt
               else Raise (RuntimeError "SSE POST failed"))
          end
      end
  end.

Section WithDecoder.

Variable json_loads : string -> option Json.

(** The [for m in msg] loop over a batched array. *)
Fixpoint scan_batch (req_id : Z) (msgs : list Json) : option Json :=
  match msgs with
  | [] => None
  | m :: rest =>
      match m with
      | JObj kv =>
          match py_get "id" m with
          | Ok v => if py_eq_int v req_id then Some m else scan_batch req_id rest
          | Raise _ => scan_batch req_id rest
          end
      | _ => scan_batch req_id rest
      end
  end.

(** What the end of one event does with the decoded buffer. *)
Definition match_event (req_id : Z) (msg : option Json) : option Json :=
  match msg with
  | Some (JObj kv) =>
      match py_get "id" (JObj kv) with
      | Ok v => if py_eq_int v req_id then Some (JObj kv) else None
      | Raise _ => None
      end
  | Some (JArr msgs) => scan_batch req_id msgs
  | _ => None
  end.

Definition timed_out : PyErr :=
  TimeoutError "Timed out waiting for SSE response".

(** The [while time.time() - start < timeout] loop of [_await_response],
    on a reader that has not timed out before. *)
Fixpoint await_loop (req_id start timeout : Z) (eof : option Z)
  (stream : list (Z * string)) (now : Z) (buf : string)
  : list (Z * string) * Z * result Json :=
  if now - start <? timeout then
    match stream with
    | [] =>
        let '(now, ended) := at_end eof now in
        if ended then ([], now, Raise timed_out)
        else ([], now, Raise (OSError "timed out"))
    | (t, chunk) :: rest =>
        let now := Z.max now t in
        if String.eqb chunk "" then (rest, now, Raise timed_out)
        else
          let line := Py.rstrip_crlf chunk in
          if Py.startswith "data:" line then
            await_loop req_id start timeout eof rest now
              (accumulate_data buf line)
          else if String.eqb line "" then
            if negb (String.eqb buf "") then
              match match_event req_id (decode_event json_loads buf) with
              | Some m => (rest, now, Ok m)
              | None => await_loop req_id start timeout eof rest now ""
              end
            else await_loop req_id start timeout eof rest now buf
          else await_loop req_id start timeout eof rest now buf
    end
  else (stream, now, Raise timed_out).

(** [_await_response] *)
Definition _await_response (req_id timeout : Z) (w : World) : World * result Json :=
  if _timeout_occurred w then
    if 0 <? timeout
    then (w, Raise (OSError "cannot read from timed out object"))
    else (w, Raise timed_out)
  else
    let '(rest, t, r) :=
      await_loop req_id (now w) timeout (eof_at w) (stream w) (now w) "" in
    (set_stream rest t r w, r).

Definition initialize_request (rid : Z) (client_name version protocol_version : string)
  : Json :=
  JObj [("jsonrpc", JStr "2.0");
        ("id", JNum rid);
        ("method", JStr "initialize");
        ("params",
          JObj [("protocolVersion", JStr protocol_version);
                ("clientInfo",
                  JObj [("name", JStr client_name); ("version", JStr version)]);
                ("capabilities", JObj [])])].

(** [initialize] *)
Definition initialize (client_name version : string) (c : Client) (w : World)
  : Client * World * result Json :=
  let rid := _next_id c in
  let c := bump c in
  let req := initialize_request rid client_name version (protocol_version c) in
  match _post req c w with
  | (w, Raise e) => (c, w, Raise e)
  | (w, Ok _) => let '(w, r) := _await_response rid (seconds 30) w in (c, w, r)
  end.

(** [send_initialized] *)
Definition send_initialized (c : Client) (w : World) : Client * World * result unit :=
  let note := JObj [("jsonrpc", JStr "2.0");
                    ("method", JStr "notifications/initialized");
                    ("params", JObj [])] in
  let '(w, r) := _post note c w in (c, w, r).

Definition request_message (rid : Z) (method : string) (params : option Json) : Json :=
  let req := [("jsonrpc", JStr "2.0"); ("id", JNum rid); ("method", JStr method)] in
  match params with
  | Some p => JObj (assoc_set "params" p req)
  | None => JObj req
  end.

(** [request] *)
Definition request (method : string) (params : option Json) (c : Client) (w : World)
  : Client * World * result Json :=
  let rid := _next_id c in
  let c := bump c in
  let req := request_message rid method params in
  match _post req c w with
  | (w, Raise e) => (c, w, Raise e)
  | (w, Ok _) => let '(w, r) := _await_response rid (seconds 30) w in (c, w, r)
  end.

(** [tools_list] *)
Definition tools_list (c : Client) (w : World) :=
  request "tools/list" (Some (JObj [])) c w.

Definition tools_call_params (name : string) (arguments : option Json) : Json :=
  let params := [("name", JStr name)] in
  match arguments with
  | Some a => JObj (assoc_set "arguments" a params)
  | None => JObj params
  end.

(** [tools_call] *)
Definition tools_call (name : string) (arguments : option Json) (c : Client) (w : World) :=
  request "tools/call" (Some (tools_call_params name arguments)) c w.

(** A caller: any sequence of the client's public methods, each result
    (value or exception) discarded. *)
Inductive Op : Type :=
| Initialize (client_name version : string)
| SendInitialized
| Request (method : string) (params : option Json)
| ToolsList
| ToolsCall (name : string) (arguments : option Json).

Definition forget {A} (r : Client * World * result A) : Client * World :=
  let '(c, w, _) := r in (c, w).

Definition step (op : Op) (c : Client) (w : World) : Client * World :=
  match op with
  | Initialize n v => forget (initialize n v c w)
  | SendInitialized => forget (send_initialized c w)
  | Request m p => forget (request m p c w)
  | ToolsList => forget (tools_list c w)
  | ToolsCall n a => forget (tools_call n a c w)
  end.

Fixpoint run (ops : list Op) (c : Client) (w : World) : Client * World :=
  match ops with
  | [] => (c, w)
  | op :: rest => let '(c, w) := step op c w in run rest c w
  end.

End WithDecoder.

(** The [id] members of the documents POSTed so far, in order. *)
Definition posted_id (io : Io) : list Z :=
  match io with
  | Post _ _ (JObj kv) => match assoc_get "id" kv with Some (JNum n) => [n] | _ => [] end
  | _ => []
  end.

Definition posted_ids (w : World) : list Z := flat_map posted_id (trace w).



End Sse.

(** * Vocabulary of the properties *)

(** ** Lists of consecutive identifiers *)

Fixpoint count_from (a : Z) (n : nat) : list Z :=
  match n with
  | O => []
  | S k => a :: count_from (a + 1) k
  end.


(** [l] is [l'] with some of its elements left out. *)
Inductive subseq {A : Type} : list A -> list A -> Prop :=
| subseq_nil : subseq [] []
| subseq_take : forall x l l', subseq l l' -> subseq (x :: l) (x :: l')
| subseq_skip : forall x l l', subseq l l' -> subseq l (x :: l').





Definition count_true {A} (f : A -> bool) (l : list A) : Z :=
  Z.of_nat (List.length (filter f l)).




(** An action of the HTTP client other than a POST. *)
Definition not_a_post (io : Http.Io) : Prop :=
  match io with
  | Http.Post _ _ => False
  | _ => True
  end.

(** Every pending read of the server's output returns. *)
Definition reads_return (w : Stdio.World) : Prop :=
  Forall (fun r => Stdio.done_at r <> None) (Stdio.pipe w).



(** ** Waiting on the stdio pipe *)

Section Waiting.

Variable json_loads : string -> option Json.

(** What [_read_msgs_once] makes of a line: the list of its messages. *)
Definition line_messages (line : string) : option (list Json) :=
  match json_loads line with
  | Some (JArr data) => Some data
  | Some data => Some [data]
  | None => None
  end.

(** A line that is read as messages none of which answers [req_id]. *)
Definition no_reply_in (req_id : Z) (line : string) : Prop :=
  line <> ""
  /\ exists msgs,
       line_messages line = Some msgs
       /\ snd (Stdio.scan_msgs req_id msgs []) = Ok None.

(** Nothing that can be read before [deadline] answers [req_id]: every
    read for which the descriptor is readable before [deadline] returns, and
    returns such a line. *)
Definition silent_before (req_id deadline : Z) (reads : list Stdio.Read) : Prop :=
  Forall (fun r => forall t,
            Stdio.ready_at r = Some t -> t < deadline ->
            Stdio.done_at r <> None /\ no_reply_in req_id (Stdio.text r))
    reads.

(** Reads that all begin and return before [deadline], none with an answer
    to [req_id]. *)
Definition all_before (req_id deadline : Z) (reads : list Stdio.Read) : Prop :=
  Forall (fun r => (exists t d, Stdio.ready_at r = Some t
                                /\ Stdio.done_at r = Some d
                                /\ t < deadline /\ d < deadline)
                   /\ no_reply_in req_id (Stdio.text r))
    reads.

End Waiting.

(** The time by which the reads [reads] have all returned, [t0] at the
    earliest. *)
Fixpoint complete_by (t0 : Z) (reads : list Stdio.Read) : Z :=
  match reads with
  | [] => t0
  | r :: rest =>
      complete_by (match Stdio.done_at r with
                   | Some d => Z.max t0 d
                   | None => t0
                   end) rest
  end.

(** The server does not close its stdout before [deadline]. *)
Definition open_until (deadline : Z) (closed : option Z) : Prop :=
  match closed with
  | Some t => deadline <= t
  | None => True
  end.

(** ** HTTP responses *)

(** The media type [_send_and_read] compares:
    [(resp.getheader("Content-Type") or "").split(";")[0].strip()]. *)
Definition content_type (ctype : option string) : string :=
  Py.strip (Py.before_semicolon (Http.header_or_empty ctype)).

(** The messages that an event offers to the caller, in order: its decoded
    payload when that is an object, the elements of the payload when it is
    an array, none otherwise (data that is not UTF-8 or not JSON included). *)
Definition event_messages (json_loads : string -> option Json) (data : string)
  : list Json :=
  match decode_event json_loads data with
  | Some (JArr msgs) => msgs
  | Some (JObj kv) => [JObj kv]
  | _ => []
  end.

Definition stream_messages (json_loads : string -> option Json)
  (events : list string) : list Json :=
  flat_map (event_messages json_loads) events.

(** [m] is an object whose [id] equals [target_id]. *)
Definition answers (target_id : Json) (m : Json) : bool :=
  match m with
  | JObj kv =>
      py_eq (match assoc_get "id" kv with Some v => v | None => JNull end)
        target_id
  | _ => false
  end.

(** Objects none of which answers [target_id]. *)
Definition no_answer (target_id : Json) (msgs : list Json) : Prop :=
  Forall (fun m => (exists kv, m = JObj kv) /\ answers target_id m = false) msgs.


(** Draining the body, then closing the response and the connection. *)
Definition closing : list Http.Io := [Http.Drain; Http.RespClose; Http.ConnClose].

(** ** Data lines *)

(** The spec's words for a data line: the prefix and one optional leading
    space are stripped. *)
Definition spec_data_value (line : string) : string :=
  match Py.drop 5 line with
  | String c rest => if Ascii.eqb c " " then rest else String c rest
  | EmptyString => EmptyString
  end.

Fixpoint all_space (s : string) : bool :=
  match s with
  | EmptyString => true
  | String c rest => (Py.bytes_isspace c && all_space rest)%bool
  end.

Definition starts_with_space (s : string) : bool :=
  match s with
  | EmptyString => false
  | String c _ => Py.bytes_isspace c
  end.

(** Lines that all arrive at [t]. *)
Definition stamp (t : Z) (lines : list string) : list (Z * string) :=
  map (fun l => (t, l)) lines.

(** ** Concrete documents and servers *)

Definition q : string := String Py.dquote EmptyString.

(** [{"jsonrpc":"2.0","id":1,"result":{}}] *)
Definition reply_1_text : string :=
  "{" ++ q ++ "jsonrpc" ++ q ++ ":" ++ q ++ "2.0" ++ q ++ ","
      ++ q ++ "id" ++ q ++ ":1," ++ q ++ "result" ++ q ++ ":{}}".

Definition reply_1 : Json :=
  JObj [("jsonrpc", JStr "2.0"); ("id", JNum 1); ("result", JObj [])].

(** [{"jsonrpc":"2.0","id":2,"result":{}}] *)
Definition reply_2_text : string :=
  "{" ++ q ++ "jsonrpc" ++ q ++ ":" ++ q ++ "2.0" ++ q ++ ","
      ++ q ++ "id" ++ q ++ ":2," ++ q ++ "result" ++ q ++ ":{}}".

(** [{"jsonrpc":"2.0","method":"notifications/x"}] *)
Definition note_x_text : string :=
  "{" ++ q ++ "jsonrpc" ++ q ++ ":" ++ q ++ "2.0" ++ q ++ ","
      ++ q ++ "method" ++ q ++ ":" ++ q ++ "notifications/x" ++ q ++ "}".

Definition note_x : Json :=
  JObj [("jsonrpc", JStr "2.0"); ("method", JStr "notifications/x")].

(** [{"a":1}] *)
Definition payload_a1_text : string := "{" ++ q ++ "a" ++ q ++ ":1}".

Definition payload_a1 : Json := JObj [("a", JNum 1)].

(** [event: message], [data: {"a":1}], and the empty line that ends the
    event. *)
Definition frame_a1 : string :=
  "event: message" ++ Py.nl ++ "data: " ++ payload_a1_text ++ Py.nl ++ Py.nl.

(** One line holding the reply to request 1 followed by a notification. *)
Definition batch_reply_then_note : string :=
  "[" ++ reply_1_text ++ "," ++ note_x_text ++ "]" ++ Py.nl.

(** The same two messages in the other order. *)
Definition batch_note_then_reply : string :=
  "[" ++ note_x_text ++ "," ++ reply_1_text ++ "]" ++ Py.nl.

(** A server process that writes [line] after 5 ms. *)
Definition stdio_one_line (line : string) : Stdio.World :=
  Stdio.mkWorld 0 [Stdio.whole 5 line] None true [].

(** A server process that begins the reply to request 1 at once and
    completes the line after 1.5 s. *)
Definition stdio_slow_line : Stdio.World :=
  Stdio.mkWorld 0
    [Stdio.mkRead (Some 0) (Some 1500) (reply_1_text ++ Py.nl)] None true [].

(** A server process that begins a line and never completes it. *)
Definition stdio_half_line : Stdio.World :=
  Stdio.mkWorld 0 [Stdio.mkRead (Some 0) None ""] None true [].

(** A server process that answers request 1 after 5 ms. *)
Definition stdio_answering : Stdio.World :=
  stdio_one_line (reply_1_text ++ Py.nl).


(** An HTTP server that answers [initialize], accepts the notification and
    answers one more request. *)
Definition http_serving : Http.World :=
  Http.mkWorld
    [Http.Response 200 (Some "A") (Some "application/json") reply_1_text;
     Http.Response 202 (Some "A") None "";
     Http.Response 200 (Some "A") (Some "application/json") reply_2_text]
    [].

Definition http_three_calls : list Http.Op :=
  [Http.Initialize "e2e-tests" "0.0.1"; Http.SendInitialized; Http.ToolsList].

(** Two replies in a row, the first with session [A], the second with
    session [B]. *)
Definition http_two_sessions : Http.World :=
  Http.mkWorld
    [Http.Response 200 (Some "A") (Some "application/json") reply_1_text;
     Http.Response 200 (Some "B") (Some "application/json") reply_1_text]
    [].

Definition after_first_reply : Http.Client * Http.World :=
  Http.forget (Http.initialize JsonRef.json_loads_ref "e2e-tests" "0.0.1"
                 (Http.init "2025-06-18") http_two_sessions).

(** An event-stream answer to request 1. *)
Definition http_streaming : Http.World :=
  Http.mkWorld
    [Http.Response 200 (Some "A") (Some "text/event-stream; charset=utf-8")
       ("event: message" ++ Py.nl ++ "data: " ++ reply_1_text ++ Py.nl ++ Py.nl)]
    [].

(** A 202 with no body, and a 200 whose body is [{}]. *)
Definition http_accepting : Http.World :=
  Http.mkWorld [Http.Response 202 None None ""] [].

Definition http_empty_object : Http.World :=
  Http.mkWorld [Http.Response 200 None (Some "application/json") "{}"] [].

(** An SSE server: the endpoint event, later the reply to request 1. *)
Definition sse_answering : Sse.World :=
  Sse.mkWorld 0 (Some (200, Some "text/event-stream"))
    [(0, "event: endpoint" ++ Py.nl);
     (0, "data: /messages?session=abc" ++ Py.nl);
     (0, Py.nl);
     (7, "event: message" ++ Py.nl);
     (7, "data: " ++ reply_1_text ++ Py.nl);
     (7, Py.nl)]
    None false [(0, Sse.Answer 202); (7, Sse.Answer 202); (7, Sse.Answer 202)] [].

Definition sse_connected : Sse.World := fst (Sse.connect "2024-11-05" sse_answering).



(** * Further code of the repository *)

(** Exceptions that the code below raises besides those of [PyErr]. *)
Inductive Exc : Type :=
| AssertionError (msg : string)
| KeyError (key : string)
| Builtin (e : PyErr).

Inductive outcome (A : Type) : Type :=
| Return (a : A)
| Throw (e : Exc).
Arguments Return {A} a.
Arguments Throw {A} e.

(** ** Reading a tool result ([parse_text_content], [parse_text_json]) *)

Module Content.

(** The two messages of [parse_text_content]; the three clients differ in
    them only. *)
Record Messages : Type := mkMessages {
  msg_missing : string;
  msg_no_text : string
}.

(** [MCPStdioClient] *)
Definition stdio_messages : Messages :=
  mkMessages "result.content missing or not a list"
             "No text content found in result.content".

(** [MCPHTTPStreamableClient] and [MCPSSEClient] *)
Definition http_messages : Messages :=
  mkMessages "result.content missing or not list"
             "No text content in result.content".

(** [m.get(k, default)] *)
Definition get_or (k : string) (default : Json) (m : Json) : outcome Json :=
  match m with
  | JObj kv =>
      Return (match assoc_get k kv with Some v => v | None => default end)
  | _ => Throw (Builtin AttributeError)
  end.

(** [isinstance(item, dict) and item.get("type") == "text"] *)
Definition is_text_item (item : Json) : bool :=
  match item with
  | JObj kv =>
      match assoc_get "type" kv with
      | Some (JStr s) => String.eqb s "text"
      | _ => false
      end
  | _ => false
  end.

(** [item.get("text", "")] for a dict [item]. *)
Definition text_of (item : Json) : Json :=
  match item with
  | JObj kv => match assoc_get "text" kv with Some v => v | None => JStr "" end
  | _ => JStr ""
  end.

(** The [for item in content] loop: what it returns, if it does. *)
Fixpoint first_text (items : list Json) : option Json :=
  match items with
  | [] => None
  | item :: rest =>
      if is_text_item item then Some (text_of item) else first_text rest
  end.

(** [parse_text_content] *)
Definition parse_text_content (M : Messages) (result_obj : Json) : outcome Json :=
  match get_or "result" (JObj []) result_obj with
  | Throw e => Throw e
  | Return res =>
      match get_or "content" JNull res with
      | Throw e => Throw e
      | Return (JArr items) =>
          match first_text items with
          | Some t => Return t
          | None => Throw (AssertionError (msg_no_text M))
          end
      | Return _ => Throw (AssertionError (msg_missing M))
      end
  end.

Section WithDecoder.

Variable json_loads : string -> option Json.

(** [parse_text_json]: [json.loads(txt) if txt else None]; [None] is
    [JNull]. *)
Definition parse_text_json (M : Messages) (result_obj : Json) : outcome Json :=
  match parse_text_content M result_obj with
  | Throw e => Throw e
  | Return txt =>
      if truthy txt then
        match txt with
        | JStr s =>
            match json_loads s with
            | Some v => Return v
            | None => Throw (Builtin JSONDecodeError)
            end
        | _ => Throw (Builtin TypeError)
        end
      else Return JNull
  end.

(** [_parse_text_json] of [test_regression.py]: the HTTP client's parser,
    and the stdio client's when that raises. *)
Definition _parse_text_json (r : Json) : outcome Json :=
  match parse_text_json http_messages r with
  | Return v => Return v
  | Throw _ => parse_text_json stdio_messages r
  end.

(** [_create_entities] of [test_benchmarks.py] after its [tools_call]
    returned [r] (lines 63-76). *)
Definition created_entities (r : Json) : Json :=
  if negb (truthy r) then JArr []
  else
    match parse_text_json http_messages r with
    | Return v => v
    | Throw _ =>
        match parse_text_json stdio_messages r with
        | Return v => v
        | Throw _ => JArr []
        end
    end.

(** [_create_entities] with the HTTP client. *)
Definition _create_entities (entities : Json) (c : Http.Client) (w : Http.World)
  : Http.Client * Http.World * result Json :=
  match Http.tools_call json_loads "create_entities"
          (Some (JObj [("entities", entities)])) c w with
  | (c, w, Raise e) => (c, w, Raise e)
  | (c, w, Ok r) => (c, w, Ok (created_entities r))
  end.

End WithDecoder.

End Content.

(** ** Ending the server process ([close], [_cleanup_proc]) *)

Module Process.

Inductive Signal : Type :=
| StdinClose
| Terminate
| Kill.

(** The server process.  [death] is when it ends, as far as what happened
    so far decides ([None]: it goes on); [on_eof] is how long it takes to end
    once its stdin is closed and [on_term] how long after [terminate()]
    ([None]: it does not react).  [kill()] ends it at once. *)
Record World : Type := mkWorld {
  now : Z;
  death : option Z;
  on_eof : option Z;
  on_term : option Z;
  signals : list Signal
}.

Definition earlier (d : option Z) (t : Z) : option Z :=
  match d with
  | Some d0 => Some (Z.min d0 t)
  | None => Some t
  end.

Definition react (delay : option Z) (w : World) : option Z :=
  match delay with
  | Some n => earlier (death w) (now w + Z.max 0 n)
  | None => death w
  end.

(** [proc.poll() is None] *)
Definition alive (w : World) : bool :=
  match death w with
  | Some d => now w <? d
  | None => true
  end.

(** [proc.stdin.close()] *)
Definition close_stdin (w : World) : World :=
  mkWorld (now w) (react (on_eof w) w) (on_eof w) (on_term w)
    (signals w ++ [StdinClose]).

(** [proc.terminate()] *)
Definition terminate (w : World) : World :=
  mkWorld (now w) (react (on_term w) w) (on_eof w) (on_term w)
    (signals w ++ [Terminate]).

(** [proc.kill()] *)
Definition kill (w : World) : World :=
  mkWorld (now w) (earlier (death w) (now w)) (on_eof w) (on_term w)
    (signals w ++ [Kill]).

(** [time.sleep(0.05)] *)
Definition sleep_50ms (w : World) : World :=
  mkWorld (now w + 50) (death w) (on_eof w) (on_term w) (signals w).

(** [proc.wait(timeout=timeout)]: [true] when the process ended in time,
    [false] for [TimeoutExpired]. *)
Definition wait (timeout : Z) (w : World) : bool * World :=
  match death w with
  | Some d =>
      if d <=? now w + Z.max 0 timeout
      then (true, mkWorld (Z.max (now w) d) (death w) (on_eof w) (on_term w)
                    (signals w))
      else (false, mkWorld (now w + Z.max 0 timeout) (death w) (on_eof w)
                     (on_term w) (signals w))
  | None =>
      (false, mkWorld (now w + Z.max 0 timeout) (death w) (on_eof w)
                (on_term w) (signals w))
  end.

(** [terminate()], [wait(timeout)], and [kill()] when the wait times out:
    the end of [close], and [_cleanup_proc] of [test_benchmarks.py]. *)
Definition terminate_wait_kill (timeout : Z) (w : World) : World :=
  let w := terminate w in
  let '(ended, w) := wait timeout w in
  if ended then w else kill w.

(** [_cleanup_proc] *)
Definition _cleanup_proc (w : World) : World :=
  terminate_wait_kill (seconds 5) w.

(** The [while time.time() - start < timeout and proc.poll() is None] loop
    of [close]; a turn takes 50 ms, so [fuel] turns suffice when
    [timeout <= 50 * fuel]. *)
Fixpoint poll_loop (fuel : nat) (start timeout : Z) (w : World) : option World :=
  if ((now w - start <? timeout) && alive w)%bool then
    match fuel with
    | O => None
    | S fuel' => poll_loop fuel' start timeout (sleep_50ms w)
    end
  else Some w.

(** [close] *)
Definition close (timeout : Z) (w : World) : option World :=
  let w := close_stdin w in
  match poll_loop (Z.to_nat (timeout / 50 + 1)) (now w) timeout w with
  | None => None
  | Some w => Some (if alive w then terminate_wait_kill timeout w else w)
  end.

End Process.

(** ** The benchmark client ([benchmark_1m.py]) *)

Module Bench.

(** What [urllib.request.urlopen] meets: no connection ([URLError]), or a
    response.  A status outside 200..299 makes [urlopen] raise [HTTPError],
    which is a [URLError] (redirects are not modelled). *)
Inductive Reply : Type :=
| Unreachable
| Response (status : Z) (body : string).

(** [server] scripts the replies to the successive requests (none left: no
    connection); [posted] logs the payloads sent. *)
Record World : Type := mkWorld {
  server : list Reply;
  posted : list Json
}.

(** [self._request_id] *)
Record Client : Type := mkClient {
  _request_id : Z
}.

(** [__init__] *)
Definition init : Client := mkClient 0.

(** The payload of [_send_request]. *)
Definition payload (method : string) (params : Json) (is_notification : bool)
  (request_id : Z) : Json :=
  let p := [("jsonrpc", JStr "2.0"); ("method", JStr method)] in
  let p := if truthy params then assoc_set "params" params p else p in
  let p := if negb is_notification then assoc_set "id" (JNum request_id) p else p in
  JObj p.

Section WithDecoder.

Variable json_loads : string -> option Json.

(** What [_send_request] makes of a response that [urlopen] returned. *)
Definition read_reply (is_notification : bool) (status : Z) (body : string)
  : result Json :=
  if negb (status =? 200) then Raise (RuntimeError "Request failed")
  else if is_notification then Ok JNull
  else
    match Py.decode_utf8 body with
    | None => Raise UnicodeDecodeError
    | Some text =>
        match json_loads text with
        | None => Raise JSONDecodeError
        | Some response_data =>
            match py_contains "error" response_data with
            | Raise e => Raise e
            | Ok true =>
                (* the message is built from response_data['error'], which
                   only a dict has *)
                match response_data with
                | JObj _ => Raise (RuntimeError "RPC Error")
                | _ => Raise TypeError
                end
            | Ok false => py_get "result" response_data
            end
        end
    end.

(** [_send_request]; [None] is [JNull]. *)
Definition _send_request (method : string) (params : Json) (is_notification : bool)
  (c : Client) (w : World) : Client * World * result Json :=
  let c := mkClient (_request_id c + 1) in
  let p := payload method params is_notification (_request_id c) in
  match server w with
  | [] => (c, w, Raise (RuntimeError "Failed to connect to server"))
  | Unreachable :: later =>
      (c, mkWorld later (posted w), Raise (RuntimeError "Failed to connect to server"))
  | Response status body :: later =>
      let w := mkWorld later (posted w ++ [p]) in
      if ((200 <=? status) && (status <? 300))%bool
      then (c, w, read_reply is_notification status body)
      else (c, w, Raise (RuntimeError "Failed to connect to server"))
  end.

(** [initialize]; [pid] is [os.getpid()]. *)
Definition initialize (pid : Z) (c : Client) (w : World) :=
  _send_request "initialize"
    (JObj [("processId", JNum pid);
           ("clientInfo", JObj [("name", JStr "benchmark-client")])])
    false c w.

(** [send_initialized] *)
Definition send_initialized (c : Client) (w : World) :=
  _send_request "initialized" (JObj []) true c w.

(** [tools_call] *)
Definition tools_call (tool_name : string) (params : Json) (c : Client) (w : World) :=
  _send_request ("tools/" ++ tool_name) params false c w.

(** A caller: any sequence of the client's methods, results discarded. *)
Inductive Op : Type :=
| Initialize (pid : Z)
| SendInitialized
| ToolsCall (tool_name : string) (params : Json).

Definition step (op : Op) (c : Client) (w : World) : Client * World :=
  match op with
  | Initialize pid => let '(c, w, _) := initialize pid c w in (c, w)
  | SendInitialized => let '(c, w, _) := send_initialized c w in (c, w)
  | ToolsCall n p => let '(c, w, _) := tools_call n p c w in (c, w)
  end.

Fixpoint run (ops : list Op) (c : Client) (w : World) : Client * World :=
  match ops with
  | [] => (c, w)
  | op :: rest => let '(c, w) := step op c w in run rest c w
  end.

End WithDecoder.

(** The [id] members of the payloads sent so far, in order. *)
Definition posted_id (p : Json) : list Z :=
  match p with
  | JObj kv => match assoc_get "id" kv with Some (JNum n) => [n] | _ => [] end
  | _ => []
  end.

Definition posted_ids (w : World) : list Z := flat_map posted_id (posted w).

End Bench.

(** ** The stdio-to-HTTP bridge ([mcp-http-bridge.py]) *)

Module Bridge.

(** What [requests.post] meets: a [RequestException] with its text, or a
    response with its status and body. *)
Inductive Reply : Type :=
| RequestException (text : string)
| Response (status_code : Z) (text : string).

(** A line on stdout: a body passed on as it came, or [json.dumps] of a
    document; a newline follows either. *)
Inductive Out : Type :=
| Text (s : string)
| Document (j : Json).

(** [server] scripts the replies to the successive POSTs (none left: the
    connection fails); [posted] logs the documents handed to
    [requests.post], [stdout] the lines written, [errors] the messages
    logged. *)
Record World : Type := mkWorld {
  server : list Reply;
  posted : list Json;
  stdout : list Out;
  errors : list string
}.

Definition write (o : Out) (w : World) : World :=
  mkWorld (server w) (posted w) (stdout w ++ [o]) (errors w).

Definition log_error (msg : string) (w : World) : World :=
  mkWorld (server w) (posted w) (stdout w) (errors w ++ [msg]).

(** [requests.post(server_url, json=request, ...)] *)
Definition post (request : Json) (w : World) : Reply * World :=
  match server w with
  | [] =>
      (RequestException "connection refused",
       mkWorld [] (posted w ++ [request]) (stdout w) (errors w))
  | reply :: later =>
      (reply, mkWorld later (posted w ++ [request]) (stdout w) (errors w))
  end.

(** [f"{n}"] for an [int]. *)
Definition decimal (n : Z) : string := NilZero.string_of_int (Z.to_int n).

(** The error document written for a response whose status is not 200, and
    for a failed request. *)
Definition error_response (message : string) (id : Json) : Json :=
  JObj [("jsonrpc", JStr "2.0");
        ("error", JObj [("code", JNum (-32603)); ("message", JStr message)]);
        ("id", id)].

Section WithDecoder.

Variable json_loads : string -> option Json.

(** The [while True] loop of [main] over the lines that
    [sys.stdin.readline()] returns. *)
Fixpoint forward (lines : list string) (w : World) : World :=
  match lines with
  | [] => w
  | line :: rest =>
      if String.eqb line "" then w
      else
        match json_loads (Py.strip line) with
        | None => forward rest (log_error "Invalid JSON" w)
        | Some request =>
            let '(reply, w) := post request w in
            match reply with
            | Response status_code text =>
                if status_code =? 200 then forward rest (write (Text text) w)
                else
                  match py_get "id" request with
                  | Ok id =>
                      forward rest
                        (write (Document
                                  (error_response
                                     ("HTTP error: " ++ decimal status_code) id)) w)
                  | Raise _ => forward rest (log_error "Unexpected error" w)
                  end
            | RequestException text =>
                forward rest
                  (write (Document
                            (error_response ("Connection error: " ++ text) JNull))
                     (log_error "HTTP request failed" w))
            end
        end
  end.

(** [main]: the world at the end, and the exit status. *)
Definition main (argv : list string) (lines : list string) (w : World) : World * Z :=
  if negb (Nat.eqb (List.length argv) 2) then (w, 1)
  else (forward lines w, 0).

End WithDecoder.

End Bridge.

(** ** The todo hook ([todo-memory-hook.py]) and its session file *)

Module Hook.

(** [obj[key]] for a string [key]. *)
Definition subscript (key : string) (obj : Json) : outcome Json :=
  match obj with
  | JObj kv =>
      match assoc_get key kv with
      | Some v => Return v
      | None => Throw (KeyError key)
      end
  | _ => Throw (Builtin TypeError)
  end.

Definition contains (key : string) (obj : Json) : outcome bool :=
  match py_contains key obj with
  | Ok b => Return b
  | Raise e => Throw (Builtin e)
  end.

(** Lines 248-259 of [main]: the todos of a decoded hook input. *)
Definition extract_todos (tool_call : Json) : outcome Json :=
  match contains "tool_input" tool_call with
  | Throw e => Throw e
  | Return true =>
      match subscript "tool_input" tool_call with
      | Throw e => Throw e
      | Return input => Content.get_or "todos" (JArr []) input
      end
  | Return false =>
      match contains "arguments" tool_call with
      | Throw e => Throw e
      | Return true =>
          match subscript "arguments" tool_call with
          | Throw e => Throw e
          | Return arguments => Content.get_or "todos" (JArr []) arguments
          end
      | Return false =>
          match contains "todos" tool_call with
          | Throw e => Throw e
          | Return true => subscript "todos" tool_call
          | Return false =>
              match tool_call with
              | JArr _ => Return tool_call
              | _ => Return (JArr [])
              end
          end
      end
  end.

(** The session file [~/.mcp-todo-session.json]: absent, not JSON, or
    holding a document ([json.dump] and [json.load] are taken to be inverse
    to each other). *)
Inductive File : Type :=
| Absent
| Garbage
| Doc (j : Json).

(** [load_session_id] of [TodoMemorySync]: the server URL and the session
    id of the new object.  [default_url] is [MCP_SERVER_URL] and [env_id]
    the environment variable [MCP_SESSION_ID]. *)
Definition load_session_id (file : File) (default_url : Json) (env_id : option string)
  : Json * Json :=
  let fallback :=
    match env_id with
    | Some s => JStr s
    | None => JStr "todo-hook-session"
    end in
  match file with
  | Absent => (default_url, fallback)
  | Garbage => (default_url, fallback)
  | Doc session_info =>
      match py_contains "server_url" session_info with
      | Raise _ => (default_url, fallback)
      | Ok true =>
          match subscript "server_url" session_info with
          | Throw _ => (default_url, fallback)
          | Return url =>
              match Content.get_or "session_id" (JStr "todo-hook-session") session_info with
              | Return id => (url, id)
              | Throw _ => (url, fallback)
              end
          end
      | Ok false =>
          match Content.get_or "session_id" (JStr "todo-hook-session") session_info with
          | Return id => (default_url, id)
          | Throw _ => (default_url, fallback)
          end
      end
  end.

(** What [requests.post] meets in the session scripts: an exception, or a
    response with its status, its [Mcp-Session-Id] header and its decoded
    body ([None]: not JSON). *)
Inductive Reply : Type :=
| RequestException
| Response (status_code : Z) (sid : option string) (body : option Json).

(** A POST of the session scripts: the [Mcp-Session-Id] header sent, if
    any, and the document. *)
Record Sent : Type := mkSent {
  sent_session : option Json;
  sent_body : Json
}.

(** [server] scripts the replies to the successive POSTs (none left: the
    connection fails); [file] is the session file, which can be written or
    removed only when [writable]. *)
Record World : Type := mkWorld {
  server : list Reply;
  posted : list Sent;
  file : File;
  writable : bool
}.

Definition post (s : Sent) (w : World) : Reply * World :=
  match server w with
  | [] => (RequestException, mkWorld [] (posted w ++ [s]) (file w) (writable w))
  | reply :: later =>
      (reply, mkWorld later (posted w ++ [s]) (file w) (writable w))
  end.

Definition initialize_body : Json :=
  JObj [("jsonrpc", JStr "2.0");
        ("id", JNum 1);
        ("method", JStr "initialize");
        ("params",
          JObj [("protocolVersion", JStr "0.1.0");
                ("capabilities", JObj []);
                ("clientInfo",
                  JObj [("name", JStr "todo-hook-client");
                        ("version", JStr "1.0.0")])])].

Definition initialized_body : Json :=
  JObj [("jsonrpc", JStr "2.0");
        ("method", JStr "notifications/initialized");
        ("params", JObj [])].

Definition session_info (session_id url created : string) (pid : Z) : Json :=
  JObj [("session_id", JStr session_id);
        ("server_url", JStr url);
        ("created", JStr created);
        ("pid", JNum pid)].

Definition save (j : Json) (w : World) : option World :=
  if writable w then Some (mkWorld (server w) (posted w) (Doc j) true)
  else None.

(** [init_session] of [mcp-session-init.py]; [url] is [MCP_URL], [created]
    is [datetime.now().isoformat()] and [pid] is [os.getpid()]. *)
Definition init_session (url created : string) (pid : Z) (w : World)
  : World * bool :=
  let '(reply, w) := post (mkSent None initialize_body) w in
  match reply with
  | RequestException => (w, false)
  | Response _ sid _ =>
      match (match sid with
             | Some s => if String.eqb s "" then None else Some s
             | None => None
             end) with
      | None =>
          match save (session_info "stateless" url created pid) w with
          | Some w => (w, true)
          | None => (w, false)
          end
      | Some s =>
          let '(reply2, w) := post (mkSent (Some (JStr s)) initialized_body) w in
          match reply2 with
          | RequestException => (w, false)
          | Response _ _ _ =>
              match save (session_info s url created pid) w with
              | Some w => (w, true)
              | None => (w, false)
              end
          end
      end
  end.

(** The search of [close_session] for the sessions of [today]. *)
Definition search_body (today : string) : Json :=
  JObj [("jsonrpc", JStr "2.0");
        ("method", JStr "tools/call");
        ("id", JNum 1);
        ("params",
          JObj [("name", JStr "search_nodes");
                ("arguments",
                  JObj [("query", JStr ("Session_" ++ today ++ " AND active"))])])].

Definition inactive_body (name : Json) (closed : string) : Json :=
  JObj [("jsonrpc", JStr "2.0");
        ("method", JStr "tools/call");
        ("params",
          JObj [("name", JStr "add_observations");
                ("arguments",
                  JObj [("observations",
                          JArr [JObj [("entityName", name);
                                      ("contents",
                                        JArr [JStr ("Closed at " ++ closed);
                                              JStr "Status: inactive"])]])])])].

(** The [for node in nodes] loop of [close_session]; it ends at the first
    exception, which the caller swallows.  [stamp i] is
    [datetime.now().isoformat()] at the turn [i]. *)
Fixpoint mark_inactive (session_id : Json) (stamp : nat -> string) (i : nat)
  (nodes : list Json) (w : World) : World :=
  match nodes with
  | [] => w
  | node :: rest =>
      match subscript "name" node with
      | Throw _ => w
      | Return name =>
          let '(reply, w) :=
            post (mkSent (Some session_id) (inactive_body name (stamp i))) w in
          match reply with
          | RequestException => w
          | Response _ _ _ => mark_inactive session_id stamp (S i) rest w
          end
      end
  end.

(** The inner [try] of [close_session] (lines 37-87). *)
Definition update_status (session_id : Json) (today : string) (stamp : nat -> string)
  (w : World) : World :=
  let '(reply, w) :=
    match session_id with
    | JStr _ => post (mkSent (Some session_id) (search_body today)) w
    | _ => (RequestException, w)   (* a header that is no string is refused *)
    end in
  match reply with
  | RequestException => w
  | Response status_code _ body =>
      if status_code =? 200 then
        match body with
        | None => w
        | Some result =>
            match Content.get_or "result" (JObj []) result with
            | Throw _ => w
            | Return res =>
                match Content.get_or "entities" (JArr []) res with
                | Return (JArr nodes) => mark_inactive session_id stamp 0 nodes w
                | _ => w
                end
            end
        end
      else w
  end.

(** [close_session] of [mcp-session-close.py]. *)
Definition close_session (today : string) (stamp : nat -> string) (w : World)
  : World * bool :=
  match file w with
  | Absent => (w, true)
  | Garbage => (w, false)
  | Doc info =>
      match py_get "session_id" info, py_get "server_url" info with
      | Ok session_id, Ok server_url =>
          if (negb (truthy session_id) || negb (truthy server_url))%bool
          then (w, false)
          else
            let w := update_status session_id today stamp w in
            if writable w
            then (mkWorld (server w) (posted w) Absent true, true)
            else (w, false)
      | _, _ => (w, false)
      end
  end.

End Hook.

(** ** Concrete inputs for the further properties *)

(** A message without an [id] member: [["id" not in msg]]. *)
Definition has_no_id (m : Json) : Prop := py_contains "id" m = Ok false.

(** The signals [close] can send, in the order it sends them. *)
Definition escalation : list Process.Signal :=
  [Process.StdinClose; Process.Terminate; Process.Kill].

(** What [close] and [_cleanup_proc] do to a process, beyond its state. *)
Definition same_process (w w' : Process.World) : Prop :=
  Process.on_eof w' = Process.on_eof w /\ Process.on_term w' = Process.on_term w.

(** [headers.get(name)] on the headers of a request. *)
Fixpoint header (name : string) (h : list (string * string)) : option string :=
  match h with
  | [] => None
  | (k, v) :: r => if String.eqb name k then Some v else header name r
  end.

(** The headers of the documents the HTTP client POSTed so far, in order. *)
Definition http_post_headers (io : Http.Io) : list (list (string * string)) :=
  match io with
  | Http.Post h _ => [h]
  | _ => []
  end.

Definition http_posted_headers (w : Http.World) : list (list (string * string)) :=
  flat_map http_post_headers (Http.trace w).

(** A request of the HTTP client carries the session id [sid], or none. *)
Definition session_or_none (sid : string) (h : list (string * string)) : Prop :=
  header "Mcp-Session-Id" h = None \/ header "Mcp-Session-Id" h = Some sid.

(** [isinstance(m, dict)] *)
Definition is_dict (m : Json) : bool :=
  match m with
  | JObj _ => true
  | _ => false
  end.

(** The requests that the bridge reads from stdin: the lines up to the end
    of input that decode, in order. *)
Fixpoint stdin_requests (json_loads : string -> option Json) (lines : list string)
  : list Json :=
  match lines with
  | [] => []
  | line :: rest =>
      if String.eqb line "" then []
      else
        match json_loads (Py.strip line) with
        | Some request => request :: stdin_requests json_loads rest
        | None => stdin_requests json_loads rest
        end
  end.

(** The bodies that the bridge passed on, and the bodies of the responses
    with status 200 among [replies]. *)
Definition passed_on (out : list Bridge.Out) : list string :=
  flat_map (fun o => match o with Bridge.Text s => [s] | Bridge.Document _ => [] end)
    out.

Definition bodies_200 (replies : list Bridge.Reply) : list string :=
  flat_map (fun r => match r with
                     | Bridge.Response status text =>
                         if status =? 200 then [text] else []
                     | Bridge.RequestException _ => []
                     end)
    replies.

(** A line of the bridge's own making is an error document. *)
Definition body_or_error (o : Bridge.Out) : Prop :=
  match o with
  | Bridge.Text _ => True
  | Bridge.Document j => exists message id, j = Bridge.error_response message id
  end.

(** The keys that [main] of the todo hook looks for in its input. *)
Definition hook_keys : list string := ["tool_input"; "arguments"; "todos"].

(** A list element that is one of those keys. *)
Definition is_hook_key (x : Json) : bool :=
  match x with
  | JStr s => existsb (String.eqb s) hook_keys
  | _ => false
  end.


(** ** Waiting for the server's port: [wait_port] of [benchmark_1m.py],
    [test_benchmarks.py] and [test_regression.py] *)

Module Port.

(** [attempts] scripts the connection attempts to come: how long the server
    takes to answer each, and whether it accepts (none left: refused at
    once).  An attempt not answered within 200 ms times out, which is an
    [OSError] like a refusal. *)
Record World : Type := mkWorld {
  now : Z;
  attempts : list (Z * bool)
}.

(** [socket.create_connection((host, port), timeout=0.2)]: [true] when the
    connection is made. *)
Definition create_connection (w : World) : bool * World :=
  match attempts w with
  | [] => (false, w)
  | (d, accepted) :: later =>
      if 200 <=? d then (false, mkWorld (now w + 200) later)
      else (accepted, mkWorld (now w + Z.max 0 d) later)
  end.

(** [time.sleep(0.05)] *)
Definition sleep_50ms (w : World) : World := mkWorld (now w + 50) (attempts w).

(** The [while time.time() < deadline] loop; a turn that does not return
    takes 50 ms at least, which bounds the number of turns. *)
Fixpoint wait_loop (fuel : nat) (deadline : Z) (w : World)
  : option (World * result unit) :=
  if now w <? deadline then
    match fuel with
    | O => None
    | S fuel' =>
        let '(connected, w) := create_connection w in
        if connected then Some (w, Ok tt)
        else wait_loop fuel' deadline (sleep_50ms w)
    end
  else Some (w, Raise (TimeoutError "Timeout waiting for port")).

(** [wait_port] *)
Definition wait_port (timeout : Z) (w : World) : option (World * result unit) :=
  wait_loop (Z.to_nat (timeout / 50 + 1)) (now w + timeout) w.

End Port.

(** A connection attempt that fails: refused, or not answered in time. *)
Definition attempt_fails (a : Z * bool) : Prop := 200 <= fst a \/ snd a = false.

(** The session id that [init_session] keeps of the first response: its
    [Mcp-Session-Id] header, or [stateless] when that is absent or empty. *)
Definition kept_session_id (sid : option string) : string :=
  match sid with
  | Some s => if String.eqb s "" then "stateless" else s
  | None => "stateless"
  end.

(** Whether the first response names a session. *)
Definition names_session (sid : option string) : bool :=
  match sid with
  | Some s => negb (String.eqb s "")
  | None => false
  end.

(** * Properties *)

(** ** Lists of consecutive identifiers *)

Lemma count_from_snoc : forall n a,
  (count_from a n ++ [a + Z.of_nat n])%list = count_from a (S n).
Proof.
  induction n as [|n IH]; intros a.
  - simpl. f_equal. lia.
  - cbn [count_from app]. f_equal.
    replace (a + Z.of_nat (S n)) with (a + 1 + Z.of_nat n) by lia.
    rewrite IH. reflexivity.
Qed.





Lemma subseq_refl : forall A (l : list A), subseq l l.
Proof. induction l; constructor; auto. Qed.

Lemma subseq_nil_l : forall A (l : list A), subseq [] l.
Proof. induction l; constructor; auto. Qed.





Lemma count_true_app : forall A (f : A -> bool) l l',
  count_true f (l ++ l') = count_true f l + count_true f l'.
Proof.
  intros. unfold count_true. rewrite filter_app, length_app. lia.
Qed.

(** ** Numbering, for any of the clients

    A client in its world is a state [s]; [next s] is its counter and
    [sent s] the identifiers that went out so far.  A call takes an
    identifier or not, and what it takes goes out or is lost. *)

Section Numbering.

Variables St Op : Type.
Variable step : Op -> St -> option St.
Variable next : St -> Z.
Variable sent : St -> list Z.
Variable takes : Op -> bool.
Variable reachable : nat -> St -> Prop.

Variable run : list Op -> St -> option St.

Hypothesis run_nil : forall s, run [] s = Some s.

Hypothesis run_cons : forall op rest s,
  run (op :: rest) s
  = match step op s with
    | Some s1 => run rest s1
    | None => None
    end.

Hypothesis step_next : forall op s s',
  step op s = Some s' -> next s' = next s + (if takes op then 1 else 0).

Hypothesis step_sent : forall op s s',
  step op s = Some s' ->
  sent s' = (sent s ++ (if takes op then [next s] else []))%list
  \/ sent s' = sent s.

Hypothesis step_reachable : forall op s s' n,
  step op s = Some s' -> reachable (S n) s ->
  sent s' = (sent s ++ (if takes op then [next s] else []))%list
  /\ reachable n s'.



(** The call after [before] takes the identifier that follows those the
    calls of [before] took. *)
Lemma run_app : forall before after s,
  run (before ++ after) s
  = match run before s with
    | Some s1 => run after s1
    | None => None
    end.
Proof.
  induction before as [|op before IH]; intros after s; simpl.
  - rewrite run_nil. reflexivity.
  - rewrite !run_cons. destruct (step op s); auto.
Qed.

End Numbering.

(** ** The stdio client: reading *)

Section StdioReading.

Variable json_loads : string -> option Json.

Import Stdio.

Lemma select_frame : forall timeout w b w1,
  select timeout w = (b, w1) ->
  pipe w1 = pipe w /\ closed_at w1 = closed_at w
  /\ stdin_open w1 = stdin_open w /\ written w1 = written w.
Proof.
  unfold select. intros timeout w b w1.
  destruct (available_at w) as [t|]; [destruct (arrives_within _ _ _)|];
    intros H; inversion H; subst; simpl; auto.
Qed.

Lemma _read_msgs_once_frame : forall timeout w w1 r,
  _read_msgs_once json_loads timeout w = Some (w1, r) ->
  closed_at w1 = closed_at w /\ stdin_open w1 = stdin_open w
  /\ written w1 = written w
  /\ (pipe w1 = pipe w \/ exists rd, pipe w = rd :: pipe w1)
  /\ (forall msgs, r = Ok msgs -> exists rd, pipe w = rd :: pipe w1).
Proof.
  unfold _read_msgs_once. intros timeout w w1 r.
  destruct (timeout <? 0).
  { intros H; inversion H; subst. repeat split; auto. discriminate. }
  destruct (select timeout w) as [rl wa] eqn:Hsel.
  apply select_frame in Hsel. destruct Hsel as (Hp & Hc & Hs & Hw).
  destruct rl; simpl.
  2:{ intros H; inversion H; subst. repeat split; auto. discriminate. }
  unfold readline. rewrite Hp.
  destruct (pipe w) as [|rd rest] eqn:Hpipe.
  { simpl. intros H; inversion H; subst. repeat split; auto. discriminate. }
  destruct (done_at rd) as [t|]; [|discriminate].
  destruct (String.eqb (text rd) ""); [|destruct (json_loads (text rd)) as [[]|]];
    intros H; inversion H; subst; simpl; repeat split; eauto;
    try discriminate.
Qed.

Lemma reads_return_tail : forall w w1 rd,
  reads_return w -> pipe w = rd :: pipe w1 -> reads_return w1.
Proof.
  unfold reads_return. intros w w1 rd H Hp. rewrite Hp in H.
  inversion H; auto.
Qed.

(** A read returns when the line it waits for is completed. *)
Lemma _read_msgs_once_returns : forall timeout w,
  reads_return w ->
  exists w1 r, _read_msgs_once json_loads timeout w = Some (w1, r).
Proof.
  unfold _read_msgs_once, reads_return. intros timeout w Hret.
  destruct (timeout <? 0); [eauto|].
  destruct (select timeout w) as [rl wa] eqn:Hsel.
  apply select_frame in Hsel. destruct Hsel as (Hp & _).
  destruct rl; simpl; [|eauto].
  unfold readline. rewrite Hp.
  destruct (pipe w) as [|rd rest]; simpl; [eauto|].
  inversion Hret as [|? ? Hd _]; subst.
  destruct (done_at rd) as [t|]; [|congruence].
  destruct (String.eqb (text rd) ""); [eauto|].
  destruct (json_loads (text rd)) as [[]|]; eauto.
Qed.

Lemma await_loop_frame : forall fuel req_id deadline c w c' w' r,
  await_loop json_loads fuel req_id deadline c w = Some (c', w', r) ->
  _next_id c' = _next_id c /\ closed_at w' = closed_at w
  /\ stdin_open w' = stdin_open w /\ written w' = written w.
Proof.
  induction fuel as [|fuel IH]; intros req_id deadline c w c' w' r; simpl.
  { discriminate. }
  destruct (now w <? deadline).
  2:{ intros H; inversion H; subst; auto. }
  destruct (_read_msgs_once json_loads _ w) as [[w1 r1]|] eqn:Hread;
    [|discriminate].
  apply _read_msgs_once_frame in Hread. destruct Hread as (Hc & Hs & Hw & _).
  destruct r1 as [msgs|e].
  2:{ intros H; inversion H; subst; auto. }
  destruct (scan_msgs req_id msgs (_notifications c)) as [notes found].
  destruct found as [[msg|]|e].
  - intros H; inversion H; subst; simpl; auto.
  - intros H. apply IH in H. simpl in H.
    destruct H as (H1 & H2 & H3 & H4). repeat split; congruence.
  - intros H; inversion H; subst; simpl; auto.
Qed.

(** The loop of [_await_response] ends when every read returns: with more
    fuel than reads pending it never runs out. *)
Lemma await_loop_total : forall fuel req_id deadline c w,
  reads_return w ->
  (List.length (pipe w) < fuel)%nat ->
  exists c' w' r, await_loop json_loads fuel req_id deadline c w = Some (c', w', r).
Proof.
  induction fuel as [|fuel IH]; intros req_id deadline c w Hret Hlen; [lia|].
  simpl. destruct (now w <? deadline); [|eauto].
  destruct (_read_msgs_once_returns (Z.max 0 (deadline - now w)) w Hret)
    as (w1 & r1 & Hread).
  rewrite Hread.
  apply _read_msgs_once_frame in Hread. destruct Hread as (_ & _ & _ & _ & Hpipe).
  destruct r1 as [msgs|e]; [|eauto].
  destruct (Hpipe msgs eq_refl) as (rd & Hp).
  destruct (scan_msgs req_id msgs (_notifications c)) as [notes found].
  destruct found as [[msg|]|e]; eauto.
  apply IH.
  - eapply reads_return_tail; eauto.
  - rewrite Hp in Hlen. simpl in Hlen. lia.
Qed.

Lemma _await_response_total : forall req_id timeout c w,
  reads_return w ->
  exists c' w' r, _await_response json_loads req_id timeout c w = Some (c', w', r).
Proof.
  intros. unfold _await_response. apply await_loop_total; [assumption|lia].
Qed.



End StdioReading.

(** ** Request identifiers *)

Section StdioIds.

Variable json_loads : string -> option Json.

Import Stdio.











End StdioIds.

Section HttpIds.

Variable json_loads : string -> option Json.

Import Http.

Lemma observe_session_frame : forall sid c c1,
  observe_session sid c = Ok c1 ->
  _next_id c1 = _next_id c /\ protocol_version c1 = protocol_version c.
Proof.
  unfold observe_session. intros sid c c1.
  destruct (header_set sid && String.eqb (session_id c) "")%bool.
  - intros H; inversion H; subst; auto.
  - destruct (_ && _ && _)%bool; intros H; inversion H; subst; auto.
Qed.

Lemma read_response_no_post : forall payload expect status ctype body broken,
  flat_map posted_id
    (fst (read_response json_loads payload expect status ctype body broken)) = [].
Proof.
  intros. unfold read_response.
  destruct (_ || _ || _)%bool; [reflexivity|].
  destruct (String.eqb _ "application/json");
    [destruct (read_body body broken); reflexivity|].
  destruct (String.eqb _ "text/event-stream");
    [|destruct (read_body body broken); reflexivity].
  destruct (py_get "id" payload) as [target|]; [|reflexivity].
  destruct (sse_loop_for _ _ _ _ _) as [[m|]|]; try reflexivity.
  destruct broken; reflexivity.
Qed.

Lemma posted_ids_log : forall evs w,
  posted_ids (log evs w) = (posted_ids w ++ flat_map posted_id evs)%list.
Proof. intros. unfold posted_ids, log. simpl. apply flat_map_app. Qed.

Lemma bad_status_line_effect : forall text expect c w c' w' r,
  bad_status_line text expect c w = (c', w', r) ->
  c' = c /\ server w' = server w /\ posted_ids w' = posted_ids w.
Proof.
  unfold bad_status_line. intros text expect c w c' w' r.
  destruct (_ && _)%bool; intros H; inversion H; subst;
    rewrite ?posted_ids_log; simpl; rewrite ?app_nil_r; auto.
Qed.

Lemma received_effect :
  forall payload expect status sid ctype body broken c w c' w' r,
  received json_loads payload expect status sid ctype body broken c w
  = (c', w', r) ->
  _next_id c' = _next_id c /\ protocol_version c' = protocol_version c
  /\ server w' = server w /\ posted_ids w' = posted_ids w.
Proof.
  unfold received.
  intros payload expect status sid ctype body broken c w c' w' r.
  destruct (observe_session sid c) as [c1|e] eqn:Hobs.
  - apply observe_session_frame in Hobs. destruct Hobs as [Hn Hp].
    pose proof (read_response_no_post payload expect status ctype body broken)
      as Hnp.
    destruct (read_response json_loads payload expect status ctype body broken)
      as [evs r1].
    simpl in Hnp. intros H; inversion H; subst.
    rewrite posted_ids_log, Hnp, app_nil_r. auto.
  - intros H; inversion H; subst.
    rewrite posted_ids_log. simpl. rewrite app_nil_r. auto.
Qed.

(** The identifier that goes out with [payload] when the script has
    [script] left. *)
Lemma _send_and_read_effect : forall payload expect c w c' w' r,
  _send_and_read json_loads payload expect c w = (c', w', r) ->
  _next_id c' = _next_id c
  /\ protocol_version c' = protocol_version c
  /\ server w' = tl (server w)
  /\ posted_ids w' =
       match server w with
       | [] | Refused :: _ => posted_ids w
       | _ :: _ => (posted_ids w ++ posted_id (Post (_headers c) payload))%list
       end.
Proof.
  intros payload expect c w c' w' r. unfold _send_and_read.
  destruct (server w) as [|reply rest] eqn:Hsrv.
  { intros H; inversion H; subst. rewrite Hsrv. auto. }
  assert (Hsent : posted_ids (log [Post (_headers c) payload]
                                (mkWorld rest (trace w)))
                  = (posted_ids w ++ posted_id (Post (_headers c) payload))%list).
  { rewrite posted_ids_log. simpl. rewrite app_nil_r. reflexivity. }
  cbv zeta.
  destruct reply as [|text|e|status sid ctype body|status sid ctype body e].
  - intros H; inversion H; subst. simpl. auto.
  - intros H. apply bad_status_line_effect in H.
    destruct H as (-> & Hs & Hp). rewrite Hp, Hs, Hsent. simpl. auto.
  - destruct e; try (intros H; inversion H; subst; rewrite Hsent; simpl; auto).
    intros H. apply bad_status_line_effect in H.
    destruct H as (-> & Hs & Hp). rewrite Hp, Hs, Hsent. simpl. auto.
  - intros H. apply received_effect in H.
    destruct H as (Hn & Hpv & Hs & Hp). rewrite Hp, Hs, Hsent. simpl. auto.
  - intros H. apply received_effect in H.
    destruct H as (Hn & Hpv & Hs & Hp). rewrite Hp, Hs, Hsent. simpl. auto.
Qed.


Lemma request_next_id : forall method params c w c' w' r,
  request json_loads method params c w = (c', w', r) ->
  _next_id c' = _next_id c + 1.
Proof.
  intros method params c w c' w' r. unfold request.
  destruct (_send_and_read _ _ _ _ w) as [[c1 w1] r1] eqn:Hsend.
  apply _send_and_read_effect in Hsend. destruct Hsend as (Hn & _).
  simpl in Hn. intros H.
  assert (c' = c1) as -> by (destruct r1; inversion H; auto). exact Hn.
Qed.




End HttpIds.

Section SseIds.

Variable json_loads : string -> option Json.

Import Sse.

Lemma posted_ids_log_sse : forall evs w,
  posted_ids (log evs w) = (posted_ids w ++ flat_map posted_id evs)%list.
Proof. intros. unfold posted_ids, log. simpl. apply flat_map_app. Qed.










End SseIds.

Section StdioRunIds.

Variable json_loads : string -> option Json.

Import Stdio.


End StdioRunIds.



(** ** Tool calls and the handshake *)

Section Ungated.

Variable json_loads : string -> option Json.


(** With the server's stdin closed the write fails, and the call with it. *)
Lemma stdio_request_broken_pipe : forall method params timeout c w,
  Stdio.stdin_open w = false ->
  Stdio.request json_loads method params timeout c w
  = Some (Stdio.mkClient (Stdio._next_id c + 1) (Stdio._notifications c), w,
          Raise (OSError "Broken pipe")).
Proof.
  intros method params timeout c w Hopen.
  unfold Stdio.request, Stdio._write_msg. rewrite Hopen. reflexivity.
Qed.

Lemma read_response_not_a_post : forall payload expect status ctype body broken,
  Forall not_a_post
    (fst (Http.read_response json_loads payload expect status ctype body broken)).
Proof.
  intros. unfold Http.read_response.
  destruct (_ || _ || _)%bool; [repeat constructor|].
  destruct (String.eqb _ "application/json");
    [destruct (Http.read_body body broken); repeat constructor|].
  destruct (String.eqb _ "text/event-stream");
    [|destruct (Http.read_body body broken); repeat constructor].
  destruct (py_get "id" payload) as [target|]; [|constructor].
  destruct (Http.sse_loop_for _ _ _ _ _) as [[m|]|]; try repeat constructor.
  destruct broken; repeat constructor.
Qed.

(** [_send_and_read] POSTs its payload when the connection is made, and
    nothing else. *)
Lemma _send_and_read_posts : forall payload expect c w reply rest,
  Http.server w = reply :: rest ->
  reply <> Http.Refused ->
  exists c' r evs,
    Http._send_and_read json_loads payload expect c w
    = (c', Http.mkWorld rest
             (Http.trace w ++ Http.Post (Http._headers c) payload :: evs), r)
    /\ Forall not_a_post evs.
Proof.
  intros payload expect c w reply rest Hsrv Hne.
  unfold Http._send_and_read. rewrite Hsrv. cbv zeta.
  assert (B : forall text,
             exists c' r evs,
               Http.bad_status_line text expect c
                 (Http.log [Http.Post (Http._headers c) payload]
                    (Http.mkWorld rest (Http.trace w)))
               = (c', Http.mkWorld rest
                        (Http.trace w
                         ++ Http.Post (Http._headers c) payload :: evs), r)
               /\ Forall not_a_post evs).
  { intros text. unfold Http.bad_status_line.
    destruct (_ && _)%bool.
    - exists c, (Ok None), [Http.ConnClose]. unfold Http.log. simpl.
      rewrite <- app_assoc. split; [reflexivity|repeat constructor].
    - exists c, (Raise (BadStatusLine text)), []. unfold Http.log. simpl.
      split; [reflexivity|constructor]. }
  assert (R : forall status sid ctype body broken,
             exists c' r evs,
               Http.received json_loads payload expect status sid ctype body
                 broken c
                 (Http.log [Http.Post (Http._headers c) payload]
                    (Http.mkWorld rest (Http.trace w)))
               = (c', Http.mkWorld rest
                        (Http.trace w
                         ++ Http.Post (Http._headers c) payload :: evs), r)
               /\ Forall not_a_post evs).
  { intros status sid ctype body broken. unfold Http.received.
    destruct (Http.observe_session sid c) as [c1|e].
    - pose proof (read_response_not_a_post payload expect status ctype body
                    broken) as Hnp.
      destruct (Http.read_response _ _ _ _ _ _ _) as [evs r1].
      exists c1, r1, evs. unfold Http.log. simpl. rewrite <- app_assoc.
      split; [reflexivity|exact Hnp].
    - eexists c, _, [Http.Drain]. unfold Http.log. simpl.
      rewrite <- app_assoc. split; [reflexivity|repeat constructor]. }
  destruct reply as [|text|e|status sid ctype body|status sid ctype body e].
  - congruence.
  - apply B.
  - destruct e; try apply B;
      (eexists c, _, []; unfold Http.log; simpl;
       split; [reflexivity|constructor]).
  - apply R.
  - apply R.
Qed.



End Ungated.




(** ** The session identifier of the HTTP client *)

Lemma observe_session_cases : forall sid c,
  (forall v, sid = Some v -> v <> "" -> Http.session_id c = "" ->
     Http.observe_session sid c = Ok (Http.set_session v c))
  /\ (forall v, sid = Some v -> v <> "" -> Http.session_id c <> "" ->
        v <> Http.session_id c ->
        Http.observe_session sid c = Raise (SessionChanged (Http.session_id c) v))
  /\ (sid = None \/ sid = Some "" \/ sid = Some (Http.session_id c) ->
        Http.observe_session sid c = Ok c
        \/ exists c1, Http.observe_session sid c = Ok c1
                      /\ Http.session_id c1 = Http.session_id c).
Proof.
  intros sid c. unfold Http.observe_session. split; [|split].
  - intros v -> Hv Hc. simpl.
    apply String.eqb_neq in Hv. rewrite Hv, Hc. reflexivity.
  - intros v -> Hv Hc Hne. simpl.
    apply String.eqb_neq in Hv, Hc, Hne. rewrite Hv, Hc, Hne. reflexivity.
  - intros [-> | [-> | ->]]; simpl; auto.
    destruct (String.eqb (Http.session_id c) "") eqn:He; simpl.
    + auto.
    + rewrite String.eqb_refl. simpl. auto.
Qed.

Section HttpSession.

Variable json_loads : string -> option Json.

Import Http.

Lemma observe_session_keeps : forall sid c c1,
  session_id c <> "" ->
  observe_session sid c = Ok c1 ->
  c1 = c.
Proof.
  intros sid c c1 Hne. unfold observe_session.
  apply String.eqb_neq in Hne. rewrite Hne, andb_false_r.
  destruct (_ && _ && _)%bool; intros H; inversion H; reflexivity.
Qed.

Lemma _send_and_read_keeps_session : forall payload expect c w,
  session_id c <> "" ->
  session_id (fst (fst (_send_and_read json_loads payload expect c w)))
  = session_id c.
Proof.
  intros payload expect c w Hne. unfold _send_and_read.
  destruct (server w) as [|reply rest]; [reflexivity|]. cbv zeta.
  assert (R : forall status sid ctype body broken w1,
             session_id (fst (fst (received json_loads payload expect status
                                     sid ctype body broken c w1)))
             = session_id c).
  { intros status sid ctype body broken w1. unfold received.
    destruct (observe_session sid c) as [c1|e] eqn:Hobs; [|reflexivity].
    apply (observe_session_keeps sid c c1 Hne) in Hobs. subst c1.
    destruct (read_response _ _ _ _ _ _ _). reflexivity. }
  destruct reply as [|text|e|status sid ctype body|status sid ctype body e];
    try apply R; try reflexivity.
  - unfold bad_status_line. destruct (_ && _)%bool; reflexivity.
  - destruct e; try reflexivity.
    unfold bad_status_line. destruct (_ && _)%bool; reflexivity.
Qed.

Lemma step_keeps_session : forall op c w,
  session_id c <> "" ->
  session_id (fst (step json_loads op c w)) = session_id c.
Proof.
  intros op c w Hne.
  assert (Hreq : forall m p,
    session_id (fst (forget (request json_loads m p c w))) = session_id c).
  { intros m p. unfold request.
    pose proof (_send_and_read_keeps_session (request_message (_next_id c) m p)
                  true (bump c) w Hne) as H.
    destruct (_send_and_read _ _ _ _ w) as [[c1 w1] r1]. simpl in H.
    destruct r1; exact H. }
  destruct op as [n v| |m p| |n a]; simpl; try apply Hreq.
  - unfold initialize.
    pose proof (_send_and_read_keeps_session
                  (initialize_request (_next_id c) n v (protocol_version (bump c)))
                  true (bump c) w Hne) as H.
    destruct (_send_and_read _ _ _ _ w) as [[c1 w1] r1]. simpl in H.
    destruct r1 as [[resp|]|e]; simpl; auto.
    destruct (negb (truthy resp)); simpl; auto.
    destruct (py_contains "error" resp) as [[]|]; simpl; auto.
  - unfold send_initialized.
    match goal with |- context [_send_and_read json_loads ?msg false c w] =>
      pose proof (_send_and_read_keeps_session msg false c w Hne) as H end.
    destruct (_send_and_read _ _ _ _ w) as [[c1 w1] r1]. simpl in H.
    destruct r1; exact H.
Qed.

Lemma run_keeps_session : forall ops c w,
  session_id c <> "" ->
  session_id (fst (run json_loads ops c w)) = session_id c.
Proof.
  induction ops as [|op ops IH]; intros c w Hne; simpl; [reflexivity|].
  pose proof (step_keeps_session op c w Hne) as H.
  destruct (step json_loads op c w) as [c1 w1]. simpl in H.
  rewrite IH; [exact H|congruence].
Qed.

End HttpSession.

(** C2: a response is a [Response] reply of the server.  While no session
    id is recorded ([session_id] is empty, as in a new client), a response
    with a non-empty [Mcp-Session-Id] records it; once one is recorded, a
    response with a different non-empty header makes the call raise
    "Session ID changed" and keeps the recorded value; a response whose
    header is absent, empty or equal leaves the recorded value as it is.
    So a recorded session id stays through any sequence of calls. *)
Theorem C2_session_id_recorded_once_then_checked :
  forall json_loads payload expect c w status sid ctype body rest c' w' r,
    Http.server w = Http.Response status sid ctype body :: rest ->
    Http._send_and_read json_loads payload expect c w = (c', w', r) ->
    (forall v, sid = Some v -> v <> "" -> Http.session_id c = "" ->
       Http.session_id c' = v)
    /\ (forall v, sid = Some v -> v <> "" -> Http.session_id c <> "" ->
          v <> Http.session_id c ->
          r = Raise (SessionChanged (Http.session_id c) v)
          /\ Http.session_id c' = Http.session_id c)
    /\ (sid = None \/ sid = Some "" \/ sid = Some (Http.session_id c) ->
          Http.session_id c' = Http.session_id c)
    /\ (forall ops c0 w0,
          Http.session_id c0 <> "" ->
          Http.session_id (fst (Http.run json_loads ops c0 w0))
          = Http.session_id c0).
Proof.
  intros json_loads payload expect c w status sid ctype body rest c' w' r Hsrv.
  unfold Http._send_and_read. rewrite Hsrv. cbv zeta. unfold Http.received.
  destruct (observe_session_cases sid c) as (H1 & H2 & H3).
  intros Hrun. split; [|split; [|split]].
  - intros v Hsid Hv Hc. rewrite (H1 v Hsid Hv Hc) in Hrun.
    destruct (Http.read_response _ _ _ _ _ _ _) as [evs r1].
    inversion Hrun; subst. reflexivity.
  - intros v Hsid Hv Hc Hne. rewrite (H2 v Hsid Hv Hc Hne) in Hrun.
    inversion Hrun; subst. auto.
  - intros Hcase. destruct (H3 Hcase) as [Hobs|(c1 & Hobs & Hc1)];
      rewrite Hobs in Hrun;
      destruct (Http.read_response _ _ _ _ _ _ _) as [evs r1];
      inversion Hrun; subst; auto.
  - apply run_keeps_session.
Qed.

Lemma C2_session_id_witness :
  Http.session_id (fst after_first_reply) = "A"
  /\ exists c' w',
       Http.tools_list JsonRef.json_loads_ref (fst after_first_reply)
         (snd after_first_reply)
       = (c', w', Raise (SessionChanged "A" "B"))
       /\ Http.session_id c' = "A".
Proof.
  split; [reflexivity|].
  pose (c0 := Http.bump (fst after_first_reply)).
  pose (msg := Http.request_message 2 "tools/list" (Some (JObj []))).
  pose (out := Http._send_and_read JsonRef.json_loads_ref msg true c0
                 (snd after_first_reply)).
  destruct (C2_session_id_recorded_once_then_checked JsonRef.json_loads_ref
              msg true c0 (snd after_first_reply)
              200 (Some "B") (Some "application/json") reply_1_text []
              (fst (fst out)) (snd (fst out)) (snd out) eq_refl eq_refl)
    as (_ & H & _).
  destruct (H "B" eq_refl) as [Hr Hs]; try (vm_compute; discriminate).
  exists (fst (fst out)), (snd (fst out)). split; [|exact Hs].
  vm_compute. reflexivity.
Defined.

(** ** The stdio client: batches, timeouts and end of stream *)

(** C4 on the code: awaiting id 1, the line
    [[{"jsonrpc":"2.0","id":1,"result":{}},{"jsonrpc":"2.0","method":"notifications/x"}]]
    makes [_await_response] return the message with id 1 at the first
    element of the batch, and the notification behind it is never looked at:
    the notification queue stays empty.  The [for] loop returns at a match
    whatever follows in the batch; with the notification first, it is
    queued. *)
Theorem C4_batched_reply_drops_the_notification_behind_it :
  (exists w',
     Stdio._await_response JsonRef.json_loads_ref 1 (seconds 10) Stdio.init
       (stdio_one_line batch_reply_then_note)
     = Some (Stdio.mkClient 1 [], w', Ok reply_1))
  /\ (forall req_id fields rest notes,
        Stdio.scan_msgs req_id (JObj (("id", JNum req_id) :: fields) :: rest) notes
        = (notes, Ok (Some (JObj (("id", JNum req_id) :: fields)))))
  /\ (exists w',
        Stdio._await_response JsonRef.json_loads_ref 1 (seconds 10) Stdio.init
          (stdio_one_line batch_note_then_reply)
        = Some (Stdio.mkClient 1 [note_x], w', Ok reply_1)).
Proof.
  split; [|split].
  - eexists. vm_compute. reflexivity.
  - intros req_id fields rest notes. simpl. rewrite Z.eqb_refl. reflexivity.
  - eexists. vm_compute. reflexivity.
Qed.

Section StdioTimeouts.

Variable json_loads : string -> option Json.

Import Stdio.

Lemma scan_msgs_result_any_notes : forall req_id msgs n1 n2,
  snd (scan_msgs req_id msgs n1) = snd (scan_msgs req_id msgs n2).
Proof.
  induction msgs as [|m rest IH]; intros n1 n2; simpl; [reflexivity|].
  destruct (py_contains "id" m) as [[]|]; simpl; auto.
  destruct (py_get "id" m) as [v|]; simpl; auto.
  destruct (py_eq_int v req_id); simpl; auto.
Qed.

Lemma _read_msgs_once_times_out : forall timeout w,
  0 <= timeout ->
  match available_at w with
  | Some t => arrives_within (now w) t timeout = false
  | None => True
  end ->
  _read_msgs_once json_loads timeout w
  = Some (set_now (now w + timeout) w,
          Raise (TimeoutError "Timed out waiting for server output")).
Proof.
  intros timeout w Ht Hav. unfold _read_msgs_once, select.
  destruct (Z.ltb_spec timeout 0) as [|_]; [lia|].
  destruct (available_at w) as [t|]; [rewrite Hav|]; reflexivity.
Qed.

Lemma _read_msgs_once_closed : forall timeout w t,
  0 <= timeout ->
  pipe w = [] ->
  closed_at w = Some t ->
  arrives_within (now w) t timeout = true ->
  _read_msgs_once json_loads timeout w
  = Some (set_now (Z.max (now w) t) w,
          Raise (RuntimeError "Server closed stdout (no more JSON)")).
Proof.
  intros timeout w t Ht Hp Hc Hav. unfold _read_msgs_once, select, available_at.
  destruct (Z.ltb_spec timeout 0) as [|_]; [lia|].
  rewrite Hp, Hc, Hav. simpl. unfold readline. simpl. rewrite Hp. reflexivity.
Qed.

(** A read that [select] lets through: [readline()] returns the line when
    it is complete, whenever that is. *)
Lemma _read_msgs_once_line : forall timeout w t d line rest,
  0 <= timeout ->
  pipe w = mkRead (Some t) (Some d) line :: rest ->
  arrives_within (now w) t timeout = true ->
  line <> "" ->
  _read_msgs_once json_loads timeout w
  = Some (mkWorld (Z.max (Z.max (now w) t) d) rest (closed_at w) (stdin_open w)
            (written w),
          match line_messages json_loads line with
          | Some msgs => Ok msgs
          | None => Raise JSONDecodeError
          end).
Proof.
  intros timeout w t d line rest Ht Hp Hav Hne.
  unfold _read_msgs_once, select, available_at.
  destruct (Z.ltb_spec timeout 0) as [|_]; [lia|].
  rewrite Hp. cbn [ready_at]. rewrite Hav. simpl. unfold readline. simpl.
  rewrite Hp. cbn [done_at text].
  apply String.eqb_neq in Hne. rewrite Hne.
  unfold line_messages.
  destruct (json_loads line) as [[]|]; reflexivity.
Qed.

(** A line that is begun and never completed: [readline()] does not
    return. *)
Lemma _read_msgs_once_hangs : forall timeout w t line rest,
  0 <= timeout ->
  pipe w = mkRead (Some t) None line :: rest ->
  arrives_within (now w) t timeout = true ->
  _read_msgs_once json_loads timeout w = None.
Proof.
  intros timeout w t line rest Ht Hp Hav.
  unfold _read_msgs_once, select, available_at.
  destruct (Z.ltb_spec timeout 0) as [|_]; [lia|].
  rewrite Hp. cbn [ready_at]. rewrite Hav. simpl. unfold readline. simpl.
  rewrite Hp. reflexivity.
Qed.

Lemma _read_msgs_once_timeout_late : forall timeout w w1 msg,
  _read_msgs_once json_loads timeout w = Some (w1, Raise (TimeoutError msg)) ->
  now w1 = now w + timeout.
Proof.
  unfold _read_msgs_once, select. intros timeout w w1 msg.
  destruct (timeout <? 0); [discriminate|].
  destruct (available_at w) as [t|].
  2:{ simpl. intros H; inversion H; subst. reflexivity. }
  destruct (arrives_within _ _ _); simpl.
  2:{ intros H; inversion H; subst. reflexivity. }
  unfold readline. simpl. destruct (pipe w) as [|rd rest]; simpl.
  { discriminate. }
  destruct (done_at rd); [|discriminate].
  destruct (String.eqb (text rd) ""); [discriminate|].
  destruct (json_loads (text rd)) as [[]|]; discriminate.
Qed.

Lemma scan_msgs_no_timeout : forall req_id msgs notes notes' msg,
  scan_msgs req_id msgs notes <> (notes', Raise (TimeoutError msg)).
Proof.
  induction msgs as [|m rest IH]; intros notes notes' msg; simpl.
  { discriminate. }
  destruct m; simpl; try discriminate; try apply IH;
    try (destruct (existsb _ _); [discriminate|apply IH]);
    try (destruct (Py.contains _ _); [discriminate|apply IH]).
  destruct (assoc_get "id" fields) as [v|]; [|apply IH].
  destruct (py_eq_int v req_id); [discriminate|apply IH].
Qed.

(** A timeout is never raised before the deadline. *)
Lemma await_loop_timeout_late : forall fuel req_id deadline c w c' w' msg,
  await_loop json_loads fuel req_id deadline c w
  = Some (c', w', Raise (TimeoutError msg)) ->
  deadline <= now w'.
Proof.
  induction fuel as [|fuel IH]; intros req_id deadline c w c' w' msg; simpl.
  { discriminate. }
  destruct (Z.ltb_spec (now w) deadline) as [Hlt|Hge].
  2:{ intros H; inversion H; subst. exact Hge. }
  destruct (_read_msgs_once json_loads _ w) as [[w1 r1]|] eqn:Hread;
    [|discriminate].
  destruct r1 as [msgs|e].
  - destruct (scan_msgs req_id msgs (_notifications c)) as [notes found] eqn:Hscan.
    destruct found as [[m|]|e].
    + discriminate.
    + apply IH.
    + intros H; inversion H; subst.
      exfalso. eapply scan_msgs_no_timeout; eauto.
  - intros H; inversion H; subst.
    apply _read_msgs_once_timeout_late in Hread. lia.
Qed.

(** Nothing that can be read before the deadline answers [req_id], and the
    server keeps its stdout open until then: [_await_response] raises
    [TimeoutError], at the deadline or later. *)
Lemma await_loop_silent : forall fuel req_id deadline c w,
  (List.length (pipe w) < fuel)%nat ->
  silent_before json_loads req_id deadline (pipe w) ->
  open_until deadline (closed_at w) ->
  exists c' w' msg,
    await_loop json_loads fuel req_id deadline c w
    = Some (c', w', Raise (TimeoutError msg)).
Proof.
  induction fuel as [|fuel IH]; intros req_id deadline c w Hlen Hsil Hopen; [lia|].
  simpl. destruct (Z.ltb_spec (now w) deadline) as [Hlt|Hge]; [|eauto].
  assert (Hpos : 0 <= Z.max 0 (deadline - now w)) by lia.
  destruct (pipe w) as [|[[t|] dn line] rest] eqn:Hp.
  - rewrite _read_msgs_once_times_out; eauto.
    unfold available_at. rewrite Hp. unfold open_until in Hopen.
    destruct (closed_at w) as [tc|]; [|exact I].
    unfold arrives_within.
    destruct (Z.leb_spec tc (now w)); [lia|].
    destruct (Z.ltb_spec tc (now w + Z.max 0 (deadline - now w))); [lia|].
    reflexivity.
  - destruct (arrives_within (now w) t (Z.max 0 (deadline - now w))) eqn:Hav.
    + assert (Ht : t < deadline).
      { unfold arrives_within in Hav. apply orb_true_iff in Hav.
        destruct Hav as [H|H]; [apply Z.leb_le in H|apply Z.ltb_lt in H]; lia. }
      inversion Hsil as [|x xs Hhead Htail]; subst.
      destruct (Hhead t eq_refl Ht) as (Hdone & Hne & msgs & Hmsgs & Hscan).
      cbn [done_at text] in Hdone, Hne, Hmsgs.
      destruct dn as [d|]; [|congruence].
      rewrite (_read_msgs_once_line _ w t d line rest Hpos Hp Hav Hne), Hmsgs.
      rewrite (scan_msgs_result_any_notes req_id msgs [] (_notifications c)) in Hscan.
      destruct (scan_msgs req_id msgs (_notifications c)) as [notes found].
      simpl in Hscan. subst found.
      apply IH; simpl; auto. simpl in Hlen. lia.
    + rewrite _read_msgs_once_times_out; eauto.
      unfold available_at. rewrite Hp. exact Hav.
  - rewrite _read_msgs_once_times_out; eauto.
    unfold available_at. rewrite Hp. exact I.
Qed.

(** Nothing that answers [req_id] arrives, and the server closes its stdout
    before the deadline: [_await_response] raises the "closed" error. *)
Lemma await_loop_closed : forall fuel req_id deadline c w t,
  (List.length (pipe w) < fuel)%nat ->
  all_before json_loads req_id deadline (pipe w) ->
  closed_at w = Some t ->
  t < deadline ->
  now w < deadline ->
  exists c' w',
    await_loop json_loads fuel req_id deadline c w
    = Some (c', w', Raise (RuntimeError "Server closed stdout (no more JSON)")).
Proof.
  induction fuel as [|fuel IH]; intros req_id deadline c w tc Hlen Hall Hc Htc Hnow;
    [lia|].
  simpl. destruct (Z.ltb_spec (now w) deadline) as [Hlt|Hge]; [|lia].
  assert (Hpos : 0 <= Z.max 0 (deadline - now w)) by lia.
  assert (Hin : forall t, t < deadline ->
            arrives_within (now w) t (Z.max 0 (deadline - now w)) = true).
  { intros t Ht. unfold arrives_within. apply orb_true_iff. right.
    apply Z.ltb_lt. lia. }
  destruct (pipe w) as [|[rd dn line] rest] eqn:Hp.
  - rewrite (_read_msgs_once_closed _ w tc Hpos Hp Hc (Hin tc Htc)). eauto.
  - inversion Hall
      as [|x xs [(t & d & Hr & Hd & Ht & Hdl) (Hne & msgs & Hmsgs & Hscan)] Htail];
      subst.
    cbn [ready_at done_at text] in Hr, Hd, Hne, Hmsgs. subst rd dn.
    rewrite (_read_msgs_once_line _ w t d line rest Hpos Hp (Hin t Ht) Hne), Hmsgs.
    rewrite (scan_msgs_result_any_notes req_id msgs [] (_notifications c)) in Hscan.
    destruct (scan_msgs req_id msgs (_notifications c)) as [notes found].
    simpl in Hscan. subst found.
    apply (IH _ _ _ _ tc); simpl; auto; [simpl in Hlen|]; lia.
Qed.

(** One turn of the loop. *)
Lemma await_loop_S : forall fuel req_id deadline c w,
  await_loop json_loads (S fuel) req_id deadline c w
  = if now w <? deadline then
      match _read_msgs_once json_loads (Z.max 0 (deadline - now w)) w with
      | None => None
      | Some (w1, Raise e) => Some (c, w1, Raise e)
      | Some (w1, Ok msgs) =>
          let '(notes, found) := scan_msgs req_id msgs (_notifications c) in
          let c1 := mkClient (_next_id c) notes in
          match found with
          | Raise e => Some (c1, w1, Raise e)
          | Ok (Some msg) => Some (c1, w1, Ok msg)
          | Ok None => await_loop json_loads fuel req_id deadline c1 w1
          end
      end
    else Some (c, w, Raise (TimeoutError "No response for id within timeout")).
Proof. reflexivity. Qed.

(** A reply that [select] sees begun before the deadline is returned when
    its line is complete, however late. *)
Lemma _await_response_returns_late : forall req_id timeout c w t d line rest msgs notes m,
  0 < timeout ->
  pipe w = mkRead (Some t) (Some d) line :: rest ->
  t < now w + timeout ->
  line <> "" ->
  line_messages json_loads line = Some msgs ->
  scan_msgs req_id msgs (_notifications c) = (notes, Ok (Some m)) ->
  _await_response json_loads req_id timeout c w
  = Some (mkClient (_next_id c) notes,
          mkWorld (Z.max (Z.max (now w) t) d) rest (closed_at w) (stdin_open w)
            (written w),
          Ok m).
Proof.
  intros req_id timeout c w t d line rest msgs notes m Hpos Hp Ht Hne Hmsgs Hscan.
  unfold _await_response. rewrite await_loop_S.
  destruct (Z.ltb_spec (now w) (now w + timeout)) as [_|]; [|lia].
  assert (Hav : arrives_within (now w) t (Z.max 0 (now w + timeout - now w)) = true).
  { unfold arrives_within. apply orb_true_iff. right. apply Z.ltb_lt. lia. }
  assert (Hpos' : 0 <= Z.max 0 (now w + timeout - now w)) by lia.
  rewrite (_read_msgs_once_line _ w t d line rest Hpos' Hp Hav Hne), Hmsgs.
  rewrite Hscan. reflexivity.
Qed.

(** A line begun before the deadline and never completed: the wait never
    ends. *)
Lemma _await_response_hangs : forall req_id timeout c w t line rest,
  0 < timeout ->
  pipe w = mkRead (Some t) None line :: rest ->
  t < now w + timeout ->
  _await_response json_loads req_id timeout c w = None.
Proof.
  intros req_id timeout c w t line rest Hpos Hp Ht.
  unfold _await_response. rewrite await_loop_S.
  destruct (Z.ltb_spec (now w) (now w + timeout)) as [_|]; [|lia].
  assert (Hav : arrives_within (now w) t (Z.max 0 (now w + timeout - now w)) = true).
  { unfold arrives_within. apply orb_true_iff. right. apply Z.ltb_lt. lia. }
  assert (Hpos' : 0 <= Z.max 0 (now w + timeout - now w)) by lia.
  rewrite (_read_msgs_once_hangs _ w t line rest Hpos' Hp Hav). reflexivity.
Qed.

(** A reply to another request is skipped, without error. *)
Lemma scan_msgs_skips_other_reply : forall req_id other fields notes,
  other <> req_id ->
  scan_msgs req_id [JObj (("id", JNum other) :: fields)] notes = (notes, Ok None).
Proof.
  intros req_id other fields notes Hne. simpl.
  apply Z.eqb_neq in Hne. rewrite Hne. reflexivity.
Qed.

End StdioTimeouts.

(** C7 on the code: the timeout of a read bounds the wait in [select] only.
    When nothing becomes readable within the timeout, [_read_msgs_once]
    raises [TimeoutError] once the timeout has passed; when nothing that can
    be read before the deadline answers the awaited id and the server keeps
    its stdout open, [_await_response] raises [TimeoutError], not before the
    deadline; at end of stream both raise "Server closed stdout" instead;
    the client keeps no record of the wait (its counter is as before, and a
    later reply to that id is skipped by the next wait without error).  But
    [readline()] is called without a timeout: once [select] has seen the
    beginning of a line, the read lasts until the line is complete.  Waiting
    500 ms for request 1, a reply whose line is completed after 1.5 s is
    returned, at 1.5 s, where the claim has a timeout error; and when the
    line is never completed the wait never ends.  A line that is not JSON
    ends the wait at once, with the decoder's error. *)
Theorem C7_stdio_readline_is_not_bounded_by_the_timeout : forall json_loads,
  Stdio._await_response JsonRef.json_loads_ref 1 500 Stdio.init stdio_slow_line
  = Some (Stdio.init, Stdio.mkWorld 1500 [] None true [], Ok reply_1)
  /\ Stdio._await_response json_loads 1 500 Stdio.init stdio_half_line = None
  /\ (forall req_id timeout c w t d line rest msgs notes m,
      0 < timeout ->
      Stdio.pipe w = Stdio.mkRead (Some t) (Some d) line :: rest ->
      t < Stdio.now w + timeout ->
      line <> "" ->
      line_messages json_loads line = Some msgs ->
      Stdio.scan_msgs req_id msgs (Stdio._notifications c) = (notes, Ok (Some m)) ->
      Stdio._await_response json_loads req_id timeout c w
      = Some (Stdio.mkClient (Stdio._next_id c) notes,
              Stdio.mkWorld (Z.max (Z.max (Stdio.now w) t) d) rest
                (Stdio.closed_at w) (Stdio.stdin_open w) (Stdio.written w),
              Ok m))
  /\ (forall req_id timeout c w t line rest,
      0 < timeout ->
      Stdio.pipe w = Stdio.mkRead (Some t) None line :: rest ->
      t < Stdio.now w + timeout ->
      Stdio._await_response json_loads req_id timeout c w = None)
  /\ (forall timeout w t d line rest,
      0 <= timeout ->
      Stdio.pipe w = Stdio.mkRead (Some t) (Some d) line :: rest ->
      arrives_within (Stdio.now w) t timeout = true ->
      line <> "" ->
      json_loads line = None ->
      Stdio._read_msgs_once json_loads timeout w
      = Some (Stdio.mkWorld (Z.max (Z.max (Stdio.now w) t) d) rest
                (Stdio.closed_at w) (Stdio.stdin_open w) (Stdio.written w),
              Raise JSONDecodeError))
  /\ (forall timeout w,
      0 <= timeout ->
      match Stdio.available_at w with
      | Some t => arrives_within (Stdio.now w) t timeout = false
      | None => True
      end ->
      Stdio._read_msgs_once json_loads timeout w
      = Some (Stdio.set_now (Stdio.now w + timeout) w,
              Raise (TimeoutError "Timed out waiting for server output")))
  /\ (forall req_id timeout c w,
      silent_before json_loads req_id (Stdio.now w + timeout) (Stdio.pipe w) ->
      open_until (Stdio.now w + timeout) (Stdio.closed_at w) ->
      exists c' w' msg,
        Stdio._await_response json_loads req_id timeout c w
        = Some (c', w', Raise (TimeoutError msg))
        /\ Stdio.now w + timeout <= Stdio.now w'
        /\ Stdio._next_id c' = Stdio._next_id c)
  /\ (forall timeout w t,
      0 <= timeout ->
      Stdio.pipe w = [] ->
      Stdio.closed_at w = Some t ->
      arrives_within (Stdio.now w) t timeout = true ->
      Stdio._read_msgs_once json_loads timeout w
      = Some (Stdio.set_now (Z.max (Stdio.now w) t) w,
              Raise (RuntimeError "Server closed stdout (no more JSON)")))
  /\ (forall req_id timeout c w t,
      all_before json_loads req_id (Stdio.now w + timeout) (Stdio.pipe w) ->
      Stdio.closed_at w = Some t ->
      t < Stdio.now w + timeout ->
      0 < timeout ->
      exists c' w',
        Stdio._await_response json_loads req_id timeout c w
        = Some (c', w', Raise (RuntimeError "Server closed stdout (no more JSON)"))
        /\ Stdio._next_id c' = Stdio._next_id c)
  /\ (forall req_id other fields notes,
      other <> req_id ->
      Stdio.scan_msgs req_id [JObj (("id", JNum other) :: fields)] notes
      = (notes, Ok None)).
Proof.
  intros json_loads. repeat apply conj.
  - vm_compute. reflexivity.
  - apply (_await_response_hangs json_loads 1 500 Stdio.init stdio_half_line
             0 "" []); [lia|reflexivity|simpl; lia].
  - apply _await_response_returns_late.
  - apply _await_response_hangs.
  - intros timeout w t d line rest Ht Hp Hav Hne Hbad.
    rewrite (_read_msgs_once_line json_loads timeout w t d line rest Ht Hp Hav Hne).
    unfold line_messages. rewrite Hbad. reflexivity.
  - apply _read_msgs_once_times_out.
  - intros req_id timeout c w Hsil Hopen.
    destruct (await_loop_silent json_loads (S (List.length (Stdio.pipe w)))
                req_id (Stdio.now w + timeout) c w) as (c' & w' & msg & Hrun);
      auto.
    exists c', w', msg. split; [exact Hrun|]. split.
    + eapply await_loop_timeout_late; eauto.
    + eapply await_loop_frame; eauto.
  - apply _read_msgs_once_closed.
  - intros req_id timeout c w t Hall Hc Ht Hpos.
    destruct (await_loop_closed json_loads (S (List.length (Stdio.pipe w)))
                req_id (Stdio.now w + timeout) c w t) as (c' & w' & Hrun);
      auto; try lia.
    exists c', w'. split; [exact Hrun|].
    eapply await_loop_frame; eauto.
  - apply scan_msgs_skips_other_reply.
Qed.

(** Waiting 10 s for request 2 while the server only ever answers
    request 1. *)
Lemma C7_stdio_timeout_witness :
  exists c' w' msg,
    Stdio._await_response JsonRef.json_loads_ref 2 (seconds 10) Stdio.init
      stdio_answering
    = Some (c', w', Raise (TimeoutError msg))
    /\ Stdio.now stdio_answering + seconds 10 <= Stdio.now w'
    /\ Stdio._next_id c' = Stdio._next_id Stdio.init.
Proof.
  destruct (C7_stdio_readline_is_not_bounded_by_the_timeout
              JsonRef.json_loads_ref)
    as (_ & _ & _ & _ & _ & _ & H & _).
  apply (H 2 (seconds 10) Stdio.init stdio_answering).
  - constructor; [|constructor]. intros t _ _. split; [discriminate|].
    split; [discriminate|].
    exists [reply_1]. split; reflexivity.
  - exact I.
Defined.

(** ** The HTTP client: reading the response *)

Section HttpResponses.

Variable json_loads : string -> option Json.

Import Http.

(** The loop over an event stream returns what the first event with a
    matching message holds. *)
Lemma sse_loop_first_match : forall target_id expect lines buf,
  sse_loop_for json_loads target_id expect lines buf
  = first_match_for json_loads target_id expect (sse_events lines buf).
Proof.
  induction lines as [|chunk rest IH]; intros buf; simpl; [reflexivity|].
  destruct (String.eqb chunk ""); [reflexivity|].
  destruct (Py.startswith "data:" (Py.rstrip_crlf chunk)); [apply IH|].
  destruct (String.eqb (Py.rstrip_crlf chunk) ""); [|apply IH].
  destruct (negb (String.eqb buf "")); [|apply IH].
  simpl.
  destruct (match_event_for target_id expect (decode_event json_loads buf))
    as [[m|]|e]; auto.
Qed.

Lemma scan_batch_for_app : forall target_id l l',
  scan_batch_for target_id true (l ++ l')
  = match scan_batch_for target_id true l with
    | Ok None => scan_batch_for target_id true l'
    | r => r
    end.
Proof.
  induction l as [|x l IH]; intros l'; simpl; [reflexivity|].
  destruct (py_get "id" x) as [v|e]; [|reflexivity].
  destruct (py_eq v target_id); [reflexivity|apply IH].
Qed.

(** Event by event, the loop goes through the messages of the stream. *)
Lemma first_match_messages : forall target_id events,
  first_match_for json_loads target_id true events
  = scan_batch_for target_id true (stream_messages json_loads events).
Proof.
  induction events as [|data rest IH]; simpl; [reflexivity|].
  rewrite scan_batch_for_app, <- IH. unfold event_messages, match_event_for.
  destruct (decode_event json_loads data) as [[| | | |msgs|kv]|];
    reflexivity.
Qed.

Lemma scan_batch_for_no_answer : forall target_id pre rest,
  no_answer target_id pre ->
  scan_batch_for target_id true (pre ++ rest)
  = scan_batch_for target_id true rest.
Proof.
  induction pre as [|x pre IH]; intros rest Hall; simpl; [reflexivity|].
  inversion Hall as [|? ? [[kv ->] Hno] Htail]; subst.
  simpl in *. rewrite Hno. apply IH, Htail.
Qed.

(** After a response that passes the session check, [_send_and_read] is
    [read_response]. *)
Lemma _send_and_read_response :
  forall payload expect c w status sid ctype body rest c1,
    server w = Response status sid ctype body :: rest ->
    observe_session sid c = Ok c1 ->
    _send_and_read json_loads payload expect c w
    = (c1,
       mkWorld rest
         ((trace w ++ [Post (_headers c) payload])
            ++ fst (read_response json_loads payload expect status ctype body
                      None)),
       snd (read_response json_loads payload expect status ctype body None)).
Proof.
  intros payload expect c w status sid ctype body rest c1 Hsrv Hobs.
  unfold _send_and_read. rewrite Hsrv. cbv zeta. unfold received. rewrite Hobs.
  destruct (read_response json_loads payload expect status ctype body None).
  reflexivity.
Qed.

Lemma read_response_no_reply_expected : forall payload expect status ctype body,
  status = 202 \/ status = 204 \/ expect = false ->
  read_response json_loads payload expect status ctype body None
  = (closing, Ok None).
Proof.
  intros payload expect status ctype body H. unfold read_response.
  replace ((status =? 202) || (status =? 204) || negb expect)%bool with true;
    [reflexivity|].
  symmetry. destruct H as [-> | [-> | ->]]; simpl; auto using orb_true_r.
Qed.

Lemma read_response_by_content_type : forall payload status ctype body,
  status <> 202 -> status <> 204 ->
  read_response json_loads payload true status ctype body None
  = if String.eqb (content_type ctype) "application/json" then
      (closing,
       if negb (String.eqb body "") then
         match json_loads body with
         | Some v => Ok (Some v)
         | None => Raise JSONDecodeError
         end
       else Ok None)
    else if String.eqb (content_type ctype) "text/event-stream" then
      match py_get "id" payload with
      | Raise e => ([], Raise e)
      | Ok target_id =>
          match sse_loop_for json_loads target_id true (Py.readlines body) "" with
          | Raise e => ([], Raise e)
          | Ok r => ([RespClose; ConnClose], Ok r)
          end
      end
    else (closing, Raise (UnexpectedContentType (content_type ctype) status)).
Proof.
  intros payload status ctype body H1 H2. unfold read_response.
  apply Z.eqb_neq in H1, H2. rewrite H1, H2. simpl.
  destruct (String.eqb _ "application/json"); [reflexivity|].
  destruct (String.eqb _ "text/event-stream"); [|reflexivity].
  destruct (py_get "id" payload) as [target_id|]; [|reflexivity].
  destruct (sse_loop_for _ _ _ _ _) as [[m|]|]; reflexivity.
Qed.

Lemma py_get_id_request : forall rid method params,
  py_get "id" (request_message rid method params) = Ok (JNum rid).
Proof. intros. destruct params; reflexivity. Qed.

End HttpResponses.

(** C6: what [_send_and_read] makes of a response that passed the session
    check.  With status 202 or 204, or when no reply is expected, the body is
    drained and nothing is returned.  Otherwise the media type of
    [Content-Type] decides.  [application/json] is decoded and returned (an
    empty body gives nothing).  [text/event-stream] is read event by event;
    the messages of the stream are the decoded payloads that are objects
    and the elements of those that are arrays, in order, and the first of
    them whose [id] equals the [id] of the payload sent is returned, the
    response and the connection being closed; when there is none the
    stream is read to its end and nothing is returned; an element that is
    not an object, met before, makes the call raise [AttributeError].
    Anything else raises "Unexpected content-type". *)
Theorem C6_http_response_by_status_and_content_type :
  forall json_loads payload expect c w status sid ctype body rest c1,
    Http.server w = Http.Response status sid ctype body :: rest ->
    Http.observe_session sid c = Ok c1 ->
    let sent := (Http.trace w ++ [Http.Post (Http._headers c) payload])%list in
    let out := Http._send_and_read json_loads payload expect c w in
    let msgs :=
      stream_messages json_loads (Http.sse_events (Py.readlines body) "") in
    (status = 202 \/ status = 204 \/ expect = false ->
       out = (c1, Http.mkWorld rest (sent ++ closing), Ok None))
    /\ (status <> 202 -> status <> 204 -> expect = true ->
        content_type ctype = "application/json" ->
        out = (c1, Http.mkWorld rest (sent ++ closing),
               if String.eqb body "" then Ok None
               else match json_loads body with
                    | Some v => Ok (Some v)
                    | None => Raise JSONDecodeError
                    end))
    /\ (status <> 202 -> status <> 204 -> expect = true ->
        content_type ctype = "text/event-stream" ->
        (forall e, py_get "id" payload = Raise e ->
           out = (c1, Http.mkWorld rest (sent ++ []), Raise e))
        /\ (forall target_id, py_get "id" payload = Ok target_id ->
            (forall pre m post,
                msgs = (pre ++ m :: post)%list ->
                no_answer target_id pre ->
                answers target_id m = true ->
                out = (c1,
                       Http.mkWorld rest
                         (sent ++ [Http.RespClose; Http.ConnClose]),
                       Ok (Some m)))
            /\ (forall pre bad post,
                msgs = (pre ++ bad :: post)%list ->
                no_answer target_id pre ->
                is_dict bad = false ->
                out = (c1, Http.mkWorld rest (sent ++ []),
                       Raise AttributeError))
            /\ (no_answer target_id msgs ->
                out = (c1,
                       Http.mkWorld rest
                         (sent ++ [Http.RespClose; Http.ConnClose]),
                       Ok None))))
    /\ (status <> 202 -> status <> 204 -> expect = true ->
        content_type ctype <> "application/json" ->
        content_type ctype <> "text/event-stream" ->
        out = (c1, Http.mkWorld rest (sent ++ closing),
               Raise (UnexpectedContentType (content_type ctype) status))).
Proof.
  intros json_loads payload expect c w status sid ctype body rest c1 Hsrv Hobs
    sent out msgs.
  subst out. rewrite (_send_and_read_response json_loads _ _ _ _ _ _ _ _ _ _ Hsrv Hobs).
  fold sent. split; [|split; [|split]].
  - intros H. rewrite read_response_no_reply_expected by exact H. reflexivity.
  - intros H1 H2 -> Hct.
    rewrite read_response_by_content_type by assumption.
    rewrite Hct. simpl. destruct (String.eqb body ""); reflexivity.
  - intros H1 H2 -> Hct.
    rewrite read_response_by_content_type by assumption.
    rewrite Hct. cbn [String.eqb Ascii.eqb Bool.eqb].
    change (String.eqb "text/event-stream" "application/json") with false.
    change (String.eqb "text/event-stream" "text/event-stream") with true.
    cbv iota. split.
    + intros e He. rewrite He. reflexivity.
    + intros target_id Hid. rewrite Hid.
      rewrite sse_loop_first_match, first_match_messages. fold msgs.
      split; [|split].
      * intros pre m post Hm Hpre Hans. rewrite Hm.
        rewrite scan_batch_for_no_answer by exact Hpre.
        destruct m as [| | | | |kv]; try discriminate.
        simpl in *. rewrite Hans. reflexivity.
      * intros pre bad post Hm Hpre Hbad. rewrite Hm.
        rewrite scan_batch_for_no_answer by exact Hpre.
        destruct bad as [| | | | |kv]; try discriminate; reflexivity.
      * intros Hnone.
        rewrite <- (app_nil_r msgs).
        rewrite scan_batch_for_no_answer by exact Hnone. reflexivity.
  - intros H1 H2 -> Hj He.
    rewrite read_response_by_content_type by assumption.
    apply String.eqb_neq in Hj, He. rewrite Hj, He. reflexivity.
Qed.

Lemma C6_http_response_witness :
  Http._send_and_read JsonRef.json_loads_ref
    (Http.request_message 1 "tools/list" (Some (JObj []))) true
    (Http.init "2025-06-18") http_streaming
  = (Http.mkClient "2025-06-18" "A" 1,
     Http.mkWorld []
       [Http.Post (Http._headers (Http.init "2025-06-18"))
          (Http.request_message 1 "tools/list" (Some (JObj [])));
        Http.RespClose; Http.ConnClose],
     Ok (Some reply_1)).
Proof.
  destruct (C6_http_response_by_status_and_content_type JsonRef.json_loads_ref
              (Http.request_message 1 "tools/list" (Some (JObj []))) true
              (Http.init "2025-06-18") http_streaming
              200 (Some "A") (Some "text/event-stream; charset=utf-8")
              ("event: message" ++ Py.nl ++ "data: " ++ reply_1_text ++ Py.nl ++ Py.nl)
              [] (Http.mkClient "2025-06-18" "A" 1) eq_refl eq_refl)
    as (_ & _ & H & _).
  assert (Hstatus202 : 200 <> 202) by discriminate.
  assert (Hstatus204 : 200 <> 204) by discriminate.
  destruct (H Hstatus202 Hstatus204 eq_refl eq_refl) as [_ Hstream].
  destruct (Hstream (JNum 1) eq_refl) as (Hfound & _).
  exact (Hfound [] reply_1 [] eq_refl (Forall_nil _) eq_refl).
Defined.

(** C10: when [_send_and_read] yields no message, [request] returns the
    empty object.  That is so after a 202 or 204, after an
    [application/json] response with an empty body, and after an event
    stream that ends without a message for the request; a reply whose body
    is the empty object gives the same result. *)
Theorem C10_http_request_returns_empty_object_without_reply :
  forall json_loads method params c w,
    (forall c' w',
        Http._send_and_read json_loads
          (Http.request_message (Http._next_id c) method params) true
          (Http.bump c) w = (c', w', Ok None) ->
        Http.request json_loads method params c w = (c', w', Ok (JObj [])))
    /\ (forall status sid ctype body rest c1,
        Http.server w = Http.Response status sid ctype body :: rest ->
        Http.observe_session sid (Http.bump c) = Ok c1 ->
        status = 202 \/ status = 204
        \/ (status <> 202 /\ status <> 204
            /\ content_type ctype = "application/json" /\ body = "")
        \/ (status <> 202 /\ status <> 204
            /\ content_type ctype = "text/event-stream"
            /\ Http.first_match json_loads (Some (Http._next_id c)) true
                 (Http.sse_events (Py.readlines body) "") = Ok None)
        \/ (status <> 202 /\ status <> 204
            /\ content_type ctype = "application/json"
            /\ body <> "" /\ json_loads body = Some (JObj [])) ->
        exists w', Http.request json_loads method params c w
                   = (c1, w', Ok (JObj []))).
Proof.
  intros json_loads method params c w. split.
  - intros c' w' H. unfold Http.request. rewrite H. reflexivity.
  - intros status sid ctype body rest c1 Hsrv Hobs Hcase.
    unfold Http.request.
    rewrite (_send_and_read_response json_loads _ _ _ _ _ _ _ _ _ _ Hsrv Hobs).
    destruct Hcase as [H | [H | [H | [H | H]]]].
    + rewrite read_response_no_reply_expected by auto. simpl. eauto.
    + rewrite read_response_no_reply_expected by auto. simpl. eauto.
    + destruct H as (H1 & H2 & Hct & ->).
      rewrite read_response_by_content_type by assumption.
      rewrite Hct. simpl. eauto.
    + destruct H as (H1 & H2 & Hct & Hnone).
      rewrite read_response_by_content_type by assumption.
      rewrite Hct, py_get_id_request. cbv iota beta.
      rewrite sse_loop_first_match.
      change (Http.first_match_for json_loads (JNum (Http._next_id c)))
        with (Http.first_match json_loads (Some (Http._next_id c))).
      rewrite Hnone. simpl. eauto.
    + destruct H as (H1 & H2 & Hct & Hne & Hbody).
      rewrite read_response_by_content_type by assumption.
      apply String.eqb_neq in Hne.
      rewrite Hct, Hne, Hbody. simpl. eauto.
Qed.

Lemma C10_http_request_witness :
  (exists w', Http.tools_list JsonRef.json_loads_ref (Http.init "2025-06-18")
                http_accepting
              = (Http.bump (Http.init "2025-06-18"), w', Ok (JObj [])))
  /\ (exists w', Http.tools_list JsonRef.json_loads_ref (Http.init "2025-06-18")
                   http_empty_object
                 = (Http.bump (Http.init "2025-06-18"), w', Ok (JObj []))).
Proof.
  split.
  - destruct (C10_http_request_returns_empty_object_without_reply
                JsonRef.json_loads_ref "tools/list" (Some (JObj []))
                (Http.init "2025-06-18") http_accepting) as [_ H].
    apply (H 202 None None "" [] _ eq_refl eq_refl). left. reflexivity.
  - destruct (C10_http_request_returns_empty_object_without_reply
                JsonRef.json_loads_ref "tools/list" (Some (JObj []))
                (Http.init "2025-06-18") http_empty_object) as [_ H].
    apply (H 200 None (Some "application/json") "{}" [] _ eq_refl eq_refl).
    do 4 right. repeat split; try discriminate; reflexivity.
Defined.

(** ** SSE lines *)

Lemma arrives_within_already : forall now t timeout,
  t <= now -> arrives_within now t timeout = true.
Proof.
  intros now t timeout H. unfold arrives_within.
  apply Z.leb_le in H. rewrite H. reflexivity.
Qed.

Section SseSteps.

Variable json_loads : string -> option Json.

(** One turn of the loop of the HTTP client, by the kind of line. *)
Lemma http_loop_data : forall target expect chunk rest buf line,
  chunk <> "" ->
  Py.rstrip_crlf chunk = line ->
  Py.startswith "data:" line = true ->
  Http.sse_loop json_loads target expect (chunk :: rest) buf
  = Http.sse_loop json_loads target expect rest (accumulate_data buf line).
Proof.
  intros target expect chunk rest buf line Hne <- Hdata.
  unfold Http.sse_loop. simpl.
  apply String.eqb_neq in Hne. rewrite Hne, Hdata. reflexivity.
Qed.

Lemma http_loop_other : forall target expect chunk rest buf line,
  chunk <> "" ->
  Py.rstrip_crlf chunk = line ->
  Py.startswith "data:" line = false ->
  line <> "" ->
  Http.sse_loop json_loads target expect (chunk :: rest) buf
  = Http.sse_loop json_loads target expect rest buf.
Proof.
  intros target expect chunk rest buf line Hne <- Hdata Hline.
  unfold Http.sse_loop. simpl.
  apply String.eqb_neq in Hne, Hline. rewrite Hne, Hdata, Hline. reflexivity.
Qed.

Lemma http_loop_end : forall target expect chunk rest buf,
  chunk <> "" ->
  Py.rstrip_crlf chunk = "" ->
  buf <> "" ->
  Http.sse_loop json_loads target expect (chunk :: rest) buf
  = match Http.match_event target expect (decode_event json_loads buf) with
    | Raise e => Raise e
    | Ok (Some m) => Ok (Some m)
    | Ok None => Http.sse_loop json_loads target expect rest ""
    end.
Proof.
  intros target expect chunk rest buf Hne Hline Hbuf.
  unfold Http.sse_loop, Http.match_event. simpl.
  apply String.eqb_neq in Hne, Hbuf. rewrite Hne, Hline, Hbuf. reflexivity.
Qed.

(** One turn of the reply loop of the SSE client. *)
Lemma sse_await_data : forall req_id start timeout eof t chunk rest now buf line,
  now - start < timeout ->
  chunk <> "" ->
  Py.rstrip_crlf chunk = line ->
  Py.startswith "data:" line = true ->
  Sse.await_loop json_loads req_id start timeout eof ((t, chunk) :: rest) now buf
  = Sse.await_loop json_loads req_id start timeout eof rest (Z.max now t)
      (accumulate_data buf line).
Proof.
  intros req_id start timeout eof t chunk rest now buf line Hlt Hne <- Hdata.
  cbn [Sse.await_loop]. apply Z.ltb_lt in Hlt. apply String.eqb_neq in Hne.
  rewrite Hlt, Hne, Hdata. reflexivity.
Qed.

Lemma sse_await_other : forall req_id start timeout eof t chunk rest now buf line,
  now - start < timeout ->
  chunk <> "" ->
  Py.rstrip_crlf chunk = line ->
  Py.startswith "data:" line = false ->
  line <> "" ->
  Sse.await_loop json_loads req_id start timeout eof ((t, chunk) :: rest) now buf
  = Sse.await_loop json_loads req_id start timeout eof rest (Z.max now t) buf.
Proof.
  intros req_id start timeout eof t chunk rest now buf line Hlt Hne <- Hdata Hl.
  cbn [Sse.await_loop]. apply Z.ltb_lt in Hlt. apply String.eqb_neq in Hne, Hl.
  rewrite Hlt, Hne, Hdata, Hl. reflexivity.
Qed.

Lemma sse_await_end : forall req_id start timeout eof t chunk rest now buf,
  now - start < timeout ->
  chunk <> "" ->
  Py.rstrip_crlf chunk = "" ->
  buf <> "" ->
  Sse.await_loop json_loads req_id start timeout eof ((t, chunk) :: rest) now buf
  = match Sse.match_event req_id (decode_event json_loads buf) with
    | Some m => (rest, Z.max now t, Ok m)
    | None =>
        Sse.await_loop json_loads req_id start timeout eof rest (Z.max now t) ""
    end.
Proof.
  intros req_id start timeout eof t chunk rest now buf Hlt Hne Hline Hbuf.
  cbn [Sse.await_loop]. apply Z.ltb_lt in Hlt. apply String.eqb_neq in Hne, Hbuf.
  rewrite Hlt, Hne, Hline, Hbuf. reflexivity.
Qed.

End SseSteps.

(** One turn of the endpoint loop of the SSE client. *)
Lemma sse_open_event : forall eof t chunk rest now ty buf line,
  chunk <> "" ->
  Py.rstrip_crlf chunk = line ->
  Py.startswith "event:" line = true ->
  Py.utf8_valid (Py.lstrip (Py.drop 6 line)) = true ->
  Sse.open_loop eof ((t, chunk) :: rest) now ty buf
  = Sse.open_loop eof rest (Z.max now t) (Some (Py.lstrip (Py.drop 6 line))) buf.
Proof.
  intros eof t chunk rest now ty buf line Hne <- Hev Hutf.
  cbn [Sse.open_loop]. apply String.eqb_neq in Hne.
  unfold Py.decode_utf8. rewrite Hne, Hev, Hutf. reflexivity.
Qed.

Lemma sse_open_data : forall eof t chunk rest now ty buf line,
  chunk <> "" ->
  Py.rstrip_crlf chunk = line ->
  Py.startswith "event:" line = false ->
  Py.startswith "data:" line = true ->
  Sse.open_loop eof ((t, chunk) :: rest) now ty buf
  = Sse.open_loop eof rest (Z.max now t) ty (accumulate_data buf line).
Proof.
  intros eof t chunk rest now ty buf line Hne <- Hev Hdata.
  cbn [Sse.open_loop]. apply String.eqb_neq in Hne.
  rewrite Hne, Hev, Hdata. reflexivity.
Qed.

Lemma sse_open_end_other : forall eof t chunk rest now ty buf,
  chunk <> "" ->
  Py.rstrip_crlf chunk = "" ->
  ty <> Some "endpoint" ->
  Sse.open_loop eof ((t, chunk) :: rest) now ty buf
  = Sse.open_loop eof rest (Z.max now t) None "".
Proof.
  intros eof t chunk rest now ty buf Hne Hline Hty.
  cbn [Sse.open_loop]. apply String.eqb_neq in Hne.
  rewrite Hne, Hline. simpl.
  destruct ty as [ty|]; [|reflexivity].
  destruct (String.eqb_spec ty "endpoint") as [->|_]; [congruence|reflexivity].
Qed.

Lemma sse_open_end_endpoint : forall eof t chunk rest now buf,
  chunk <> "" ->
  Py.rstrip_crlf chunk = "" ->
  Sse.open_loop eof ((t, chunk) :: rest) now (Some "endpoint") buf
  = (rest, Z.max now t,
     if Py.utf8_valid buf then Ok (Py.ustrip buf) else Raise UnicodeDecodeError).
Proof.
  intros eof t chunk rest now buf Hne Hline.
  cbn [Sse.open_loop]. apply String.eqb_neq in Hne.
  unfold Py.decode_utf8. rewrite Hne, Hline. simpl.
  destruct (Py.utf8_valid buf); reflexivity.
Qed.

(** C5, as the code has it.  The reply loops (of the HTTP client and of the
    SSE client) skip the [event:] line and keep no event type: fed the three
    lines, they decode the data buffer once, to [{"a":1}], and go on with an
    empty buffer; the decoded object is returned only if its id equals the
    awaited one, so a wait for a request id goes on to the rest of the
    stream.  The endpoint loop of the SSE client keeps the type [message]
    and the data, and at the empty line drops both without decoding or
    returning the event. *)
Theorem C5_sse_frame_is_decoded_once_and_buffers_reset :
  forall json_loads,
    json_loads (payload_a1_text ++ Py.nl) = Some payload_a1 ->
    (forall target rest,
        Http.sse_events (Py.readlines frame_a1 ++ rest) ""
        = (payload_a1_text ++ Py.nl) :: Http.sse_events rest ""
        /\ Http.sse_loop json_loads target true (Py.readlines frame_a1 ++ rest) ""
           = match target with
             | None => Ok (Some payload_a1)
             | Some _ => Http.sse_loop json_loads target true rest ""
             end)
    /\ (forall req_id start timeout eof rest now t,
        t <= now ->
        now - start < timeout ->
        Sse.await_loop json_loads req_id start timeout eof
          (stamp t (Py.readlines frame_a1) ++ rest) now ""
        = Sse.await_loop json_loads req_id start timeout eof rest now "")
    /\ (forall eof rest now t,
        t <= now ->
        Sse.open_loop eof
          ((t, "event: message" ++ Py.nl)
             :: (t, "data: " ++ payload_a1_text ++ Py.nl) :: rest)
          now None ""
        = Sse.open_loop eof rest now (Some "message") (payload_a1_text ++ Py.nl)
        /\ Sse.open_loop eof ((t, Py.nl) :: rest) now (Some "message")
             (payload_a1_text ++ Py.nl)
           = Sse.open_loop eof rest now None "").
Proof.
  intros json_loads Hdec. split; [|split].
  - intros target rest.
    change (Py.readlines frame_a1)
      with ["event: message" ++ Py.nl; "data: " ++ payload_a1_text ++ Py.nl; Py.nl].
    split; [reflexivity|]. cbn [app].
    rewrite (http_loop_other json_loads _ _ _ _ _ "event: message");
      [|discriminate|reflexivity|reflexivity|discriminate].
    rewrite (http_loop_data json_loads _ _ _ _ _ ("data: " ++ payload_a1_text));
      [|discriminate|reflexivity|reflexivity].
    change (accumulate_data "" ("data: " ++ payload_a1_text))
      with (payload_a1_text ++ Py.nl).
    rewrite http_loop_end; [|discriminate|reflexivity|discriminate].
    assert (Hev : decode_event json_loads (payload_a1_text ++ Py.nl)
                  = Some payload_a1) by (unfold decode_event; exact Hdec).
    rewrite Hev. destruct target; reflexivity.
  - intros req_id start timeout eof rest now t Ht Hlt.
    pose proof (arrives_within_already now t Sse.sock_timeout Ht) as Harr.
    assert (Hmax : Z.max now t = now) by lia.
    change (stamp t (Py.readlines frame_a1))
      with [(t, "event: message" ++ Py.nl);
            (t, "data: " ++ payload_a1_text ++ Py.nl); (t, Py.nl)].
    cbn [app].
    rewrite (sse_await_other json_loads _ _ _ _ _ _ _ _ _ "event: message");
      [|assumption|discriminate|reflexivity|reflexivity|discriminate].
    rewrite Hmax.
    rewrite (sse_await_data json_loads _ _ _ _ _ _ _ _ _ ("data: " ++ payload_a1_text));
      [|assumption|discriminate|reflexivity|reflexivity].
    rewrite Hmax.
    change (accumulate_data "" ("data: " ++ payload_a1_text))
      with (payload_a1_text ++ Py.nl).
    rewrite sse_await_end;
      [|assumption|discriminate|reflexivity|discriminate].
    assert (Hev : decode_event json_loads (payload_a1_text ++ Py.nl)
                  = Some payload_a1) by (unfold decode_event; exact Hdec).
    rewrite Hev, Hmax. reflexivity.
  - intros eof rest now t Ht.
    pose proof (arrives_within_already now t Sse.sock_timeout Ht) as Harr.
    assert (Hmax : Z.max now t = now) by lia.
    split.
    + rewrite (sse_open_event _ _ _ _ _ _ _ "event: message");
        [|discriminate|reflexivity|reflexivity|reflexivity].
      rewrite Hmax.
      rewrite (sse_open_data _ _ _ _ _ _ _ ("data: " ++ payload_a1_text));
        [|discriminate|reflexivity|reflexivity|reflexivity].
      rewrite Hmax. reflexivity.
    + rewrite sse_open_end_other;
        [|discriminate|reflexivity|discriminate].
      rewrite Hmax. reflexivity.
Qed.

Lemma C5_sse_frame_witness :
  JsonRef.json_loads_ref (payload_a1_text ++ Py.nl) = Some payload_a1
  /\ Http.sse_loop JsonRef.json_loads_ref None true (Py.readlines frame_a1 ++ []) ""
     = Ok (Some payload_a1).
Proof.
  split; [reflexivity|].
  destruct (C5_sse_frame_is_decoded_once_and_buffers_reset
              JsonRef.json_loads_ref eq_refl) as (H & _).
  exact (proj2 (H None [])).
Defined.

(** C5 as stated fails: no loop of the clients yields an event for the three
    lines.  Waiting for request 1, the loop of the HTTP client reaches the
    end of the stream and returns nothing; the reply loop of the SSE client
    raises its timeout error; the endpoint loop raises "stream ended before
    endpoint event". *)
Lemma C5_no_loop_yields_the_event :
  Http.sse_loop JsonRef.json_loads_ref (Some 1) true (Py.readlines frame_a1) ""
  = Ok None
  /\ Sse.await_loop JsonRef.json_loads_ref 1 0 (seconds 30) (Some 0)
       (stamp 0 (Py.readlines frame_a1)) 0 ""
     = ([], 0, Raise Sse.timed_out)
  /\ Sse.open_loop (Some 0) (stamp 0 (Py.readlines frame_a1)) 0 None ""
     = ([], 0, Raise (RuntimeError "SSE stream ended before endpoint event")).
Proof. repeat split; vm_compute; reflexivity. Qed.

(** ** Data lines *)

Lemma lstrip_splits : forall s,
  exists ws,
    s = ws ++ Py.lstrip s
    /\ all_space ws = true
    /\ starts_with_space (Py.lstrip s) = false.
Proof.
  unfold Py.lstrip. induction s as [|c s IH].
  - exists "". repeat split.
  - simpl. destruct (Py.bytes_isspace c) eqn:Hc.
    + destruct IH as (ws & Hs & Hws & Hrest).
      exists (String c ws). simpl. rewrite Hc, Hws. repeat split; auto.
      f_equal. exact Hs.
    + exists "". simpl. rewrite Hc. repeat split.
Qed.

Lemma prefix_drop : forall p s,
  String.prefix p s = true -> s = p ++ Py.drop (String.length p) s.
Proof.
  induction p as [|a p IH]; intros s.
  - intros _. destruct s; reflexivity.
  - destruct s as [|b s]; simpl; [discriminate|].
    destruct (ascii_dec a b) as [Hab|Hab]; [|discriminate].
    intros H. subst b. f_equal. apply IH, H.
Qed.

Lemma startswith_data : forall line,
  Py.startswith "data:" line = true -> line = "data:" ++ Py.drop 5 line.
Proof. intros line H. apply (prefix_drop "data:" line H). Qed.

Lemma data_line_is_no_event_line : forall line,
  Py.startswith "data:" line = true -> Py.startswith "event:" line = false.
Proof.
  intros line H. apply startswith_data in H. rewrite H. reflexivity.
Qed.

(** C9, as the code has it: a line that starts with [data:] is
    [data:], then whitespace, then a payload that does not start with
    whitespace, and every loop appends that payload and a newline to its
    buffer.  All the whitespace after the prefix is dropped, not only one
    space, and each data line ends with a newline in the buffer. *)
Theorem C9_data_lines_lose_all_leading_whitespace : forall line,
  Py.startswith "data:" line = true ->
  (exists ws payload,
      line = "data:" ++ ws ++ payload
      /\ all_space ws = true
      /\ starts_with_space payload = false
      /\ forall buf, accumulate_data buf line = buf ++ payload ++ Py.nl)
  /\ (forall json_loads target expect chunk rest buf,
      chunk <> "" -> Py.rstrip_crlf chunk = line ->
      Http.sse_loop json_loads target expect (chunk :: rest) buf
      = Http.sse_loop json_loads target expect rest (accumulate_data buf line))
  /\ (forall json_loads req_id start timeout eof t chunk rest now buf,
      now - start < timeout ->
      arrives_within now t Sse.sock_timeout = true ->
      chunk <> "" -> Py.rstrip_crlf chunk = line ->
      Sse.await_loop json_loads req_id start timeout eof ((t, chunk) :: rest) now buf
      = Sse.await_loop json_loads req_id start timeout eof rest (Z.max now t)
          (accumulate_data buf line))
  /\ (forall eof t chunk rest now ty buf,
      arrives_within now t Sse.sock_timeout = true ->
      chunk <> "" -> Py.rstrip_crlf chunk = line ->
      Sse.open_loop eof ((t, chunk) :: rest) now ty buf
      = Sse.open_loop eof rest (Z.max now t) ty (accumulate_data buf line)).
Proof.
  intros line Hdata. split; [|split; [|split]].
  - destruct (lstrip_splits (Py.drop 5 line)) as (ws & Hsplit & Hws & Hp).
    exists ws, (Py.lstrip (Py.drop 5 line)). repeat split; auto.
    rewrite <- Hsplit. apply startswith_data, Hdata.
  - intros. apply http_loop_data; assumption.
  - intros. apply sse_await_data; assumption.
  - intros. apply sse_open_data; auto using data_line_is_no_event_line.
Qed.

Lemma C9_data_lines_witness :
  Py.startswith "data:" "data: {}" = true
  /\ exists ws payload,
       "data: {}" = "data:" ++ ws ++ payload
       /\ all_space ws = true
       /\ starts_with_space payload = false
       /\ forall buf, accumulate_data buf "data: {}" = buf ++ payload ++ Py.nl.
Proof.
  split; [reflexivity|].
  exact (proj1 (C9_data_lines_lose_all_leading_whitespace "data: {}" eq_refl)).
Defined.

(** C9 as stated fails: of [data:   x] (three spaces) the loops keep [x],
    where stripping the prefix and one space would keep two spaces and
    [x]. *)
Lemma C9_more_than_one_space_is_stripped :
  Py.startswith "data:" "data:   x" = true
  /\ accumulate_data "" "data:   x" = "x" ++ Py.nl
  /\ spec_data_value "data:   x" = "  x"
  /\ Http.sse_events ["data:   x" ++ Py.nl; Py.nl] "" = ["x" ++ Py.nl].
Proof. repeat split. Qed.

(** ** The endpoint of the SSE client *)


Section SseEndpoint.

Variable json_loads : string -> option Json.

Import Sse.












End SseEndpoint.



(** * Further properties *)

(** ** Reading a tool result *)

Lemma first_text_spec : forall items t,
  Content.first_text items = Some t <->
  exists before item after,
    items = (before ++ item :: after)%list
    /\ Forall (fun x => Content.is_text_item x = false) before
    /\ Content.is_text_item item = true
    /\ t = Content.text_of item.
Proof.
  induction items as [|x items IH]; intros t; simpl.
  - split; [discriminate|].
    intros (before & item & after & H & _). destruct before; discriminate.
  - destruct (Content.is_text_item x) eqn:Hx.
    + split.
      * intros H; inversion H; subst. exists [], x, items. auto.
      * intros (before & item & after & Heq & Hall & Hitem & ->).
        destruct before as [|b before]; simpl in Heq; inversion Heq; subst.
        { reflexivity. }
        inversion Hall; subst. congruence.
    + rewrite IH. split.
      * intros (before & item & after & -> & Hall & Hitem & ->).
        exists (x :: before), item, after. auto.
      * intros (before & item & after & Heq & Hall & Hitem & ->).
        destruct before as [|b before]; simpl in Heq; inversion Heq; subst.
        { congruence. }
        inversion Hall; subst. exists before, item, after. auto.
Qed.

(** X1: [parse_text_content] returns the text of the first item of
    [result.content] that is a dict of type [text] - its [text] member, or
    the empty string when it has none - whatever stands before it. *)
Theorem X1_parse_text_content_returns_first_text_item : forall M result_obj t,
  Content.parse_text_content M result_obj = Return t <->
  exists res before item after,
    Content.get_or "result" (JObj []) result_obj = Return res
    /\ Content.get_or "content" JNull res = Return (JArr (before ++ item :: after))
    /\ Forall (fun x => Content.is_text_item x = false) before
    /\ Content.is_text_item item = true
    /\ t = Content.text_of item.
Proof.
  intros M r t. unfold Content.parse_text_content. split.
  - destruct (Content.get_or "result" (JObj []) r) as [res|e] eqn:Hres;
      [|discriminate].
    destruct (Content.get_or "content" JNull res) as [[| | | |items|]|e] eqn:Hc;
      try discriminate.
    destruct (Content.first_text items) as [t0|] eqn:Hft; [|discriminate].
    intros H; inversion H; subst.
    apply first_text_spec in Hft.
    destruct Hft as (before & item & after & -> & Hall & Hitem & ->).
    exists res, before, item, after. repeat split; auto.
  - intros (res & before & item & after & -> & -> & Hall & Hitem & ->).
    assert (H : Content.first_text (before ++ item :: after)
                = Some (Content.text_of item)).
    { apply first_text_spec. exists before, item, after. auto. }
    rewrite H. reflexivity.
Qed.

(** X2: what [parse_text_content] raises.  A reply that is no dict, or whose
    [result] is no dict, gives [AttributeError]; a reply without [result]
    (an error reply, say), or whose [result.content] is absent or no list,
    gives the "missing" [AssertionError]; a content list without a text item
    - the empty list included - gives the "no text" one. *)
Theorem X2_parse_text_content_failures : forall M,
  (forall result_obj,
      (forall kv, result_obj <> JObj kv) ->
      Content.parse_text_content M result_obj = Throw (Builtin AttributeError))
  /\ (forall kv res,
      assoc_get "result" kv = Some res ->
      (forall rkv, res <> JObj rkv) ->
      Content.parse_text_content M (JObj kv) = Throw (Builtin AttributeError))
  /\ (forall kv,
      assoc_get "result" kv = None ->
      Content.parse_text_content M (JObj kv)
      = Throw (AssertionError (Content.msg_missing M)))
  /\ (forall kv rkv,
      assoc_get "result" kv = Some (JObj rkv) ->
      (forall items, assoc_get "content" rkv <> Some (JArr items)) ->
      Content.parse_text_content M (JObj kv)
      = Throw (AssertionError (Content.msg_missing M)))
  /\ (forall kv rkv items,
      assoc_get "result" kv = Some (JObj rkv) ->
      assoc_get "content" rkv = Some (JArr items) ->
      Forall (fun x => Content.is_text_item x = false) items ->
      Content.parse_text_content M (JObj kv)
      = Throw (AssertionError (Content.msg_no_text M))).
Proof.
  intros M. unfold Content.parse_text_content. repeat split.
  - intros r Hr. destruct r; try reflexivity. exfalso. eapply Hr; reflexivity.
  - intros kv res Hres Hnd. simpl. rewrite Hres.
    destruct res; try reflexivity. exfalso. eapply Hnd; reflexivity.
  - intros kv Hres. simpl. rewrite Hres. reflexivity.
  - intros kv rkv Hres Hc. simpl. rewrite Hres. simpl.
    destruct (assoc_get "content" rkv) as [[| | | |items|]|] eqn:Hcontent;
      try reflexivity.
    exfalso. eapply Hc; reflexivity.
  - intros kv rkv items Hres Hc Hall. simpl. rewrite Hres. simpl. rewrite Hc.
    destruct (Content.first_text items) as [t|] eqn:Hft; [|reflexivity].
    apply first_text_spec in Hft.
    destruct Hft as (before & item & after & -> & _ & Hitem & _).
    apply Forall_app in Hall. destruct Hall as [_ Hall].
    inversion Hall; subst. congruence.
Qed.

Lemma X2_parse_text_content_failures_witness :
  Content.parse_text_content Content.http_messages
    (JObj [("jsonrpc", JStr "2.0"); ("id", JNum 1);
           ("error", JObj [("code", JNum (-32602))])])
  = Throw (AssertionError "result.content missing or not list").
Proof.
  destruct (X2_parse_text_content_failures Content.http_messages)
    as (_ & _ & H & _).
  exact (H [("jsonrpc", JStr "2.0"); ("id", JNum 1);
            ("error", JObj [("code", JNum (-32602))])] eq_refl).
Defined.

Section ContentCallers.

Variable json_loads : string -> option Json.

(** The parsers of the clients differ in their messages only. *)
Lemma parse_text_content_any_messages : forall M N r,
  match Content.parse_text_content M r, Content.parse_text_content N r with
  | Return a, Return b => a = b
  | Throw _, Throw _ => True
  | _, _ => False
  end.
Proof.
  intros M N r. unfold Content.parse_text_content.
  destruct (Content.get_or "result" (JObj []) r) as [res|e]; auto.
  destruct (Content.get_or "content" JNull res) as [[| | | |items|]|e]; auto.
  destruct (Content.first_text items); auto.
Qed.

Lemma parse_text_json_any_messages : forall M N r,
  match Content.parse_text_json json_loads M r,
        Content.parse_text_json json_loads N r with
  | Return a, Return b => a = b
  | Throw _, Throw _ => True
  | _, _ => False
  end.
Proof.
  intros M N r. unfold Content.parse_text_json.
  pose proof (parse_text_content_any_messages M N r) as H.
  destruct (Content.parse_text_content M r) as [a|e];
    destruct (Content.parse_text_content N r) as [b|e'];
    try contradiction; auto.
  subst b. destruct (truthy a); auto.
  destruct a; auto. destruct (json_loads s); auto.
Qed.

End ContentCallers.

(** X3: the test helpers try the HTTP client's [parse_text_json] and then
    the stdio client's.  The second attempt never succeeds where the first
    failed: [_parse_text_json] returns exactly what the first parser
    returns, and [_create_entities] yields the parsed value, or the empty
    list when the reply is falsy or cannot be parsed. *)
Theorem X3_parser_fallback_never_helps : forall json_loads r,
  (forall v,
      Content._parse_text_json json_loads r = Return v <->
      Content.parse_text_json json_loads Content.http_messages r = Return v)
  /\ Content.created_entities json_loads r
     = if truthy r then
         match Content.parse_text_json json_loads Content.http_messages r with
         | Return v => v
         | Throw _ => JArr []
         end
       else JArr [].
Proof.
  intros json_loads r.
  pose proof (parse_text_json_any_messages json_loads
                Content.http_messages Content.stdio_messages r) as H.
  unfold Content._parse_text_json, Content.created_entities. split.
  - intros v.
    destruct (Content.parse_text_json json_loads Content.http_messages r) as [a|e].
    + reflexivity.
    + destruct (Content.parse_text_json json_loads Content.stdio_messages r);
        [contradiction|]. split; discriminate.
  - destruct (truthy r); simpl; [|reflexivity].
    destruct (Content.parse_text_json json_loads Content.http_messages r) as [a|e];
      [reflexivity|].
    destruct (Content.parse_text_json json_loads Content.stdio_messages r);
      [contradiction|reflexivity].
Qed.

(** ** The stdio client: what a wait returns and what it queues *)

Section StdioReplies.

Variable json_loads : string -> option Json.

Import Stdio.

Lemma scan_msgs_appends : forall req_id msgs notes notes' r,
  scan_msgs req_id msgs notes = (notes', r) ->
  exists added, notes' = (notes ++ added)%list /\ Forall has_no_id added.
Proof.
  induction msgs as [|m rest IH]; intros notes notes' r; simpl.
  - intros H; inversion H; subst. exists []. rewrite app_nil_r. auto.
  - destruct (py_contains "id" m) as [[]|e] eqn:Hid.
    + destruct (py_get "id" m) as [v|e].
      * destruct (py_eq_int v req_id).
        { intros H; inversion H; subst. exists []. rewrite app_nil_r. auto. }
        { apply IH. }
      * intros H; inversion H; subst. exists []. rewrite app_nil_r. auto.
    + intros H. apply IH in H. destruct H as (added & -> & Hall).
      exists (m :: added). rewrite <- app_assoc. split; [reflexivity|].
      constructor; assumption.
    + intros H; inversion H; subst. exists []. rewrite app_nil_r. auto.
Qed.

Lemma scan_msgs_found : forall req_id msgs notes notes' msg,
  scan_msgs req_id msgs notes = (notes', Ok (Some msg)) ->
  In msg msgs
  /\ py_contains "id" msg = Ok true
  /\ exists v, py_get "id" msg = Ok v /\ py_eq_int v req_id = true.
Proof.
  induction msgs as [|m rest IH]; intros notes notes' msg; simpl.
  - discriminate.
  - destruct (py_contains "id" m) as [[]|e] eqn:Hid.
    + destruct (py_get "id" m) as [v|e] eqn:Hget.
      * destruct (py_eq_int v req_id) eqn:Heq.
        { intros H; inversion H; subst. repeat split; eauto. }
        { intros H. apply IH in H. destruct H as (Hin & H). auto. }
      * discriminate.
    + intros H. apply IH in H. destruct H as (Hin & H). auto.
    + discriminate.
Qed.

Lemma await_loop_appends : forall fuel req_id deadline c w c' w' r,
  await_loop json_loads fuel req_id deadline c w = Some (c', w', r) ->
  exists added,
    _notifications c' = (_notifications c ++ added)%list /\ Forall has_no_id added.
Proof.
  induction fuel as [|fuel IH]; intros req_id deadline c w c' w' r; simpl.
  { discriminate. }
  assert (Hnil : exists added,
            _notifications c = (_notifications c ++ added)%list
            /\ Forall has_no_id added).
  { exists []. rewrite app_nil_r. auto. }
  destruct (now w <? deadline).
  2:{ intros H; inversion H; subst. exact Hnil. }
  destruct (_read_msgs_once json_loads _ w) as [[w1 r1]|]; [|discriminate].
  destruct r1 as [msgs|e].
  2:{ intros H; inversion H; subst. exact Hnil. }
  destruct (scan_msgs req_id msgs (_notifications c)) as [notes found] eqn:Hscan.
  apply scan_msgs_appends in Hscan. destruct Hscan as (added & -> & Hall).
  destruct found as [[msg|]|e].
  - intros H; inversion H; subst. simpl. eauto.
  - intros H. apply IH in H. simpl in H.
    destruct H as (added' & -> & Hall').
    exists (added ++ added')%list. rewrite app_assoc. split; [reflexivity|].
    apply Forall_app. auto.
  - intros H; inversion H; subst. simpl. eauto.
Qed.

Lemma await_loop_found : forall fuel req_id deadline c w c' w' msg,
  await_loop json_loads fuel req_id deadline c w = Some (c', w', Ok msg) ->
  py_contains "id" msg = Ok true
  /\ exists v, py_get "id" msg = Ok v /\ py_eq_int v req_id = true.
Proof.
  induction fuel as [|fuel IH]; intros req_id deadline c w c' w' msg; simpl.
  { discriminate. }
  destruct (now w <? deadline); [|discriminate].
  destruct (_read_msgs_once json_loads _ w) as [[w1 r1]|]; [|discriminate].
  destruct r1 as [msgs|e]; [|discriminate].
  destruct (scan_msgs req_id msgs (_notifications c)) as [notes found] eqn:Hscan.
  destruct found as [[m|]|e].
  - intros H; inversion H; subst.
    apply scan_msgs_found in Hscan. tauto.
  - apply IH.
  - discriminate.
Qed.

Lemma step_appends : forall op c w c' w',
  step json_loads op c w = Some (c', w') ->
  exists added,
    _notifications c' = (_notifications c ++ added)%list /\ Forall has_no_id added.
Proof.
  assert (Hreq : forall m p t c w c' w' r,
    request json_loads m p t c w = Some (c', w', r) ->
    exists added,
      _notifications c' = (_notifications c ++ added)%list
      /\ Forall has_no_id added).
  { intros m p t c w c' w' r. unfold request.
    destruct (_write_msg _ w) as [w1 [u|e]].
    - unfold _await_response. intros H. apply await_loop_appends in H. exact H.
    - intros H; inversion H; subst. simpl. exists []. rewrite app_nil_r. auto. }
  intros op c w c' w'. destruct op as [n v pv| |m p t| |n a t]; simpl.
  - unfold initialize. destruct (_write_msg _ w) as [w1 [u|e]].
    + destruct (_await_response json_loads _ _ _ w1) as [[[c1 w2] r1]|] eqn:Haw;
        [|discriminate].
      unfold _await_response in Haw. apply await_loop_appends in Haw.
      simpl in Haw.
      destruct r1 as [resp|e]; [destruct (py_contains "error" resp) as [[]|]|];
        simpl; intros H; inversion H; subst; exact Haw.
    + simpl. intros H; inversion H; subst. simpl.
      exists []. rewrite app_nil_r. auto.
  - unfold send_initialized. destruct (_write_msg _ w) as [w1 r1]. simpl.
    intros H; inversion H; subst. exists []. rewrite app_nil_r. auto.
  - destruct (request json_loads m p t c w) as [[[c1 w1] r1]|] eqn:Hr;
      [|discriminate].
    simpl. intros H; inversion H; subst. eapply Hreq; eauto.
  - unfold tools_list.
    destruct (request json_loads _ _ _ c w) as [[[c1 w1] r1]|] eqn:Hr;
      [|discriminate].
    simpl. intros H; inversion H; subst. eapply Hreq; eauto.
  - unfold tools_call.
    destruct (request json_loads _ _ _ c w) as [[[c1 w1] r1]|] eqn:Hr;
      [|discriminate].
    simpl. intros H; inversion H; subst. eapply Hreq; eauto.
Qed.

End StdioReplies.

(** X5: the notification queue of the stdio client only grows: through any
    sequence of calls what was queued stays where it was, and everything
    added is a message without an [id] member. *)
Theorem X5_stdio_notifications_only_grow : forall json_loads ops c w c' w',
  Stdio.run json_loads ops c w = Some (c', w') ->
  exists added,
    Stdio._notifications c' = (Stdio._notifications c ++ added)%list
    /\ Forall has_no_id added.
Proof.
  intros json_loads. induction ops as [|op ops IH]; intros c w c' w'; simpl.
  - intros H; inversion H; subst. exists []. rewrite app_nil_r. auto.
  - destruct (Stdio.step json_loads op c w) as [[c1 w1]|] eqn:Hstep;
      [|discriminate].
    apply step_appends in Hstep. destruct Hstep as (a1 & H1 & Hall1).
    intros H. apply IH in H. destruct H as (a2 & H2 & Hall2).
    exists (a1 ++ a2)%list. rewrite H2, H1, app_assoc. split; [reflexivity|].
    apply Forall_app. auto.
Qed.

Lemma X5_stdio_notifications_witness :
  exists added,
    Stdio._notifications
      (Stdio.mkClient 2 [note_x])
    = (Stdio._notifications Stdio.init ++ added)%list
    /\ Forall has_no_id added.
Proof.
  apply (X5_stdio_notifications_only_grow JsonRef.json_loads_ref
           [Stdio.ToolsList] Stdio.init (stdio_one_line batch_note_then_reply)
           (Stdio.mkClient 2 [note_x])
           (Stdio.mkWorld 5 [] None true
              [Stdio.request_message 1 "tools/list" (Some (JObj []))])).
  vm_compute. reflexivity.
Defined.

(** X6: a reply that [request] of the stdio client returns is a dict whose
    [id] equals the identifier the request was sent under; so is the reply
    that [initialize] returns, which moreover has no [error] member. *)
Theorem X6_stdio_request_returns_the_reply_to_its_id :
  forall json_loads c w c' w' msg,
    (forall method params timeout,
        Stdio.request json_loads method params timeout c w = Some (c', w', Ok msg) ->
        exists v, py_get "id" msg = Ok v /\ py_eq_int v (Stdio._next_id c) = true)
    /\ (forall name version pv,
        Stdio.initialize json_loads name version pv c w = Some (c', w', Ok msg) ->
        py_contains "error" msg = Ok false
        /\ exists v, py_get "id" msg = Ok v /\ py_eq_int v (Stdio._next_id c) = true).
Proof.
  intros json_loads c w c' w' msg. split.
  - intros method params timeout. unfold Stdio.request.
    destruct (Stdio._write_msg _ w) as [w1 [u|e]]; [|discriminate].
    unfold Stdio._await_response. intros H.
    apply await_loop_found in H. tauto.
  - intros name version pv. unfold Stdio.initialize.
    destruct (Stdio._write_msg _ w) as [w1 [u|e]]; [|discriminate].
    destruct (Stdio._await_response json_loads _ _ _ w1) as [[[c1 w2] r1]|] eqn:Haw;
      [|discriminate].
    destruct r1 as [resp|e]; [|discriminate].
    destruct (py_contains "error" resp) as [[]|] eqn:Herr; try discriminate.
    intros H; inversion H; subst.
    unfold Stdio._await_response in Haw. apply await_loop_found in Haw.
    split; [exact Herr|tauto].
Qed.

Lemma X6_stdio_request_witness :
  exists v, py_get "id" reply_1 = Ok v /\ py_eq_int v (Stdio._next_id Stdio.init) = true.
Proof.
  destruct (X6_stdio_request_returns_the_reply_to_its_id JsonRef.json_loads_ref
              Stdio.init stdio_answering
              (Stdio.mkClient 2 [])
              (Stdio.mkWorld 5 [] None true
                 [Stdio.request_message 1 "tools/list" (Some (JObj []))])
              reply_1) as [H _].
  apply (H "tools/list" (Some (JObj [])) (seconds 30)).
  vm_compute. reflexivity.
Defined.

(** ** Ending the server process *)

Section ProcessEnd.

Import Process.

Lemma poll_loop_total : forall fuel start timeout w,
  timeout - (now w - start) <= 50 * Z.of_nat fuel ->
  exists w', poll_loop fuel start timeout w = Some w'.
Proof.
  induction fuel as [|fuel IH]; intros start timeout w Hfuel.
  - simpl. destruct (Z.ltb_spec (now w - start) timeout); [lia|].
    simpl. eauto.
  - cbn [poll_loop].
    destruct ((now w - start <? timeout) && alive w)%bool; [|eauto].
    apply IH. unfold sleep_50ms. cbn [now]. lia.
Qed.

Lemma poll_loop_spec : forall fuel start timeout w w',
  poll_loop fuel start timeout w = Some w' ->
  death w' = death w /\ on_eof w' = on_eof w /\ on_term w' = on_term w
  /\ signals w' = signals w
  /\ now w <= now w'
  /\ (timeout <= now w' - start \/ alive w' = false)
  /\ (now w' = now w \/ now w' - start < timeout + 50).
Proof.
  induction fuel as [|fuel IH]; intros start timeout w w'.
  - simpl. destruct ((now w - start <? timeout) && alive w)%bool eqn:Hc;
      [discriminate|].
    intros H; inversion H; subst. repeat split; auto; try lia.
    apply andb_false_iff in Hc. destruct Hc as [Hc|Hc]; auto.
    apply Z.ltb_ge in Hc. auto.
  - simpl. destruct ((now w - start <? timeout) && alive w)%bool eqn:Hc.
    + intros H. apply IH in H. simpl in H.
      destruct H as (Hd & He & Ht & Hs & Hn & Hexit & Hb).
      apply andb_true_iff in Hc. destruct Hc as [Hlt _]. apply Z.ltb_lt in Hlt.
      repeat split; auto; try lia.
    + intros H; inversion H; subst. repeat split; auto; try lia.
      apply andb_false_iff in Hc. destruct Hc as [Hc|Hc]; auto.
      apply Z.ltb_ge in Hc. auto.
Qed.

Lemma alive_false_iff : forall w,
  alive w = false <-> exists d, death w = Some d /\ d <= now w.
Proof.
  intros w. unfold alive. destruct (death w) as [d|].
  - rewrite Z.ltb_ge. split; [eauto|]. intros (d0 & H & Hle).
    inversion H; subst. exact Hle.
  - split; [discriminate|]. intros (d & H & _). discriminate.
Qed.

Lemma wait_spec : forall timeout w ended w',
  wait timeout w = (ended, w') ->
  death w' = death w /\ on_eof w' = on_eof w /\ on_term w' = on_term w
  /\ signals w' = signals w
  /\ now w <= now w' <= now w + Z.max 0 timeout
  /\ (ended = true -> alive w' = false)
  /\ (ended = false ->
      forall d, death w = Some d -> now w + Z.max 0 timeout < d).
Proof.
  intros timeout w ended w'. unfold wait.
  destruct (death w) as [d|] eqn:Hdeath.
  - destruct (Z.leb_spec d (now w + Z.max 0 timeout)).
    + intros Hw; inversion Hw; subst. cbn [now death on_eof on_term signals].
      repeat split; auto; try lia; try discriminate.
      intros _. apply alive_false_iff. cbn [now death].
      exists d. split; [reflexivity|lia].
    + intros Hw; inversion Hw; subst. cbn [now death on_eof on_term signals].
      repeat split; auto; try lia; try discriminate.
      intros _ d0 Hd0. inversion Hd0; subst. lia.
  - intros Hw; inversion Hw; subst. cbn [now death on_eof on_term signals].
    repeat split; auto; try lia; discriminate.
Qed.

(** [terminate()], [wait(timeout)], [kill()] leave the process ended. *)
Lemma terminate_wait_kill_spec : forall timeout w,
  let w' := terminate_wait_kill timeout w in
  alive w' = false
  /\ same_process w w'
  /\ now w <= now w' <= now w + Z.max 0 timeout
  /\ (signals w' = (signals w ++ [Terminate])%list
      \/ signals w' = (signals w ++ [Terminate; Kill])%list)
  /\ (forall d, on_term w = Some d -> d <= timeout ->
      signals w' = (signals w ++ [Terminate])%list).
Proof.
  intros timeout w. unfold terminate_wait_kill.
  destruct (wait timeout (terminate w)) as [ended w2] eqn:Hwait.
  apply wait_spec in Hwait. cbn [terminate now death on_eof on_term signals] in Hwait.
  destruct Hwait as (Hd & He & Ht & Hs & Hn & Hend & Hlate).
  cbv zeta. destruct ended.
  - split; [auto|]. split; [split; assumption|]. split; [exact Hn|].
    split; [left; exact Hs|]. intros; exact Hs.
  - assert (Hsig : signals (kill w2) = (signals w ++ [Terminate; Kill])%list).
    { unfold kill. cbn [signals]. rewrite Hs, <- app_assoc. reflexivity. }
    split.
    { apply alive_false_iff. unfold kill, earlier. cbn [now death].
      destruct (death w2) as [d0|]; eexists; split; try reflexivity; lia. }
    split; [split; assumption|]. split; [exact Hn|].
    split; [right; exact Hsig|].
    intros d Hterm Hrange. exfalso.
    specialize (Hlate eq_refl).
    unfold react in Hlate. rewrite Hterm in Hlate. unfold earlier in Hlate.
    destruct (death w) as [d0|].
    + specialize (Hlate _ eq_refl). lia.
    + specialize (Hlate _ eq_refl). lia.
Qed.

End ProcessEnd.

(** X7: [close] of the stdio client always returns, and returns with the
    process ended (a kill ends it at once), at most twice the timeout and one
    50 ms turn of the polling loop after it was called; how the process
    reacts to end-of-input and to termination is not changed. *)
Theorem X7_close_returns_with_the_process_ended : forall timeout w,
  exists w',
    Process.close timeout w = Some w'
    /\ Process.alive w' = false
    /\ same_process w w'
    /\ Process.now w <= Process.now w'
       <= Process.now w + 2 * Z.max 0 timeout + 50.
Proof.
  intros timeout w. unfold Process.close.
  destruct (poll_loop_total (Z.to_nat (timeout / 50 + 1))
              (Process.now (Process.close_stdin w)) timeout
              (Process.close_stdin w)) as [w1 Hloop].
  { destruct (Z.le_gt_cases 0 timeout) as [Hpos|Hneg].
    - rewrite Z2Nat.id by (pose proof (Z.div_pos timeout 50 Hpos); lia).
      pose proof (Z.mul_succ_div_gt timeout 50). lia.
    - lia. }
  rewrite Hloop. eexists. split; [reflexivity|].
  apply poll_loop_spec in Hloop.
  cbn [Process.close_stdin Process.now Process.death Process.on_eof
       Process.on_term Process.signals] in Hloop.
  destruct Hloop as (Hd & He & Ht & Hs & Hn & Hexit & Hb).
  destruct (Process.alive w1) eqn:Halive.
  - pose proof (terminate_wait_kill_spec timeout w1) as Hend. cbv zeta in Hend.
    destruct Hend as (Hdead & (He' & Ht') & Hn' & _).
    split; [exact Hdead|]. split; [split; congruence|]. lia.
  - split; [exact Halive|]. split; [split; assumption|]. lia.
Qed.

(** X8: [close] sends the signals of [escalation] in their order, one to
    three of them, after the signals sent before; a process that has ended,
    or that ends on end-of-input within the timeout, only has its stdin
    closed; one that ends on termination within the timeout is not killed. *)
Theorem X8_close_escalates_only_as_far_as_needed : forall timeout w w',
  Process.close timeout w = Some w' ->
  (exists k, (1 <= k <= 3)%nat
     /\ Process.signals w' = (Process.signals w ++ firstn k escalation)%list)
  /\ (Process.alive w = false ->
      Process.signals w' = (Process.signals w ++ [Process.StdinClose])%list)
  /\ (forall d, Process.on_eof w = Some d -> d <= timeout ->
      Process.signals w' = (Process.signals w ++ [Process.StdinClose])%list)
  /\ (forall d, Process.on_term w = Some d -> d <= timeout ->
      exists k, (1 <= k <= 2)%nat
        /\ Process.signals w' = (Process.signals w ++ firstn k escalation)%list).
Proof.
  intros timeout w w'. unfold Process.close.
  destruct (Process.poll_loop (Z.to_nat (timeout / 50 + 1))
              (Process.now (Process.close_stdin w)) timeout
              (Process.close_stdin w)) as [w1|] eqn:Hloop; [|discriminate].
  intros Hclose. inversion Hclose as [Hw']. clear Hclose.
  apply poll_loop_spec in Hloop.
  cbn [Process.close_stdin Process.now Process.death Process.on_eof
       Process.on_term Process.signals] in Hloop.
  destruct Hloop as (Hd & He & Ht & Hs & Hn & Hexit & Hb).
  pose proof (terminate_wait_kill_spec timeout w1) as Hend. cbv zeta in Hend.
  destruct Hend as (_ & _ & _ & Hsig & Hterm).
  destruct (Process.alive w1) eqn:Halive.
  - assert (Hlive : forall d, Process.death w1 = Some d -> Process.now w1 < d).
    { intros d Hd1. unfold Process.alive in Halive. rewrite Hd1 in Halive.
      apply Z.ltb_lt. exact Halive. }
    destruct Hexit as [Hexit|Hexit]; [|discriminate].
    split; [|split; [|split]].
    + destruct Hsig as [Hsig|Hsig]; rewrite Hsig, Hs, <- app_assoc.
      * exists 2%nat. split; [lia|reflexivity].
      * exists 3%nat. split; [lia|reflexivity].
    + intros Hdead. exfalso. apply alive_false_iff in Hdead.
      destruct Hdead as (d & Hdw & Hle).
      unfold Process.react in Hd. rewrite Hdw in Hd.
      destruct (Process.on_eof w) as [n|]; cbn [Process.earlier] in Hd;
        specialize (Hlive _ Hd); lia.
    + intros d Heof Hrange. exfalso.
      unfold Process.react in Hd. rewrite Heof in Hd.
      unfold Process.earlier in Hd.
      destruct (Process.death w) as [d0|]; specialize (Hlive _ Hd); lia.
    + intros d Hterm' Hrange. exists 2%nat. split; [lia|].
      rewrite (Hterm d) by (try congruence; exact Hrange).
      rewrite Hs, <- app_assoc. reflexivity.
  - assert (Hone : Process.signals w1
                   = (Process.signals w ++ [Process.StdinClose])%list)
      by exact Hs.
    split; [|split; [|split]].
    + exists 1%nat. split; [lia|exact Hone].
    + intros _. exact Hone.
    + intros; exact Hone.
    + intros. exists 1%nat. split; [lia|exact Hone].
Qed.

Lemma X8_close_escalates_witness :
  Process.signals
    (Process.mkWorld 100 (Some 100) (Some 100) None [Process.StdinClose])
  = [Process.StdinClose].
Proof.
  exact (proj1 (proj2 (proj2
    (X8_close_escalates_only_as_far_as_needed 5000
       (Process.mkWorld 0 None (Some 100) None [])
       (Process.mkWorld 100 (Some 100) (Some 100) None [Process.StdinClose])
       eq_refl))) 100 eq_refl ltac:(lia)).
Defined.

(** X9: [_cleanup_proc] ends the process within five seconds: it sends
    terminate, and kill only when the process has not ended five seconds
    later, which does not happen to a process that ends on termination
    within that time. *)
Theorem X9_cleanup_proc_terminates_then_kills : forall w,
  Process.alive (Process._cleanup_proc w) = false
  /\ Process.now w <= Process.now (Process._cleanup_proc w)
     <= Process.now w + 5000
  /\ (Process.signals (Process._cleanup_proc w)
        = (Process.signals w ++ [Process.Terminate])%list
      \/ Process.signals (Process._cleanup_proc w)
        = (Process.signals w ++ [Process.Terminate; Process.Kill])%list)
  /\ (forall d, Process.on_term w = Some d -> d <= 5000 ->
      Process.signals (Process._cleanup_proc w)
      = (Process.signals w ++ [Process.Terminate])%list).
Proof.
  intros w. unfold Process._cleanup_proc.
  pose proof (terminate_wait_kill_spec (seconds 5) w) as Hend.
  cbv zeta in Hend. destruct Hend as (Hdead & _ & Hn & Hsig & Hterm).
  change (seconds 5) with 5000 in *.
  repeat split; auto; lia.
Qed.

Lemma X9_cleanup_proc_witness :
  Process.signals
    (Process._cleanup_proc (Process.mkWorld 0 None None (Some 20) []))
  = [Process.Terminate].
Proof.
  exact (proj2 (proj2 (proj2
    (X9_cleanup_proc_terminates_then_kills
       (Process.mkWorld 0 None None (Some 20) []))))
    20 eq_refl ltac:(lia)).
Defined.

(** ** The HTTP client: the headers of its requests *)

Section HttpHeaders.

Variable json_loads : string -> option Json.

Import Http.

Lemma _headers_session : forall c,
  header "Mcp-Session-Id" (_headers c)
  = if String.eqb (session_id c) "" then None else Some (session_id c).
Proof.
  intros c. unfold _headers. destruct (String.eqb (session_id c) ""); reflexivity.
Qed.

Lemma _headers_version : forall c,
  header "Mcp-Protocol-Version" (_headers c) = Some (protocol_version c).
Proof.
  intros c. unfold _headers. destruct (negb (String.eqb (session_id c) ""));
    reflexivity.
Qed.

Lemma http_posted_headers_log : forall evs w,
  http_posted_headers (log evs w)
  = (http_posted_headers w ++ flat_map http_post_headers evs)%list.
Proof. intros. unfold http_posted_headers, log. simpl. apply flat_map_app. Qed.

Lemma not_a_post_no_headers : forall evs,
  Forall not_a_post evs -> flat_map http_post_headers evs = [].
Proof.
  induction 1 as [|io evs Hio _ IH]; [reflexivity|].
  destruct io; simpl in *; [contradiction| | |]; exact IH.
Qed.

(** One [_send_and_read] sends at most one request, with the headers of the
    client as it is when called. *)
Lemma _send_and_read_headers : forall payload expect c w c' w' r,
  _send_and_read json_loads payload expect c w = (c', w', r) ->
  protocol_version c' = protocol_version c
  /\ (session_id c <> "" -> session_id c' = session_id c)
  /\ ((http_posted_headers w' = http_posted_headers w
       /\ session_id c' = session_id c)
      \/ http_posted_headers w' = (http_posted_headers w ++ [_headers c])%list).
Proof.
  intros payload expect c w c' w' r Hsend.
  pose proof (_send_and_read_keeps_session json_loads payload expect c w) as Hkeep.
  pose proof (_send_and_read_effect json_loads payload expect c w c' w' r Hsend)
    as (_ & Hpv & _).
  rewrite Hsend in Hkeep. simpl in Hkeep.
  split; [exact Hpv|]. split; [exact Hkeep|].
  destruct (server w) as [|reply rest] eqn:Hsrv.
  { revert Hsend. unfold _send_and_read. rewrite Hsrv.
    intros H; inversion H; subst. auto. }
  assert (Hdec : reply = Refused \/ reply <> Refused)
    by (destruct reply; auto; right; discriminate).
  destruct Hdec as [->|Hne].
  { revert Hsend. unfold _send_and_read. rewrite Hsrv.
    intros H; inversion H; subst. auto. }
  destruct (_send_and_read_posts json_loads payload expect c w reply rest Hsrv Hne)
    as (c1 & r1 & evs & Heq & Hnp).
  rewrite Heq in Hsend. inversion Hsend; subst. right.
  unfold http_posted_headers. simpl. rewrite flat_map_app. simpl.
  rewrite (not_a_post_no_headers evs Hnp). reflexivity.
Qed.

(** What one call of a public method sends. *)
Lemma step_headers : forall op c w c' w',
  step json_loads op c w = (c', w') ->
  protocol_version c' = protocol_version c
  /\ (session_id c <> "" -> session_id c' = session_id c)
  /\ ((http_posted_headers w' = http_posted_headers w
       /\ session_id c' = session_id c)
      \/ exists h, http_posted_headers w' = (http_posted_headers w ++ [h])%list
           /\ header "Mcp-Protocol-Version" h = Some (protocol_version c)
           /\ header "Mcp-Session-Id" h
              = if String.eqb (session_id c) "" then None
                else Some (session_id c)).
Proof.
  intros op c w c' w'.
  assert (Hsend : forall payload expect c0 r,
    protocol_version c0 = protocol_version c ->
    session_id c0 = session_id c ->
    _send_and_read json_loads payload expect c0 w = (c', w', r) ->
    protocol_version c' = protocol_version c
    /\ (session_id c <> "" -> session_id c' = session_id c)
    /\ ((http_posted_headers w' = http_posted_headers w
         /\ session_id c' = session_id c)
        \/ exists h, http_posted_headers w' = (http_posted_headers w ++ [h])%list
             /\ header "Mcp-Protocol-Version" h = Some (protocol_version c)
             /\ header "Mcp-Session-Id" h
                = if String.eqb (session_id c) "" then None
                  else Some (session_id c))).
  { intros payload expect c0 r Hpv0 Hsid0 H.
    apply _send_and_read_headers in H.
    rewrite Hpv0, Hsid0 in H. destruct H as (Hpv & Hsid & Hh).
    split; [exact Hpv|]. split; [exact Hsid|].
    destruct Hh as [Hh|Hh]; [left; exact Hh|right].
    eexists. split; [exact Hh|].
    rewrite _headers_version, _headers_session, Hpv0, Hsid0. auto. }
  assert (Hreq : forall m p,
    forget (request json_loads m p c w) = (c', w') ->
    protocol_version c' = protocol_version c
    /\ (session_id c <> "" -> session_id c' = session_id c)
    /\ ((http_posted_headers w' = http_posted_headers w
         /\ session_id c' = session_id c)
        \/ exists h, http_posted_headers w' = (http_posted_headers w ++ [h])%list
             /\ header "Mcp-Protocol-Version" h = Some (protocol_version c)
             /\ header "Mcp-Session-Id" h
                = if String.eqb (session_id c) "" then None
                  else Some (session_id c))).
  { intros m p. unfold request.
    destruct (_send_and_read _ _ _ _ w) as [[c1 w1] r1] eqn:Hs.
    intros H.
    assert (c1 = c' /\ w1 = w') as [-> ->]
      by (destruct r1; inversion H; auto).
    eapply Hsend; [| |exact Hs]; reflexivity. }
  destruct op as [n v| |m p| |n a]; simpl; try apply Hreq.
  - unfold initialize.
    destruct (_send_and_read _ _ _ _ w) as [[c1 w1] r1] eqn:Hs.
    intros H.
    assert (c1 = c' /\ w1 = w') as [-> ->].
    { destruct r1 as [[resp|]|e]; try (inversion H; auto; fail).
      destruct (negb (truthy resp)); [inversion H; auto|].
      destruct (py_contains "error" resp) as [[]|]; inversion H; auto. }
    eapply Hsend; [| |exact Hs]; reflexivity.
  - unfold send_initialized.
    destruct (_send_and_read _ _ _ _ w) as [[c1 w1] r1] eqn:Hs.
    intros H.
    assert (c1 = c' /\ w1 = w') as [-> ->]
      by (destruct r1; inversion H; auto).
    eapply Hsend; [| |exact Hs]; reflexivity.
Qed.

(** X10: what the HTTP client sends over any sequence of calls.  Every
    request names the client's protocol version, and its [Mcp-Session-Id]
    header is absent or the session id the client holds in the end: two
    different session ids are never sent.  Once a session id is recorded
    every request carries it, and the first request of a client without one
    has no such header. *)
Theorem X10_http_requests_carry_the_recorded_session : forall ops c w c' w',
  run json_loads ops c w = (c', w') ->
  exists added,
    http_posted_headers w' = (http_posted_headers w ++ added)%list
    /\ Forall (fun h => header "Mcp-Protocol-Version" h
                        = Some (protocol_version c)) added
    /\ Forall (session_or_none (session_id c')) added
    /\ (session_id c <> "" ->
        Forall (fun h => header "Mcp-Session-Id" h = Some (session_id c)) added)
    /\ (session_id c = "" ->
        forall h rest, added = h :: rest -> header "Mcp-Session-Id" h = None).
Proof.
  induction ops as [|op ops IH]; intros c w c' w'; simpl.
  - intros H; inversion H; subst. exists []. rewrite app_nil_r.
    repeat split; auto. intros _ h rest Heq. discriminate.
  - destruct (step json_loads op c w) as [c1 w1] eqn:Hstep.
    apply step_headers in Hstep. destruct Hstep as (Hpv & Hsid & Hh).
    intros Hrun. pose proof (run_keeps_session json_loads ops c1 w1) as Hkeep.
    rewrite Hrun in Hkeep. simpl in Hkeep.
    apply IH in Hrun.
    destruct Hrun as (a2 & Ha2 & Hv2 & Hs2 & Hrec2 & Hnone2).
    rewrite Hpv in Hv2.
    destruct (String.eqb (session_id c) "") eqn:Hc.
    + apply String.eqb_eq in Hc.
      destruct Hh as [[Hh Hsame]|(h & Hh & Hhv & Hhs)].
      * exists a2. rewrite Ha2, Hh.
        split; [reflexivity|]. split; [exact Hv2|]. split; [exact Hs2|].
        split; [intros Hne; contradiction|].
        intros _ h rest Heq. eapply Hnone2; [congruence|exact Heq].
      * exists (h :: a2). rewrite Ha2, Hh, <- app_assoc.
        split; [reflexivity|].
        split; [constructor; assumption|].
        split; [constructor; [left; exact Hhs|exact Hs2]|].
        split; [intros Hne; contradiction|].
        intros _ h0 rest Heq. inversion Heq; subst. exact Hhs.
    + apply String.eqb_neq in Hc. specialize (Hsid Hc).
      assert (Hc1 : session_id c1 <> "") by congruence.
      specialize (Hrec2 Hc1). specialize (Hkeep Hc1).
      rewrite Hsid in Hrec2.
      destruct Hh as [[Hh Hsame]|(h & Hh & Hhv & Hhs)].
      * exists a2. rewrite Ha2, Hh.
        split; [reflexivity|]. split; [exact Hv2|]. split; [exact Hs2|].
        split; [intros _; exact Hrec2|]. intros He; contradiction.
      * exists (h :: a2). rewrite Ha2, Hh, <- app_assoc.
        split; [reflexivity|].
        split; [constructor; assumption|].
        split; [constructor; [right; congruence|exact Hs2]|].
        split; [intros _; constructor; assumption|].
        intros He; contradiction.
Qed.

End HttpHeaders.

Lemma X10_http_requests_witness :
  exists added,
    http_posted_headers
      (snd (Http.run JsonRef.json_loads_ref http_three_calls
              (Http.init "2025-06-18") http_serving))
    = (http_posted_headers http_serving ++ added)%list
    /\ Forall (session_or_none "A") added
    /\ (forall h rest, added = h :: rest -> header "Mcp-Session-Id" h = None).
Proof.
  destruct (X10_http_requests_carry_the_recorded_session
              JsonRef.json_loads_ref http_three_calls
              (Http.init "2025-06-18") http_serving _ _
              (surjective_pairing _))
    as (added & H1 & _ & H3 & _ & H5).
  exists added. split; [exact H1|]. split; [exact H3|].
  exact (H5 eq_refl).
Defined.

(** ** The HTTP client: what becomes of the connection *)

Section HttpConnection.

Variable json_loads : string -> option Json.

Import Http.


End HttpConnection.



(** X12: [send_initialized] of the HTTP client needs no reply.  When the
    server closes the connection without a status line, it succeeds exactly
    when the text of [BadStatusLine] strips to [0] or to nothing, where
    [request] and [initialize] raise; and it succeeds on every response
    that passes the session check, whatever its status, content type and
    body, which are not looked at. *)
Theorem X12_http_notification_needs_no_reply : forall json_loads c w reply rest,
  Http.server w = reply :: rest ->
  (forall text, reply = Http.NoResponse text ->
     (snd (Http.send_initialized json_loads c w) = Ok tt
      <-> Py.strip text = "0" \/ Py.strip text = "")
     /\ (forall m p,
         snd (Http.request json_loads m p c w) = Raise (BadStatusLine text))
     /\ (forall n v,
         snd (Http.initialize json_loads n v c w) = Raise (BadStatusLine text)))
  /\ (forall status sid ctype body c1,
      reply = Http.Response status sid ctype body ->
      Http.observe_session sid c = Ok c1 ->
      Http.send_initialized json_loads c w
      = (c1,
         Http.mkWorld rest
           (Http.trace w
            ++ Http.Post (Http._headers c)
                 (JObj [("jsonrpc", JStr "2.0");
                        ("method", JStr "notifications/initialized");
                        ("params", JObj [])])
               :: closing),
         Ok tt)).
Proof.
  intros json_loads c w reply rest Hsrv. split.
  - intros text ->. split; [|split].
    + unfold Http.send_initialized, Http._send_and_read.
      rewrite Hsrv. cbv zeta. unfold Http.bad_status_line. cbn [negb andb].
      destruct (String.eqb_spec (Py.strip text) "0") as [H0|H0];
        destruct (String.eqb_spec (Py.strip text) "") as [He|He]; simpl;
        split; auto; try discriminate.
      intros [H|H]; contradiction.
    + intros m p. unfold Http.request, Http._send_and_read.
      rewrite Hsrv. reflexivity.
    + intros n v. unfold Http.initialize, Http._send_and_read.
      rewrite Hsrv. reflexivity.
  - intros status sid ctype body c1 -> Hobs.
    unfold Http.send_initialized.
    rewrite (_send_and_read_response json_loads _ false c w status sid ctype body
               rest c1 Hsrv Hobs).
    rewrite (read_response_no_reply_expected json_loads _ false status ctype body)
      by auto.
    simpl. rewrite <- app_assoc. reflexivity.
Qed.

Lemma X12_http_notification_witness :
  snd (Http.send_initialized JsonRef.json_loads_ref (Http.init "2025-06-18")
         (Http.mkWorld [Http.NoResponse "0"] []))
  = Ok tt.
Proof.
  apply (proj1 (X12_http_notification_needs_no_reply JsonRef.json_loads_ref
                  (Http.init "2025-06-18")
                  (Http.mkWorld [Http.NoResponse "0"] [])
                  (Http.NoResponse "0") [] eq_refl) "0" eq_refl).
  left. reflexivity.
Defined.

Lemma scan_batch_for_sound : forall target_id msgs m,
  Http.scan_batch_for target_id true msgs = Ok (Some m) ->
  exists v, py_get "id" m = Ok v /\ py_eq v target_id = true.
Proof.
  induction msgs as [|x rest IH]; intros m; simpl; [discriminate|].
  destruct (py_get "id" x) as [v|e] eqn:Hget; [|discriminate].
  destruct (py_eq v target_id) eqn:Heq; [|apply IH].
  intros H; inversion H; subst. eauto.
Qed.

Lemma py_eq_int_number : forall v n, py_eq v (JNum n) = py_eq_int v n.
Proof. intros v n. destruct v; reflexivity. Qed.

(** X13: a reply that [request] of the HTTP client takes from an event
    stream answers that request: what [request] returns is the empty
    object, or a message whose [id] equals the identifier the request was
    sent under.  (A JSON body is returned whatever its [id].) *)
Theorem X13_http_stream_reply_has_the_request_id :
  forall json_loads method params c w status sid ctype body rest c' w' v,
    Http.server w = Http.Response status sid ctype body :: rest ->
    content_type ctype = "text/event-stream" ->
    Http.request json_loads method params c w = (c', w', Ok v) ->
    v = JObj []
    \/ exists idv,
         py_get "id" v = Ok idv /\ py_eq_int idv (Http._next_id c) = true.
Proof.
  intros json_loads method params c w status sid ctype body rest c' w' v
    Hsrv Hct.
  unfold Http.request, Http._send_and_read. rewrite Hsrv. cbv zeta.
  unfold Http.received.
  destruct (Http.observe_session sid (Http.bump c)) as [c1|e]; [|discriminate].
  unfold Http.read_response. fold (content_type ctype). rewrite Hct.
  destruct (_ || _ || _)%bool.
  { intros H; inversion H; subst. left. reflexivity. }
  cbn [String.eqb Ascii.eqb Bool.eqb Http.read_body Http.response_lines].
  rewrite py_get_id_request, sse_loop_first_match, first_match_messages.
  destruct (Http.scan_batch_for _ _ _) as [[m|]|e] eqn:Hfm.
  - intros H; inversion H; subst.
    apply scan_batch_for_sound in Hfm.
    destruct Hfm as (idv & Hget & Heq). rewrite py_eq_int_number in Heq.
    unfold Http.or_empty. destruct (truthy m); [|left; reflexivity].
    right. exists idv. split; [exact Hget|exact Heq].
  - intros H; inversion H; subst. left. reflexivity.
  - discriminate.
Qed.

Lemma X13_http_stream_reply_witness :
  reply_1 = JObj []
  \/ exists idv,
       py_get "id" reply_1 = Ok idv
       /\ py_eq_int idv (Http._next_id (Http.init "2025-06-18")) = true.
Proof.
  apply (X13_http_stream_reply_has_the_request_id JsonRef.json_loads_ref
           "tools/list" (Some (JObj [])) (Http.init "2025-06-18") http_streaming
           200 (Some "A") (Some "text/event-stream; charset=utf-8")
           ("event: message" ++ Py.nl ++ "data: " ++ reply_1_text ++ Py.nl ++ Py.nl)
           []
           (Http.mkClient "2025-06-18" "A" 2)
           (Http.mkWorld []
              [Http.Post (Http._headers (Http.init "2025-06-18"))
                 (Http.request_message 1 "tools/list" (Some (JObj [])));
               Http.RespClose; Http.ConnClose])
           reply_1 eq_refl).
  - vm_compute. reflexivity.
  - vm_compute. reflexivity.
Defined.

(** ** The two readers of batched events *)

Lemma sse_scan_batch_skips : forall req_id msgs,
  Sse.scan_batch req_id msgs
  = Sse.scan_batch req_id (filter is_dict msgs).
Proof.
  induction msgs as [|m rest IH]; [reflexivity|].
  destruct m; simpl; try exact IH.
  destruct (py_eq_int _ req_id); [reflexivity|exact IH].
Qed.

(** The loop of the HTTP client, for a request whose id is [req_id]. *)
Lemma http_scan_batch_cons : forall req_id m rest,
  Http.scan_batch (Some req_id) true (m :: rest)
  = match py_get "id" m with
    | Raise e => Raise e
    | Ok v =>
        if py_eq_int v req_id then Ok (Some m)
        else Http.scan_batch (Some req_id) true rest
    end.
Proof.
  intros req_id m rest. unfold Http.scan_batch. simpl.
  destruct (py_get "id" m) as [v|e]; [|reflexivity].
  rewrite py_eq_int_number. reflexivity.
Qed.

Lemma http_match_event_cases : forall req_id msg,
  Http.match_event (Some req_id) true msg
  = match msg with
    | Some (JArr msgs) => Http.scan_batch (Some req_id) true msgs
    | Some (JObj kv) =>
        match py_get "id" (JObj kv) with
        | Raise e => Raise e
        | Ok v => if py_eq_int v req_id then Ok (Some (JObj kv)) else Ok None
        end
    | _ => Ok None
    end.
Proof.
  intros req_id msg. unfold Http.match_event, Http.match_event_for.
  destruct msg as [[| | | |msgs|kv]|]; try reflexivity.
  cbn [negb py_get Http.id_value]. rewrite py_eq_int_number. reflexivity.
Qed.

Lemma scan_batch_agree : forall req_id msgs,
  Forall (fun m => is_dict m = true) msgs ->
  Http.scan_batch (Some req_id) true msgs = Ok (Sse.scan_batch req_id msgs).
Proof.
  induction msgs as [|m rest IH]; intros Hall; [reflexivity|].
  inversion Hall as [|? ? Hm Hrest]; subst.
  rewrite http_scan_batch_cons.
  destruct m; try discriminate. simpl.
  destruct (py_eq_int _ req_id); [reflexivity|]. apply IH. exact Hrest.
Qed.

(** X14: the HTTP and the SSE client pick the same message from a decoded
    event - a dict with the awaited id, or the first element with that id
    of a batch - as long as the elements of a batch are dicts.  An element
    that is no dict is skipped by the SSE client; the HTTP client raises
    [AttributeError] when it reaches one before the reply. *)
Theorem X14_event_readers_agree_on_dicts : forall req_id,
  (forall msg,
      (forall msgs, msg = Some (JArr msgs) ->
         Forall (fun m => is_dict m = true) msgs) ->
      Http.match_event (Some req_id) true msg
      = Ok (Sse.match_event req_id msg))
  /\ (forall before bad after,
      Forall (fun m => is_dict m = true) before ->
      Sse.scan_batch req_id before = None ->
      is_dict bad = false ->
      Http.match_event (Some req_id) true (Some (JArr (before ++ bad :: after)))
      = Raise AttributeError
      /\ Sse.match_event req_id (Some (JArr (before ++ bad :: after)))
         = Sse.scan_batch req_id (filter is_dict after)).
Proof.
  intros req_id. split.
  - intros msg Hdicts. rewrite http_match_event_cases.
    destruct msg as [[| | | |msgs|kv]|]; try reflexivity.
    + simpl. apply scan_batch_agree. apply Hdicts. reflexivity.
    + simpl. destruct (py_eq_int _ req_id); reflexivity.
  - intros before bad after Hall Hnone Hbad. rewrite http_match_event_cases.
    simpl. split.
    + clear -Hall Hnone Hbad.
      induction before as [|m rest IH]; cbn [app];
        rewrite http_scan_batch_cons.
      * destruct bad; try discriminate; reflexivity.
      * inversion Hall as [|? ? Hm Hrest]; subst.
        destruct m; try discriminate. simpl in Hnone |- *.
        destruct (py_eq_int _ req_id); [discriminate|].
        apply IH; assumption.
    + rewrite sse_scan_batch_skips, filter_app. simpl. rewrite Hbad.
      clear -Hnone.
      induction before as [|m rest IH]; simpl; [reflexivity|].
      destruct m; simpl in Hnone |- *; try (apply IH; exact Hnone).
      destruct (py_eq_int _ req_id); [discriminate|].
      apply IH. exact Hnone.
Qed.

Lemma X14_event_readers_witness :
  Http.match_event (Some 1) true (Some (JArr [note_x; JNum 7; reply_1]))
  = Raise AttributeError
  /\ Sse.match_event 1 (Some (JArr [note_x; JNum 7; reply_1]))
     = Sse.scan_batch 1 (filter is_dict [reply_1]).
Proof.
  exact (proj2 (X14_event_readers_agree_on_dicts 1)
           [note_x] (JNum 7) [reply_1]
           (Forall_cons (P := fun m => is_dict m = true) note_x eq_refl
              (Forall_nil _))
           eq_refl eq_refl).
Defined.

(** ** The SSE client: what a wait returns, and when *)

Section SseWait.

Variable json_loads : string -> option Json.

Import Sse.

Lemma sse_scan_batch_sound : forall req_id msgs m,
  scan_batch req_id msgs = Some m ->
  In m msgs /\ is_dict m = true
  /\ exists v, py_get "id" m = Ok v /\ py_eq_int v req_id = true.
Proof.
  induction msgs as [|x rest IH]; intros m; simpl; [discriminate|].
  assert (Hrest : scan_batch req_id rest = Some m ->
                  (x = m \/ In m rest) /\ is_dict m = true
                  /\ exists v, py_get "id" m = Ok v /\ py_eq_int v req_id = true).
  { intros H. apply IH in H. tauto. }
  destruct x; try exact Hrest. simpl.
  destruct (py_eq_int _ req_id) eqn:Heq; [|exact Hrest].
  intros H; inversion H; subst. split; [auto|]. split; [reflexivity|].
  eexists. split; [reflexivity|exact Heq].
Qed.

Lemma sse_match_event_sound : forall req_id msg m,
  match_event req_id msg = Some m ->
  is_dict m = true
  /\ exists v, py_get "id" m = Ok v /\ py_eq_int v req_id = true.
Proof.
  intros req_id msg m. unfold match_event.
  destruct msg as [[| | | |msgs|kv]|]; try discriminate.
  - intros H. apply sse_scan_batch_sound in H. tauto.
  - simpl. destruct (py_eq_int _ req_id) eqn:Heq; [|discriminate].
    intros H; inversion H; subst. split; [reflexivity|].
    eexists. split; [reflexivity|exact Heq].
Qed.

Lemma at_end_ended : forall eof now t,
  at_end eof now = (t, true) -> now <= t /\ eof <> None.
Proof.
  intros eof now t. unfold at_end.
  destruct eof as [t0|]; [|discriminate].
  destruct (arrives_within now t0 sock_timeout); [|discriminate].
  intros H; inversion H; subst. split; [lia|discriminate].
Qed.

Lemma at_end_later : forall eof now t ended,
  at_end eof now = (t, ended) -> now <= t.
Proof.
  intros eof now t ended. unfold at_end, sock_timeout.
  change (seconds 30) with 30000.
  destruct eof as [t0|].
  - destruct (arrives_within now t0 30000);
      intros H; inversion H; subst; lia.
  - intros H; inversion H; subst. lia.
Qed.

Lemma sse_await_loop_spec :
  forall req_id start timeout eof pending t0 buf rest t r,
    await_loop json_loads req_id start timeout eof pending t0 buf = (rest, t, r) ->
    t0 <= t
    /\ (forall m, r = Ok m ->
        is_dict m = true
        /\ exists v, py_get "id" m = Ok v /\ py_eq_int v req_id = true)
    /\ (r = Raise timed_out ->
        timeout <= t - start
        \/ (rest = [] /\ eof <> None)
        \/ exists consumed t1, pending = (consumed ++ (t1, "") :: rest)%list).
Proof.
  intros req_id start timeout eof.
  induction pending as [|[t0 chunk] later IH]; intros now buf rest t r.
  - cbn [await_loop]. destruct (Z.ltb_spec (now - start) timeout).
    + destruct (at_end eof now) as [t1 ended] eqn:Hend.
      destruct ended; intros Hret; inversion Hret; subst.
      * apply at_end_ended in Hend. destruct Hend as [Hle Heof].
        split; [exact Hle|]. split; [discriminate|]. auto.
      * apply at_end_later in Hend.
        split; [exact Hend|]. split; discriminate.
    + intros Hret; inversion Hret; subst.
      split; [lia|]. split; [discriminate|]. intros _. left. lia.
  - cbn [await_loop]. destruct (Z.ltb_spec (now - start) timeout) as [Hlt|Hge].
    + assert (Hrec : forall b,
        await_loop json_loads req_id start timeout eof later (Z.max now t0) b
        = (rest, t, r) ->
        now <= t
        /\ (forall m, r = Ok m ->
            is_dict m = true
            /\ exists v, py_get "id" m = Ok v /\ py_eq_int v req_id = true)
        /\ (r = Raise timed_out ->
            timeout <= t - start
            \/ (rest = [] /\ eof <> None)
            \/ exists consumed t1,
                 (t0, chunk) :: later = (consumed ++ (t1, "") :: rest)%list)).
      { intros b H. apply IH in H. destruct H as (H1 & H2 & H3).
        split; [lia|]. split; [exact H2|].
        intros Hr. destruct (H3 Hr) as [Ht|[He|(consumed & t1 & Hc)]]; auto.
        right. right. exists ((t0, chunk) :: consumed), t1.
        rewrite Hc. reflexivity. }
      destruct (String.eqb_spec chunk "") as [->|Hne].
      { intros Hret; inversion Hret; subst. split; [lia|].
        split; [discriminate|]. intros _. right. right.
        exists [], t0. reflexivity. }
      destruct (Py.startswith "data:" (Py.rstrip_crlf chunk)); [apply Hrec|].
      destruct (String.eqb (Py.rstrip_crlf chunk) ""); [|apply Hrec].
      destruct (negb (String.eqb buf "")); [|apply Hrec].
      destruct (match_event req_id (decode_event json_loads buf)) as [m|] eqn:Hev;
        [|apply Hrec].
      intros Hret; inversion Hret; subst. split; [lia|].
      split; [|discriminate].
      intros m0 Hm0. inversion Hm0; subst.
      eapply sse_match_event_sound. exact Hev.
    + intros Hret; inversion Hret; subst.
      split; [lia|]. split; [discriminate|]. intros _. left. lia.
Qed.

End SseWait.

(** X15: a wait of the SSE client.  It only reads: nothing is sent, and no
    scripted POST is used up.  What it returns is a dict whose [id] equals
    the awaited one.  Its own [TimeoutError] is raised when the timeout has
    passed, or earlier when the stream has ended.  A read that times out on
    the socket leaves the reader unusable: every later wait raises at once
    the [OSError] of a timed-out reader. *)
Theorem X15_sse_wait_returns_the_reply_or_times_out :
  forall json_loads req_id timeout w w' r,
    Sse._await_response json_loads req_id timeout w = (w', r) ->
    Sse.trace w' = Sse.trace w
    /\ Sse.posts w' = Sse.posts w
    /\ Sse.now w <= Sse.now w'
    /\ (forall m, r = Ok m ->
        is_dict m = true
        /\ exists v, py_get "id" m = Ok v /\ py_eq_int v req_id = true)
    /\ (r = Raise Sse.timed_out ->
        Sse._timeout_occurred w = false ->
        timeout <= Sse.now w' - Sse.now w
        \/ (Sse.stream w' = [] /\ Sse.eof_at w <> None)
        \/ exists consumed t,
             Sse.stream w = (consumed ++ (t, "") :: Sse.stream w')%list)
    /\ (r = Raise (OSError "timed out") -> Sse._timeout_occurred w' = true)
    /\ (Sse._timeout_occurred w = true ->
        0 < timeout ->
        w' = w /\ r = Raise (OSError "cannot read from timed out object")).
Proof.
  intros json_loads req_id timeout w w' r. unfold Sse._await_response.
  destruct (Sse._timeout_occurred w) eqn:Hflag.
  { destruct (Z.ltb_spec 0 timeout) as [Hpos|Hneg];
      intros H; inversion H; subst;
      (split; [reflexivity|]); (split; [reflexivity|]); (split; [lia|]);
      (split; [discriminate|]); (split; [discriminate|]);
      (split; [discriminate|]); intros _ Hp; [auto|lia]. }
  destruct (Sse.await_loop _ _ _ _ _ _ _ _) as [[rest t] r1] eqn:Hloop.
  apply sse_await_loop_spec in Hloop. destruct Hloop as (H1 & H2 & H3).
  intros H; inversion H; subst.
  cbn [Sse.set_stream Sse.trace Sse.now Sse.posts Sse.stream Sse.eof_at
       Sse._timeout_occurred].
  split; [reflexivity|]. split; [reflexivity|]. split; [exact H1|].
  split; [exact H2|]. split; [intros Hr _; exact (H3 Hr)|].
  split; [|discriminate].
  intros ->. rewrite Hflag. reflexivity.
Qed.

Lemma X15_sse_wait_witness :
  snd (Sse._await_response JsonRef.json_loads_ref 1 (seconds 30) sse_connected)
  = Ok reply_1
  /\ is_dict reply_1 = true
  /\ exists v, py_get "id" reply_1 = Ok v /\ py_eq_int v 1 = true.
Proof.
  split; [vm_compute; reflexivity|].
  apply (proj1 (proj2 (proj2 (proj2
    (X15_sse_wait_returns_the_reply_or_times_out JsonRef.json_loads_ref 1
       (seconds 30) sse_connected _ _ (surjective_pairing _))))) reply_1).
  vm_compute. reflexivity.
Defined.

(** ** The benchmark client *)

Section BenchClient.

Variable json_loads : string -> option Json.

Import Bench.

(** The payload has a [params] member when [params] is truthy and an [id]
    member, the request id, unless it is a notification. *)
Lemma payload_members : forall method params notif rid,
  py_contains "params" (payload method params notif rid) = Ok (truthy params)
  /\ py_contains "id" (payload method params notif rid) = Ok (negb notif)
  /\ posted_id (payload method params notif rid) = (if notif then [] else [rid])
  /\ py_get "method" (payload method params notif rid) = Ok (JStr method).
Proof.
  intros method params notif rid. unfold payload.
  destruct (truthy params); destruct notif; repeat split; reflexivity.
Qed.

Lemma posted_ids_snoc : forall w later p,
  posted_ids (mkWorld later (posted w ++ [p]))
  = (posted_ids w ++ posted_id p)%list.
Proof.
  intros. unfold posted_ids. simpl. rewrite flat_map_app. simpl.
  rewrite app_nil_r. reflexivity.
Qed.

(** One [_send_request]: the counter goes up by one whatever happens, and
    at most the payload is sent. *)
Lemma _send_request_effect : forall method params notif c w c' w' r,
  _send_request json_loads method params notif c w = (c', w', r) ->
  _request_id c' = _request_id c + 1
  /\ (posted w' = posted w
      \/ posted w'
         = (posted w ++ [payload method params notif (_request_id c + 1)])%list).
Proof.
  intros method params notif c w c' w' r. unfold _send_request.
  cbn [_request_id].
  destruct (server w) as [|[|status body] later].
  - intros H; inversion H; subst. auto.
  - intros H; inversion H; subst. auto.
  - destruct (_ && _)%bool; intros H; inversion H; subst; auto.
Qed.

Lemma bench_step_effect : forall op c w c' w',
  step json_loads op c w = (c', w') ->
  _request_id c' = _request_id c + 1
  /\ (posted_ids w' = posted_ids w
      \/ posted_ids w' = (posted_ids w ++ [_request_id c + 1])%list).
Proof.
  intros op c w c' w'.
  assert (Hsend : forall method params notif r,
    _send_request json_loads method params notif c w = (c', w', r) ->
    _request_id c' = _request_id c + 1
    /\ (posted_ids w' = posted_ids w
        \/ posted_ids w' = (posted_ids w ++ [_request_id c + 1])%list)).
  { intros method params notif r H. apply _send_request_effect in H.
    destruct H as [Hid Hp]. split; [exact Hid|].
    unfold posted_ids. destruct Hp as [-> | ->]; [auto|].
    rewrite flat_map_app. cbn [flat_map]. rewrite app_nil_r.
    destruct (payload_members method params notif (_request_id c + 1))
      as (_ & _ & -> & _).
    destruct notif; [left; apply app_nil_r|right; reflexivity]. }
  destruct op as [pid| |n p]; simpl.
  - destruct (initialize json_loads pid c w) as [[c1 w1] r1] eqn:Hs.
    intros H; inversion H; subst. eapply Hsend. exact Hs.
  - destruct (send_initialized json_loads c w) as [[c1 w1] r1] eqn:Hs.
    intros H; inversion H; subst. eapply Hsend. exact Hs.
  - destruct (tools_call json_loads n p c w) as [[c1 w1] r1] eqn:Hs.
    intros H; inversion H; subst. eapply Hsend. exact Hs.
Qed.

(** X16: the benchmark client counts calls, not requests: every call of
    [_send_request] - a notification as well, and a call that fails - takes
    the next number, so after [n] calls the counter has grown by [n].  The
    ids it sends are increasing and lie in the numbers taken, but need not
    be consecutive. *)
Theorem X16_benchmark_ids_count_every_call : forall ops c w c' w',
  run json_loads ops c w = (c', w') ->
  _request_id c' = _request_id c + Z.of_nat (List.length ops)
  /\ exists added,
       posted_ids w' = (posted_ids w ++ added)%list
       /\ StronglySorted Z.lt added
       /\ Forall (fun n => _request_id c < n <= _request_id c') added.
Proof.
  induction ops as [|op ops IH]; intros c w c' w'.
  - simpl. intros H; inversion H; subst. split; [lia|].
    exists []. rewrite app_nil_r. repeat split; constructor.
  - cbn [run List.length]. destruct (step json_loads op c w) as [c1 w1] eqn:Hstep.
    apply bench_step_effect in Hstep. destruct Hstep as [Hid Hp].
    intros Hrun. apply IH in Hrun.
    destruct Hrun as (Hcount & a2 & Ha2 & Hsorted & Hrange).
    split; [lia|].
    assert (Hrange' : Forall (fun n => _request_id c < n <= _request_id c') a2).
    { eapply Forall_impl; [|exact Hrange]. simpl. intros n Hn. lia. }
    destruct Hp as [Hp|Hp].
    + exists a2. rewrite Ha2, Hp. auto.
    + exists (_request_id c + 1 :: a2). rewrite Ha2, Hp, <- app_assoc.
      split; [reflexivity|]. split.
      * constructor; [exact Hsorted|].
        eapply Forall_impl; [|exact Hrange]. simpl. intros n Hn. lia.
      * constructor; [lia|exact Hrange'].
Qed.

(** X17: [_send_request] returns only after a response with status 200.
    For a notification it returns [None] and does not look at the body; for
    a request the body decodes to a document without an [error] member,
    whose [result] (or [None]) is returned.  The payload sent has an [id]
    unless it is a notification, and [params] only when they are truthy. *)
Theorem X17_benchmark_request_returns_the_result :
  forall method params notif c w c' w' v,
    _send_request json_loads method params notif c w = (c', w', Ok v) ->
    exists body later,
      server w = Response 200 body :: later
      /\ posted w'
         = (posted w ++ [payload method params notif (_request_id c + 1)])%list
      /\ py_contains "id" (payload method params notif (_request_id c + 1))
         = Ok (negb notif)
      /\ py_contains "params" (payload method params notif (_request_id c + 1))
         = Ok (truthy params)
      /\ (notif = true -> v = JNull)
      /\ (notif = false ->
          exists d, json_loads body = Some d
                    /\ py_contains "error" d = Ok false
                    /\ py_get "result" d = Ok v).
Proof.
  intros method params notif c w c' w' v. unfold _send_request.
  cbn [_request_id].
  destruct (server w) as [|[|status body] later]; try discriminate.
  destruct (_ && _)%bool; [|discriminate].
  unfold read_reply. destruct (Z.eqb_spec status 200) as [->|Hne];
    [|discriminate].
  cbn [negb].
  destruct (payload_members method params notif (_request_id c + 1))
    as (Hparams & Hid & _).
  destruct notif.
  - intros H; inversion H; subst. exists body, later.
    repeat split; auto. discriminate.
  - unfold Py.decode_utf8.
    destruct (Py.utf8_valid body); [|discriminate].
    destruct (json_loads body) as [d|] eqn:Hd; [|discriminate].
    destruct (py_contains "error" d) as [[]|] eqn:Herr;
      try discriminate; [destruct d; discriminate|].
    intros H; inversion H; subst. exists body, later.
    repeat split; auto; try discriminate.
    intros _. exists d. auto.
Qed.

End BenchClient.

Lemma X16_benchmark_ids_witness :
  Bench._request_id
    (fst (Bench.run JsonRef.json_loads_ref
            [Bench.Initialize 7; Bench.SendInitialized;
             Bench.ToolsCall "read_graph" (JObj [])]
            Bench.init
            (Bench.mkWorld [Bench.Response 200 reply_1_text;
                            Bench.Response 200 EmptyString;
                            Bench.Response 200 reply_1_text] [])))
  = 3
  /\ Bench.posted_ids
       (snd (Bench.run JsonRef.json_loads_ref
               [Bench.Initialize 7; Bench.SendInitialized;
                Bench.ToolsCall "read_graph" (JObj [])]
               Bench.init
               (Bench.mkWorld [Bench.Response 200 reply_1_text;
                               Bench.Response 200 EmptyString;
                               Bench.Response 200 reply_1_text] [])))
     = [1; 3].
Proof.
  split; [|reflexivity].
  exact (proj1 (X16_benchmark_ids_count_every_call JsonRef.json_loads_ref
                  [Bench.Initialize 7; Bench.SendInitialized;
                   Bench.ToolsCall "read_graph" (JObj [])]
                  Bench.init
                  (Bench.mkWorld [Bench.Response 200 reply_1_text;
                                  Bench.Response 200 EmptyString;
                                  Bench.Response 200 reply_1_text] [])
                  _ _ (surjective_pairing _))).
Defined.

Lemma X17_benchmark_request_witness :
  exists body later,
    Bench.server (Bench.mkWorld [Bench.Response 200 reply_1_text] [])
    = Bench.Response 200 body :: later
    /\ [Bench.payload "tools/read_graph" (JObj []) false 1]
       = ([] ++ [Bench.payload "tools/read_graph" (JObj []) false
                   (Bench._request_id Bench.init + 1)])%list.
Proof.
  destruct (X17_benchmark_request_returns_the_result JsonRef.json_loads_ref
              "tools/read_graph" (JObj []) false Bench.init
              (Bench.mkWorld [Bench.Response 200 reply_1_text] [])
              (Bench.mkClient 1)
              (Bench.mkWorld [] [Bench.payload "tools/read_graph" (JObj []) false 1])
              (JObj []) eq_refl)
    as (body & later & Hsrv & Hposted & _).
  exists body, later. split; [exact Hsrv|exact Hposted].
Defined.

(** ** The stdio-to-HTTP bridge *)

Section BridgeLoop.

Variable json_loads : string -> option Json.

Import Bridge.

Lemma forward_spec : forall lines w,
  exists out,
    stdout (forward json_loads lines w) = (stdout w ++ out)%list
    /\ posted (forward json_loads lines w)
       = (posted w ++ stdin_requests json_loads lines)%list
    /\ server (forward json_loads lines w)
       = skipn (List.length (stdin_requests json_loads lines)) (server w)
    /\ (List.length out <= List.length (stdin_requests json_loads lines))%nat
    /\ (Forall (fun r => is_dict r = true) (stdin_requests json_loads lines) ->
        List.length out = List.length (stdin_requests json_loads lines))
    /\ passed_on out
       = bodies_200 (firstn (List.length (stdin_requests json_loads lines))
                       (server w))
    /\ Forall body_or_error out.
Proof.
  induction lines as [|line rest IH]; intros w.
  { exists []. simpl. rewrite !app_nil_r. repeat split; auto. }
  cbn [forward stdin_requests].
  destruct (String.eqb line "").
  { exists []. simpl. rewrite !app_nil_r. repeat split; auto. }
  destruct (json_loads (Py.strip line)) as [request|].
  2:{ destruct (IH (log_error "Invalid JSON" w)) as (out & H). exists out.
      exact H. }
  unfold post.
  destruct (server w) as [|reply later] eqn:Hsrv.
  - destruct (IH (write (Document (error_response
                                     ("Connection error: " ++ "connection refused")
                                     JNull))
                    (log_error "HTTP request failed"
                       (mkWorld [] (posted w ++ [request]) (stdout w) (errors w)))))
      as (out & Hout & Hposted & Hserver & Hle & Heq & Hpass & Hall).
    cbn [write log_error stdout posted server] in *.
    exists (Document (error_response
                        ("Connection error: " ++ "connection refused") JNull)
            :: out).
    rewrite Hout, Hposted, Hserver, <- !app_assoc.
    rewrite skipn_nil in *. rewrite firstn_nil in *.
    cbn [List.length app firstn skipn passed_on bodies_200 flat_map] in *.
    repeat split; auto; try lia.
    + intros Hd. inversion Hd; subst. rewrite Heq; auto.
    + constructor; [|exact Hall]. simpl. eauto.
  - destruct reply as [text|status_code text].
    + destruct (IH (write (Document (error_response
                                       ("Connection error: " ++ text) JNull))
                      (log_error "HTTP request failed"
                         (mkWorld later (posted w ++ [request]) (stdout w)
                            (errors w)))))
        as (out & Hout & Hposted & Hserver & Hle & Heq & Hpass & Hall).
      cbn [write log_error stdout posted server] in *.
      exists (Document (error_response ("Connection error: " ++ text) JNull)
              :: out).
      rewrite Hout, Hposted, Hserver, <- !app_assoc.
      cbn [List.length app firstn skipn passed_on bodies_200 flat_map] in *.
      repeat split; auto; try lia.
      * intros Hd. inversion Hd; subst. rewrite Heq; auto.
      * constructor; [|exact Hall]. simpl. eauto.
    + destruct (Z.eqb_spec status_code 200) as [H200|H200].
      * destruct (IH (write (Text text)
                        (mkWorld later (posted w ++ [request]) (stdout w)
                           (errors w))))
          as (out & Hout & Hposted & Hserver & Hle & Heq & Hpass & Hall).
        cbn [write log_error stdout posted server] in *.
        exists (Text text :: out).
        rewrite Hout, Hposted, Hserver, <- !app_assoc.
        cbn [List.length app firstn skipn passed_on bodies_200 flat_map] in *.
        subst status_code. cbn [Z.eqb Pos.eqb].
        repeat split; auto; try lia.
        { intros Hd. inversion Hd; subst. rewrite Heq; auto. }
        { cbn [app]. f_equal. exact Hpass. }
        { constructor; [exact I|exact Hall]. }
      * assert (Hne : (status_code =? 200) = false) by (apply Z.eqb_neq; exact H200).
        destruct (py_get "id" request) as [id|e] eqn:Hid.
        { destruct (IH (write (Document (error_response
                                           ("HTTP error: " ++ decimal status_code)
                                           id))
                          (mkWorld later (posted w ++ [request]) (stdout w)
                             (errors w))))
            as (out & Hout & Hposted & Hserver & Hle & Heq & Hpass & Hall).
          cbn [write log_error stdout posted server] in *.
          exists (Document (error_response
                              ("HTTP error: " ++ decimal status_code) id)
                  :: out).
          rewrite Hout, Hposted, Hserver, <- !app_assoc.
          cbn [List.length app firstn skipn passed_on bodies_200 flat_map] in *.
          rewrite Hne.
          repeat split; auto; try lia.
          - intros Hd. inversion Hd; subst. rewrite Heq; auto.
          - constructor; [|exact Hall]. simpl. eauto. }
        { destruct (IH (log_error "Unexpected error"
                          (mkWorld later (posted w ++ [request]) (stdout w)
                             (errors w))))
            as (out & Hout & Hposted & Hserver & Hle & Heq & Hpass & Hall).
          cbn [write log_error stdout posted server] in *.
          exists out.
          rewrite Hout, Hposted, Hserver, <- !app_assoc.
          cbn [List.length app firstn skipn passed_on bodies_200 flat_map] in *.
          rewrite Hne.
          repeat split; auto; try lia.
          intros Hd. inversion Hd as [|? ? Hreq Hrest]; subst.
          destruct request; discriminate. }
Qed.

End BridgeLoop.

(** X18: the bridge started with one argument exits with status 0 at the
    end of its input, having handed every line that decodes to
    [requests.post], once, in order and as decoded - whatever the server
    answered.  It writes at most one line per request, and exactly one when
    the requests are dicts.  Started with another number of arguments it
    exits with status 1 and does nothing. *)
Theorem X18_bridge_forwards_each_request_once : forall json_loads argv lines w,
  (List.length argv <> 2%nat ->
   Bridge.main json_loads argv lines w = (w, 1))
  /\ (List.length argv = 2%nat ->
      snd (Bridge.main json_loads argv lines w) = 0
      /\ Bridge.posted (fst (Bridge.main json_loads argv lines w))
         = (Bridge.posted w ++ stdin_requests json_loads lines)%list
      /\ exists out,
           Bridge.stdout (fst (Bridge.main json_loads argv lines w))
           = (Bridge.stdout w ++ out)%list
           /\ (List.length out
               <= List.length (stdin_requests json_loads lines))%nat
           /\ (Forall (fun r => is_dict r = true)
                 (stdin_requests json_loads lines) ->
               List.length out
               = List.length (stdin_requests json_loads lines))).
Proof.
  intros json_loads argv lines w. unfold Bridge.main. split.
  - intros Hne. apply Nat.eqb_neq in Hne. rewrite Hne. reflexivity.
  - intros Heq. apply Nat.eqb_eq in Heq. rewrite Heq. cbn [negb fst snd].
    destruct (forward_spec json_loads lines w)
      as (out & Hout & Hposted & _ & Hle & Hlen & _).
    split; [reflexivity|]. split; [exact Hposted|].
    exists out. auto.
Qed.

Lemma X18_bridge_forwards_witness :
  Bridge.posted
    (fst (Bridge.main JsonRef.json_loads_ref ["bridge"; "http://localhost:8080"]
            [reply_1_text ++ Py.nl; "not json" ++ Py.nl; reply_2_text ++ Py.nl]
            (Bridge.mkWorld [Bridge.Response 500 "down"] [] [] [])))
  = stdin_requests JsonRef.json_loads_ref
      [reply_1_text ++ Py.nl; "not json" ++ Py.nl; reply_2_text ++ Py.nl].
Proof.
  exact (proj1 (proj2 (proj2
    (X18_bridge_forwards_each_request_once JsonRef.json_loads_ref
       ["bridge"; "http://localhost:8080"]
       [reply_1_text ++ Py.nl; "not json" ++ Py.nl; reply_2_text ++ Py.nl]
       (Bridge.mkWorld [Bridge.Response 500 "down"] [] [] [])) eq_refl))).
Defined.

(** X19: what the bridge writes.  The bodies of the responses with status
    200 are passed on as they came, in the order of the requests; every
    other line it writes is an error document of its own, with code
    -32603.  One scripted response is used up per request. *)
Theorem X19_bridge_passes_bodies_on : forall json_loads lines w,
  exists out,
    Bridge.stdout (Bridge.forward json_loads lines w)
    = (Bridge.stdout w ++ out)%list
    /\ passed_on out
       = bodies_200 (firstn (List.length (stdin_requests json_loads lines))
                       (Bridge.server w))
    /\ Forall body_or_error out
    /\ Bridge.server (Bridge.forward json_loads lines w)
       = skipn (List.length (stdin_requests json_loads lines)) (Bridge.server w).
Proof.
  intros json_loads lines w.
  destruct (forward_spec json_loads lines w)
    as (out & Hout & _ & Hserver & _ & _ & Hpass & Hall).
  exists out. auto.
Qed.

(** ** The todo hook and its session scripts *)

Lemma contains_list : forall k l,
  Forall (fun x => is_hook_key x = false) l ->
  In k hook_keys ->
  Hook.contains k (JArr l) = Return false.
Proof.
  intros k l Hall Hk. unfold Hook.contains, py_contains.
  replace (existsb _ l) with false; [reflexivity|].
  symmetry. induction Hall as [|x rest Hx Hrest IH]; [reflexivity|].
  simpl. rewrite IH, orb_false_r.
  destruct x; try reflexivity. simpl in Hx.
  destruct Hk as [<-|[<-|[<-|[]]]];
    repeat (apply orb_false_iff in Hx; destruct Hx as [? Hx]); assumption.
Qed.

(** X20: the todos that the hook takes from its input.  In a dict,
    [tool_input] goes before [arguments], which goes before [todos]; of the
    first two the [todos] member is taken, the empty list when there is
    none, and a member that is no dict raises.  A list is taken as the todo
    list itself when none of its elements is one of those three strings
    (otherwise the list is subscripted with a string, a [TypeError]). *)
Theorem X20_hook_input_formats : forall tool_call,
  (forall kv input,
      tool_call = JObj kv -> assoc_get "tool_input" kv = Some input ->
      Hook.extract_todos tool_call = Content.get_or "todos" (JArr []) input)
  /\ (forall kv arguments,
      tool_call = JObj kv -> assoc_get "tool_input" kv = None ->
      assoc_get "arguments" kv = Some arguments ->
      Hook.extract_todos tool_call = Content.get_or "todos" (JArr []) arguments)
  /\ (forall kv,
      tool_call = JObj kv -> assoc_get "tool_input" kv = None ->
      assoc_get "arguments" kv = None ->
      Hook.extract_todos tool_call
      = Return (match assoc_get "todos" kv with Some t => t | None => JArr [] end))
  /\ (forall l,
      tool_call = JArr l ->
      (Forall (fun x => is_hook_key x = false) l ->
       Hook.extract_todos tool_call = Return (JArr l))
      /\ (Exists (fun x => is_hook_key x = true) l ->
          Hook.extract_todos tool_call = Throw (Builtin TypeError))).
Proof.
  intros tool_call. split; [|split; [|split]].
  - intros kv input -> Hin. unfold Hook.extract_todos. simpl. rewrite Hin.
    reflexivity.
  - intros kv arguments -> Hin Harg. unfold Hook.extract_todos. simpl.
    rewrite Hin, Harg. reflexivity.
  - intros kv -> Hin Harg. unfold Hook.extract_todos. simpl.
    rewrite Hin, Harg. destruct (assoc_get "todos" kv); reflexivity.
  - intros l ->. split.
    + intros Hall. unfold Hook.extract_todos.
      rewrite !contains_list by (simpl; auto). reflexivity.
    + intros Hex. unfold Hook.extract_todos, Hook.contains, py_contains.
      set (has := fun k =>
        existsb (fun x => match x with JStr s => String.eqb s k | _ => false end) l).
      fold (has "tool_input"). fold (has "arguments"). fold (has "todos").
      assert (Hsome : has "tool_input" = true \/ has "arguments" = true
                      \/ has "todos" = true).
      { unfold has. apply Exists_exists in Hex. destruct Hex as (x & Hin & Hx).
        destruct x; try discriminate. simpl in Hx.
        rewrite !orb_true_iff in Hx.
        destruct Hx as [Hx|[Hx|[Hx|Hx]]]; try discriminate.
        - left. apply existsb_exists. exists (JStr s). auto.
        - right. left. apply existsb_exists. exists (JStr s). auto.
        - right. right. apply existsb_exists. exists (JStr s). auto. }
      destruct (has "tool_input"); [reflexivity|].
      destruct (has "arguments"); [reflexivity|].
      destruct (has "todos"); [reflexivity|].
      destruct Hsome as [H|[H|H]]; discriminate.
Qed.

Lemma X20_hook_input_witness :
  Hook.extract_todos
    (JObj [("todos", JArr [JStr "direct"]);
           ("tool_input", JObj [("todos", JArr [JStr "from the tool"])])])
  = Content.get_or "todos" (JArr []) (JObj [("todos", JArr [JStr "from the tool"])]).
Proof.
  exact (proj1 (X20_hook_input_formats _)
           [("todos", JArr [JStr "direct"]);
            ("tool_input", JObj [("todos", JArr [JStr "from the tool"])])]
           (JObj [("todos", JArr [JStr "from the tool"])]) eq_refl eq_refl).
Defined.

(** X21: when [init_session] succeeds, the server answered its first
    request, and the session file holds the [Mcp-Session-Id] of that answer
    (or [stateless] when the header is absent or empty) and the server URL;
    [load_session_id] of the hook then yields exactly that URL and id,
    whatever the environment.  The [initialized] notification is sent,
    under that id, exactly when the first answer names a session.  When
    [init_session] fails the file is as it was. *)
Theorem X21_saved_session_is_the_one_loaded : forall url created pid w w' ok,
  Hook.init_session url created pid w = (w', ok) ->
  (ok = false -> Hook.file w' = Hook.file w)
  /\ (ok = true ->
      exists status header body later,
        Hook.server w = Hook.Response status header body :: later
        /\ Hook.file w'
           = Hook.Doc (Hook.session_info (kept_session_id header) url created pid)
        /\ (forall default_url env_id,
            Hook.load_session_id (Hook.file w') default_url env_id
            = (JStr url, JStr (kept_session_id header)))
        /\ Hook.posted w'
           = (Hook.posted w
              ++ Hook.mkSent None Hook.initialize_body
                 :: (if names_session header
                     then [Hook.mkSent (Some (JStr (kept_session_id header)))
                             Hook.initialized_body]
                     else []))%list).
Proof.
  intros url created pid w w' ok. unfold Hook.init_session, Hook.post.
  destruct (Hook.server w) as [|[|status sid body] later].
  - intros H; inversion H; subst. split; [reflexivity|discriminate].
  - intros H; inversion H; subst. split; [reflexivity|discriminate].
  - assert (Hstateless :
      kept_session_id sid = "stateless" -> names_session sid = false ->
      (match Hook.save (Hook.session_info "stateless" url created pid)
               (Hook.mkWorld later
                  (Hook.posted w ++ [Hook.mkSent None Hook.initialize_body])
                  (Hook.file w) (Hook.writable w)) with
       | Some w0 => (w0, true)
       | None => (Hook.mkWorld later
                    (Hook.posted w ++ [Hook.mkSent None Hook.initialize_body])
                    (Hook.file w) (Hook.writable w), false)
       end) = (w', ok) ->
      (ok = false -> Hook.file w' = Hook.file w)
      /\ (ok = true ->
          exists status0 header body0 later0,
            Hook.Response status sid body :: later
            = Hook.Response status0 header body0 :: later0
            /\ Hook.file w'
               = Hook.Doc (Hook.session_info (kept_session_id header) url
                             created pid)
            /\ (forall default_url env_id,
                Hook.load_session_id (Hook.file w') default_url env_id
                = (JStr url, JStr (kept_session_id header)))
            /\ Hook.posted w'
               = (Hook.posted w
                  ++ Hook.mkSent None Hook.initialize_body
                     :: (if names_session header
                         then [Hook.mkSent
                                 (Some (JStr (kept_session_id header)))
                                 Hook.initialized_body]
                         else []))%list)).
    { intros Hk Hn. unfold Hook.save. cbn [Hook.writable Hook.server Hook.posted].
      destruct (Hook.writable w); intros H; inversion H; subst;
        (split; [try reflexivity; discriminate|]); try discriminate.
      intros _. exists status, sid, body, later. cbn [Hook.file Hook.posted].
      rewrite Hk, Hn. auto. }
    destruct sid as [s|]; [|apply Hstateless; reflexivity].
    destruct (String.eqb_spec s "") as [He|Hne].
    { subst s. apply Hstateless; reflexivity. }
    assert (Hk : kept_session_id (Some s) = s).
    { simpl. apply String.eqb_neq in Hne. rewrite Hne. reflexivity. }
    assert (Hn : names_session (Some s) = true).
    { simpl. apply String.eqb_neq in Hne. rewrite Hne. reflexivity. }
    cbn [Hook.server Hook.posted Hook.file Hook.writable].
    destruct later as [|[|status2 sid2 body2] later2].
    + intros H; inversion H; subst. split; [reflexivity|discriminate].
    + intros H; inversion H; subst. split; [reflexivity|discriminate].
    + unfold Hook.save. cbn [Hook.writable Hook.server Hook.posted].
      destruct (Hook.writable w); intros H; inversion H; subst;
        (split; [try reflexivity; discriminate|]); try discriminate.
      intros _. exists status, (Some s), body.
      eexists. cbn [Hook.file Hook.posted]. rewrite Hk, Hn.
      split; [reflexivity|]. split; [reflexivity|]. split; [reflexivity|].
      rewrite <- app_assoc. reflexivity.
Qed.

Lemma X21_saved_session_witness :
  Hook.load_session_id
    (Hook.Doc (Hook.session_info "s-1" "http://localhost:1818" "2025-01-01T00:00:00" 42))
    (JStr "http://10.11.12.70:1818") (Some "from-the-environment")
  = (JStr "http://localhost:1818", JStr "s-1").
Proof.
  destruct (X21_saved_session_is_the_one_loaded
              "http://localhost:1818" "2025-01-01T00:00:00" 42
              (Hook.mkWorld [Hook.Response 200 (Some "s-1") None;
                             Hook.Response 202 None None] [] Hook.Absent true)
              _ _ eq_refl) as [_ H].
  destruct (H eq_refl) as (status & header & body & later & Hsrv & _ & Hload & _).
  inversion Hsrv; subst header.
  exact (Hload (JStr "http://10.11.12.70:1818") (Some "from-the-environment")).
Defined.

(** X22: [init_session] does not look at status codes or bodies: when the
    session file can be written and the server answers the (at most two)
    requests at all, it succeeds - also when every answer is an error. *)



Section HookClose.

Import Hook.

Lemma mark_inactive_frame : forall session_id stamp nodes i w,
  file (mark_inactive session_id stamp i nodes w) = file w
  /\ writable (mark_inactive session_id stamp i nodes w) = writable w
  /\ exists sent,
       posted (mark_inactive session_id stamp i nodes w) = (posted w ++ sent)%list
       /\ (List.length sent <= List.length nodes)%nat
       /\ Forall (fun s => sent_session s = Some session_id) sent.
Proof.
  intros session_id stamp. induction nodes as [|node rest IH]; intros i w.
  - simpl. repeat split; auto. exists []. rewrite app_nil_r. auto.
  - cbn [mark_inactive]. destruct (subscript "name" node) as [name|e].
    2:{ repeat split; auto. exists []. rewrite app_nil_r. simpl.
        repeat split; auto; lia. }
    unfold post.
    destruct (server w) as [|[|status sid body] later].
    + cbn [file writable posted]. repeat split; auto.
      eexists. split; [reflexivity|]. simpl. split; [lia|].
      repeat constructor.
    + cbn [file writable posted]. repeat split; auto.
      eexists. split; [reflexivity|]. simpl. split; [lia|].
      repeat constructor.
    + match goal with
      | |- context [mark_inactive _ _ _ rest ?w1] =>
          destruct (IH (S i) w1) as (Hf & Hw & sent & Hp & Hlen & Hall)
      end.
      cbn [file writable posted] in *.
      split; [exact Hf|]. split; [exact Hw|].
      eexists. rewrite Hp, <- app_assoc. split; [reflexivity|].
      simpl. split; [lia|]. constructor; [reflexivity|exact Hall].
Qed.

Lemma update_status_frame : forall session_id today stamp w,
  file (update_status session_id today stamp w) = file w
  /\ writable (update_status session_id today stamp w) = writable w
  /\ exists sent,
       posted (update_status session_id today stamp w) = (posted w ++ sent)%list
       /\ Forall (fun s => sent_session s = Some session_id) sent.
Proof.
  intros session_id today stamp w. unfold update_status.
  assert (Hnone : file w = file w /\ writable w = writable w
                  /\ exists sent, posted w = (posted w ++ sent)%list
                       /\ Forall (fun s => sent_session s = Some session_id) sent).
  { repeat split. exists []. rewrite app_nil_r. auto. }
  destruct session_id as [| | |sid| |]; try exact Hnone.
  unfold post.
  set (s := mkSent (Some (JStr sid)) (search_body today)).
  assert (Hone : forall later,
    file (mkWorld later (posted w ++ [s]) (file w) (writable w)) = file w
    /\ writable (mkWorld later (posted w ++ [s]) (file w) (writable w))
       = writable w
    /\ exists sent,
         posted (mkWorld later (posted w ++ [s]) (file w) (writable w))
         = (posted w ++ sent)%list
         /\ Forall (fun s => sent_session s = Some (JStr sid)) sent).
  { intros later. cbn [file writable posted]. repeat split.
    exists [s]. split; [reflexivity|]. repeat constructor. }
  destruct (server w) as [|[|status hsid body] later]; try apply Hone.
  destruct (status =? 200); [|apply Hone].
  destruct body as [result|]; [|apply Hone].
  destruct (Content.get_or "result" (JObj []) result) as [res|e]; [|apply Hone].
  destruct (Content.get_or "entities" (JArr []) res) as [[| | | |nodes|]|e];
    try apply Hone.
  match goal with
  | |- context [mark_inactive ?a ?b ?c ?d ?w1] =>
      destruct (mark_inactive_frame a b d c w1)
        as (Hf & Hw & sent & Hp & _ & Hall)
  end.
  cbn [file writable posted] in *.
  split; [exact Hf|]. split; [exact Hw|].
  exists (s :: sent). rewrite Hp, <- app_assoc. split; [reflexivity|].
  constructor; [reflexivity|exact Hall].
Qed.

End HookClose.

(** X23: [close_session] reports success exactly when no session file is
    left, and when it fails the file is as it was.  Nothing the server does
    changes that: a session file with a session id and a URL is removed
    (where it can be) whether the server answers, raises or sends nonsense.
    Every request made on the way carries the session id of the file, and
    without a session file nothing is sent. *)
Theorem X23_close_session_removes_the_file : forall today stamp w w' ok,
  Hook.close_session today stamp w = (w', ok) ->
  (ok = true <-> Hook.file w' = Hook.Absent)
  /\ (ok = false -> Hook.file w' = Hook.file w)
  /\ (Hook.file w = Hook.Absent -> Hook.posted w' = Hook.posted w)
  /\ (forall info sid url,
      Hook.file w = Hook.Doc info ->
      py_get "session_id" info = Ok sid -> truthy sid = true ->
      py_get "server_url" info = Ok url -> truthy url = true ->
      ok = Hook.writable w
      /\ exists sent,
           Hook.posted w' = (Hook.posted w ++ sent)%list
           /\ Forall (fun s => Hook.sent_session s = Some sid) sent).
Proof.
  intros today stamp w w' ok. unfold Hook.close_session.
  destruct (Hook.file w) as [| |info] eqn:Hfile.
  - intros H; inversion H; subst. rewrite Hfile.
    split; [tauto|]. split; [discriminate|]. split; [reflexivity|].
    discriminate.
  - intros H; inversion H; subst. rewrite Hfile.
    split; [split; discriminate|]. split; [reflexivity|].
    split; discriminate.
  - assert (Hfail : forall (contra : forall sid url,
                       py_get "session_id" info = Ok sid -> truthy sid = true ->
                       py_get "server_url" info = Ok url -> truthy url = true ->
                       False),
      (false = true <-> Hook.Doc info = Hook.Absent)
      /\ (false = false -> Hook.Doc info = Hook.Doc info)
      /\ (Hook.Doc info = Hook.Absent -> Hook.posted w = Hook.posted w)
      /\ (forall info0 sid url,
          Hook.Doc info = Hook.Doc info0 ->
          py_get "session_id" info0 = Ok sid -> truthy sid = true ->
          py_get "server_url" info0 = Ok url -> truthy url = true ->
          false = Hook.writable w
          /\ exists sent,
               Hook.posted w = (Hook.posted w ++ sent)%list
               /\ Forall (fun s => Hook.sent_session s = Some sid) sent)).
    { intros contra. split; [split; discriminate|]. split; [reflexivity|].
      split; [reflexivity|].
      intros info0 sid url Hi Hs Ht Hu Htu. inversion Hi; subst info0.
      exfalso. eapply contra; eauto. }
    destruct (py_get "session_id" info) as [session_id|e] eqn:Hsid.
    2:{ intros H; inversion H; subst. rewrite Hfile. apply Hfail.
        intros sid url Hs. discriminate. }
    destruct (py_get "server_url" info) as [server_url|e] eqn:Hurl.
    2:{ intros H; inversion H; subst. rewrite Hfile. apply Hfail.
        intros sid url _ _ Hu. discriminate. }
    destruct (negb (truthy session_id) || negb (truthy server_url))%bool eqn:Hbad.
    { intros H; inversion H; subst. rewrite Hfile. apply Hfail.
      intros sid url Hs Ht Hu Htu. inversion Hs; inversion Hu; subst.
      rewrite Ht, Htu in Hbad. discriminate. }
    clear Hfail.
    destruct (update_status_frame session_id today stamp w)
      as (Hf & Hw & sent & Hp & Hall).
    destruct (Hook.writable (Hook.update_status session_id today stamp w))
      eqn:Hwr; intros H; inversion H; subst; cbn [Hook.file Hook.posted].
    + split; [tauto|]. split; [discriminate|]. split; [discriminate|].
      intros info0 sid url Hi Hs Ht Hu Htu. inversion Hi; subst info0.
      rewrite Hs in Hsid. inversion Hsid; subst session_id.
      split; [congruence|]. exists sent. auto.
    + rewrite Hf, Hfile. split; [split; discriminate|].
      split; [reflexivity|]. split; [discriminate|].
      intros info0 sid url Hi Hs Ht Hu Htu. inversion Hi; subst info0.
      rewrite Hs in Hsid. inversion Hsid; subst session_id.
      split; [congruence|]. exists sent. auto.
Qed.

Lemma X23_close_session_witness :
  true = true <-> Hook.file
    (fst (Hook.close_session "2025-01-01" (fun _ => "2025-01-01T00:00:00")
            (Hook.mkWorld [Hook.RequestException] []
               (Hook.Doc (Hook.session_info "s-1" "http://localhost:1818"
                            "2025-01-01T00:00:00" 42))
               true)))
  = Hook.Absent.
Proof.
  exact (proj1
    (X23_close_session_removes_the_file "2025-01-01"
       (fun _ => "2025-01-01T00:00:00")
       (Hook.mkWorld [Hook.RequestException] []
          (Hook.Doc (Hook.session_info "s-1" "http://localhost:1818"
                       "2025-01-01T00:00:00" 42))
          true)
       _ true eq_refl)).
Defined.

(** ** The stdio client: when a wait ends *)

Section StdioDeadline.

Variable json_loads : string -> option Json.

Import Stdio.

Lemma complete_by_ge : forall reads t0, t0 <= complete_by t0 reads.
Proof.
  induction reads as [|r rest IH]; intros t0; simpl; [lia|].
  destruct (done_at r) as [d|].
  - specialize (IH (Z.max t0 d)). lia.
  - apply IH.
Qed.

Lemma complete_by_mono : forall reads a b,
  a <= b -> complete_by a reads <= complete_by b reads.
Proof.
  induction reads as [|r rest IH]; intros a b Hab; simpl; [exact Hab|].
  destruct (done_at r) as [d|]; apply IH; lia.
Qed.

Lemma complete_by_app : forall l l' t0,
  complete_by t0 (l ++ l') = complete_by (complete_by t0 l) l'.
Proof.
  induction l as [|r rest IH]; intros l' t0; simpl; [reflexivity|]. apply IH.
Qed.

Lemma select_time : forall timeout w b w1,
  0 <= timeout ->
  select timeout w = (b, w1) ->
  now w <= now w1 <= now w + timeout.
Proof.
  intros timeout w b w1 Hpos. unfold select, arrives_within.
  destruct (available_at w) as [t|].
  - destruct (Z.leb_spec t (now w)); cbn [orb].
    + intros Hsel; inversion Hsel; subst. cbn [set_now now]. lia.
    + destruct (Z.ltb_spec t (now w + timeout));
        intros Hsel; inversion Hsel; subst; cbn [set_now now]; lia.
  - intros Hsel; inversion Hsel; subst. cbn [set_now now]. lia.
Qed.

(** A read ends within its timeout, or when the line it reads is
    complete. *)
Lemma _read_msgs_once_time : forall timeout w w1 r,
  0 <= timeout ->
  _read_msgs_once json_loads timeout w = Some (w1, r) ->
  now w <= now w1
  /\ exists consumed,
       pipe w = (consumed ++ pipe w1)%list
       /\ now w1 <= complete_by (now w + timeout) consumed.
Proof.
  intros timeout w w1 r Hpos. unfold _read_msgs_once.
  destruct (Z.ltb_spec timeout 0); [lia|].
  destruct (select timeout w) as [rl wa] eqn:Hsel.
  pose proof (select_time timeout w rl wa Hpos Hsel) as Htime.
  apply select_frame in Hsel. destruct Hsel as (Hp & _).
  destruct rl; cbn [negb].
  2:{ intros Hr; inversion Hr; subst. split; [lia|].
      exists []. rewrite Hp. simpl. split; [reflexivity|lia]. }
  unfold readline. rewrite <- Hp.
  destruct (pipe wa) as [|rd rest] eqn:Hpipe.
  { cbn [String.eqb]. intros Hr; inversion Hr; subst. split; [lia|].
    exists []. rewrite Hpipe. simpl. split; [reflexivity|lia]. }
  destruct (done_at rd) as [d|] eqn:Hd; [|discriminate].
  assert (Hnow : forall wb,
    wb = mkWorld (Z.max (now wa) d) rest (closed_at wa) (stdin_open wa)
           (written wa) ->
    now w <= now wb
    /\ exists consumed,
         rd :: rest = (consumed ++ pipe wb)%list
         /\ now wb <= complete_by (now w + timeout) consumed).
  { intros wb ->. cbn [now pipe]. split; [lia|].
    exists [rd]. split; [reflexivity|]. simpl. rewrite Hd. lia. }
  destruct (String.eqb (text rd) "");
    [|destruct (json_loads (text rd)) as [[]|]];
    intros Hr; inversion Hr; subst; apply Hnow; reflexivity.
Qed.

Lemma await_loop_time : forall fuel req_id deadline c w c' w' r,
  await_loop json_loads fuel req_id deadline c w = Some (c', w', r) ->
  now w <= now w'
  /\ exists consumed,
       pipe w = (consumed ++ pipe w')%list
       /\ now w' <= complete_by (Z.max (now w) deadline) consumed.
Proof.
  induction fuel as [|fuel IH]; intros req_id deadline c w c' w' r;
    cbn [await_loop]; [discriminate|].
  destruct (Z.ltb_spec (now w) deadline) as [Hlt|Hge].
  2:{ intros Hr; inversion Hr; subst. split; [lia|]. exists [].
      simpl. split; [reflexivity|lia]. }
  destruct (_read_msgs_once json_loads _ w) as [[w1 r1]|] eqn:Hread;
    [|discriminate].
  apply _read_msgs_once_time in Hread; [|lia].
  destruct Hread as (Htime & consumed & Hpipe & Hby).
  replace (now w + Z.max 0 (deadline - now w)) with (Z.max (now w) deadline)
    in Hby by lia.
  assert (Hhere : now w <= now w1
                  /\ exists consumed,
                       pipe w = (consumed ++ pipe w1)%list
                       /\ now w1 <= complete_by (Z.max (now w) deadline) consumed).
  { split; [lia|]. exists consumed. auto. }
  destruct r1 as [msgs|e].
  2:{ intros Hr; inversion Hr; subst. exact Hhere. }
  destruct (scan_msgs req_id msgs (_notifications c)) as [notes found].
  destruct found as [[msg|]|e].
  - intros Hr; inversion Hr; subst. exact Hhere.
  - intros Hr. apply IH in Hr. destruct Hr as (Ht2 & consumed2 & Hpipe2 & Hby2).
    split; [lia|]. exists (consumed ++ consumed2)%list.
    rewrite Hpipe, Hpipe2, app_assoc. split; [reflexivity|].
    rewrite complete_by_app.
    eapply Z.le_trans; [exact Hby2|]. apply complete_by_mono.
    pose proof (complete_by_ge consumed (Z.max (now w) deadline)). lia.
  - intros Hr; inversion Hr; subst. exact Hhere.
Qed.

End StdioDeadline.

(** X24: when a wait of the stdio client ends.  It ends when every read of
    the server's output returns.  When it ends the clock has not gone back,
    what was read was taken from the front of the server's output with
    nothing skipped, and the wait is over by its deadline, or by the time
    the lines it read were complete when that is later: the wait for input
    is cut to what is left of the timeout, the reading of a line is not.  A
    timeout that is not positive ends the wait at once, with nothing
    read. *)
Theorem X24_stdio_wait_ends_when_its_reads_return :
  forall json_loads req_id timeout c w,
    (reads_return w ->
     exists c' w' r,
       Stdio._await_response json_loads req_id timeout c w = Some (c', w', r))
    /\ (forall c' w' r,
        Stdio._await_response json_loads req_id timeout c w = Some (c', w', r) ->
        Stdio.now w <= Stdio.now w'
        /\ exists consumed,
             Stdio.pipe w = (consumed ++ Stdio.pipe w')%list
             /\ Stdio.now w'
                <= complete_by (Stdio.now w + Z.max 0 timeout) consumed)
    /\ (timeout <= 0 ->
        Stdio._await_response json_loads req_id timeout c w
        = Some (c, w, Raise (TimeoutError "No response for id within timeout"))).
Proof.
  intros json_loads req_id timeout c w. split; [|split].
  - apply _await_response_total.
  - intros c' w' r Hret.
    unfold Stdio._await_response in Hret. apply await_loop_time in Hret.
    destruct Hret as (Htime & consumed & Hpipe & Hby).
    split; [exact Htime|]. exists consumed. split; [exact Hpipe|].
    eapply Z.le_trans; [exact Hby|]. apply complete_by_mono. lia.
  - intros Hneg. unfold Stdio._await_response. cbn [Stdio.await_loop].
    destruct (Z.ltb_spec (Stdio.now w) (Stdio.now w + timeout)); [lia|].
    reflexivity.
Qed.

(** A reply whose line is complete 1.5 s after the wait began, for a
    timeout of 0.5 s. *)
Lemma X24_stdio_wait_witness :
  reads_return stdio_slow_line
  /\ exists c' w' r,
       Stdio._await_response JsonRef.json_loads_ref 1 500 Stdio.init
         stdio_slow_line
       = Some (c', w', r).
Proof.
  assert (R : reads_return stdio_slow_line)
    by (repeat constructor; discriminate).
  split; [exact R|].
  exact (proj1 (X24_stdio_wait_ends_when_its_reads_return JsonRef.json_loads_ref
                  1 500 Stdio.init stdio_slow_line) R).
Defined.

(** ** Waiting for the port *)

Section PortWait.

Import Port.

Lemma create_connection_spec : forall w connected w1,
  create_connection w = (connected, w1) ->
  now w <= now w1 <= now w + 200
  /\ (connected = true ->
      exists d, attempts w = (d, true) :: attempts w1 /\ d < 200)
  /\ (connected = false ->
      (attempts w = [] /\ attempts w1 = [])
      \/ exists a, attempts w = a :: attempts w1 /\ attempt_fails a).
Proof.
  intros w connected w1. unfold create_connection.
  destruct (attempts w) as [|[d accepted] later] eqn:Hatt.
  - intros Hc; inversion Hc; subst. split; [lia|]. split; [discriminate|].
    intros _. left. auto.
  - destruct (Z.leb_spec 200 d) as [Hslow|Hfast].
    + intros Hc; inversion Hc; subst. cbn [now attempts].
      split; [lia|]. split; [discriminate|].
      intros _. right. exists (d, accepted). split; [reflexivity|].
      left. exact Hslow.
    + intros Hc; inversion Hc; subst. cbn [now attempts].
      split; [lia|]. split.
      * intros ->. exists d. auto.
      * intros ->. right. exists (d, false). split; [reflexivity|].
        right. reflexivity.
Qed.

Lemma wait_loop_total : forall fuel deadline w,
  deadline - now w <= 50 * Z.of_nat fuel ->
  exists w' r, wait_loop fuel deadline w = Some (w', r).
Proof.
  induction fuel as [|fuel IH]; intros deadline w Hfuel; cbn [wait_loop].
  - destruct (Z.ltb_spec (now w) deadline); [lia|eauto].
  - destruct (now w <? deadline); [|eauto].
    destruct (create_connection w) as [connected w1] eqn:Hc.
    apply create_connection_spec in Hc. destruct Hc as (Htime & _).
    destruct connected; [eauto|].
    apply IH. unfold sleep_50ms. cbn [now]. lia.
Qed.

Lemma wait_loop_spec : forall fuel deadline w w' r,
  wait_loop fuel deadline w = Some (w', r) ->
  now w <= now w'
  /\ (now w' = now w \/ now w' < deadline + 250)
  /\ exists tried,
       Forall attempt_fails tried
       /\ match r with
          | Ok _ =>
              exists d, attempts w = (tried ++ (d, true) :: attempts w')%list
                        /\ d < 200
          | Raise e =>
              e = TimeoutError "Timeout waiting for port"
              /\ deadline <= now w'
              /\ (attempts w = (tried ++ attempts w')%list)
          end.
Proof.
  induction fuel as [|fuel IH]; intros deadline w w' r; cbn [wait_loop].
  - destruct (Z.ltb_spec (now w) deadline) as [Hlt|Hge]; [discriminate|].
    intros Hr; inversion Hr; subst. split; [lia|]. split; [auto|].
    exists []. split; [constructor|]. auto.
  - destruct (Z.ltb_spec (now w) deadline) as [Hlt|Hge].
    2:{ intros Hr; inversion Hr; subst. split; [lia|]. split; [auto|].
        exists []. split; [constructor|]. auto. }
    destruct (create_connection w) as [connected w1] eqn:Hc.
    apply create_connection_spec in Hc.
    destruct Hc as (Htime & Hyes & Hno).
    destruct connected.
    + intros Hr; inversion Hr; subst. split; [lia|]. split; [right; lia|].
      exists []. split; [constructor|].
      destruct (Hyes eq_refl) as (d & Hd & Hfast). exists d. auto.
    + intros Hr. apply IH in Hr. unfold sleep_50ms in Hr. cbn [now attempts] in Hr.
      destruct Hr as (Hn & Hbound & tried & Hfail & Hres).
      split; [lia|]. split; [right; lia|].
      destruct (Hno eq_refl) as [[Hnil Hnil1]|(a & Ha & Hafail)].
      * exists tried. split; [exact Hfail|].
        rewrite Hnil. rewrite Hnil1 in Hres. exact Hres.
      * exists (a :: tried). split; [constructor; assumption|].
        rewrite Ha. destruct r as [u|e].
        { destruct Hres as (d & Hd & Hfast). exists d. rewrite Hd. auto. }
        { destruct Hres as (He & Hdl & Hatt). rewrite Hatt at 1. auto. }
Qed.

End PortWait.

(** X25: [wait_port] always ends, with a connection or with
    [TimeoutError], less than a quarter of a second past its deadline (an
    attempt takes up to 200 ms, the pause after a failure 50 ms).  It
    returns at the first attempt that is accepted within 200 ms, every
    attempt before having failed; it raises only once the deadline has
    passed, after failures alone. *)
Theorem X25_wait_port_connects_or_times_out : forall timeout w,
  exists w' r,
    Port.wait_port timeout w = Some (w', r)
    /\ Port.now w <= Port.now w' < Port.now w + Z.max 0 timeout + 250
    /\ exists tried,
         Forall attempt_fails tried
         /\ match r with
            | Ok _ =>
                exists d,
                  Port.attempts w
                  = (tried ++ (d, true) :: Port.attempts w')%list
                  /\ d < 200
            | Raise e =>
                e = TimeoutError "Timeout waiting for port"
                /\ Port.now w + timeout <= Port.now w'
                /\ Port.attempts w = (tried ++ Port.attempts w')%list
            end.
Proof.
  intros timeout w. unfold Port.wait_port.
  destruct (wait_loop_total (Z.to_nat (timeout / 50 + 1))
              (Port.now w + timeout) w) as (w' & r & Hret).
  { destruct (Z.le_gt_cases 0 timeout) as [Hpos|Hneg].
    - rewrite Z2Nat.id by (pose proof (Z.div_pos timeout 50 Hpos); lia).
      pose proof (Z.mul_succ_div_gt timeout 50). lia.
    - lia. }
  exists w', r. split; [exact Hret|].
  apply wait_loop_spec in Hret. destruct Hret as (Hn & Hbound & Hres).
  split; [lia|exact Hres].
Qed.
